(** * Career AI Agent: a shallow embedding of the router, the state store,
      the prompt templates, the job adapter and the heatmap post-processor.

    Python text is modelled by Rocq strings, one character per code point
    below 256.  Character classes ([str.isspace], [\d]) and [str.lower] are
    those of Python on that range.  A code point above 255 (the emoji and the
    typographic signs of the fixed notices, the capitals of the micro sign
    and of y with diaeresis) is kept as the bytes of its UTF-8 form, as in the
    source file; lengths and slices are exact on text without such code
    points. *)

From Stdlib Require Import ZArith Lia Ascii DecimalString.
From stdpp Require Import gmap strings.

Local Open Scope Z_scope.

(** ** Python string primitives *)

Module PyStr.

Definition code (c : ascii) : N := Ascii.N_of_ascii c.

Definition between (lo hi n : N) : bool := ((lo <=? n) && (n <=? hi))%N.

(** [str.isspace] on one character. *)
Definition is_space (c : ascii) : bool :=
  between 9 13 (code c) || between 28 32 (code c)
  || (code c =? 133)%N || (code c =? 160)%N.

(** The class [\d] of the [re] module. *)
Definition is_digit (c : ascii) : bool := between 48 57 (code c).

Definition digit_val (c : ascii) : Z := Z.of_N (code c) - 48.

Definition lower_char (c : ascii) : ascii :=
  if between 65 90 (code c)
     || (between 192 222 (code c) && negb (code c =? 215)%N)
  then Ascii.ascii_of_N (code c + 32) else c.

(** [str.upper] on one character: sharp s gives two letters, and the
    capitals of the micro sign (U+039C) and of y with diaeresis (U+0178) lie
    above 255. *)
Definition upper_char (c : ascii) : string :=
  if (code c =? 223)%N then "SS"
  else if (code c =? 181)%N then "Μ"
  else if (code c =? 255)%N then "Ÿ"
  else if between 97 122 (code c)
          || (between 224 254 (code c) && negb (code c =? 247)%N)
  then String (Ascii.ascii_of_N (code c - 32)) ""
  else String c "".

Fixpoint lower (s : string) : string :=
  match s with
  | EmptyString => ""
  | String c s' => String (lower_char c) (lower s')
  end.

Fixpoint upper (s : string) : string :=
  match s with
  | EmptyString => ""
  | String c s' => upper_char c +:+ upper s'
  end.

Fixpoint lstrip (s : string) : string :=
  match s with
  | EmptyString => ""
  | String c s' => if is_space c then lstrip s' else s
  end.

Fixpoint rstrip (s : string) : string :=
  match s with
  | EmptyString => ""
  | String c s' =>
      match rstrip s' with
      | EmptyString => if is_space c then "" else String c ""
      | r => String c r
      end
  end.

Definition strip (s : string) : string := rstrip (lstrip s).

Definition len (s : string) : Z := Z.of_nat (String.length s).

Definition is_empty (s : string) : bool :=
  match s with EmptyString => true | _ => false end.

Definition eqb (a b : string) : bool := bool_decide (a = b).

Definition startswith (p s : string) : bool := String.prefix p s.

(** [sub in s] *)
Fixpoint contains (sub s : string) : bool :=
  String.prefix sub s
  || match s with
     | EmptyString => false
     | String _ s' => contains sub s'
     end.

(** [x in [a, b, ...]] on a list of strings. *)
Definition member (x : string) (l : list string) : bool :=
  existsb (eqb x) l.

(** [any(k in text for k in keys)] *)
Definition contains_any (keys : list string) (text : string) : bool :=
  existsb (fun k => contains k text) keys.

(** [s[:n]] for [0 <= n] *)
Fixpoint take (n : nat) (s : string) : string :=
  match n, s with
  | S k, String c s' => String c (take k s')
  | _, _ => ""
  end.

Fixpoint drop (n : nat) (s : string) : string :=
  match n, s with
  | S k, String _ s' => drop k s'
  | _, _ => s
  end.

Fixpoint join (sep : string) (l : list string) : string :=
  match l with
  | [] => ""
  | [w] => w
  | w :: ws => w +:+ sep +:+ join sep ws
  end.

Fixpoint concat (l : list string) : string :=
  match l with
  | [] => ""
  | w :: ws => w +:+ concat ws
  end.

(** [s * n] *)
Definition mul (s : string) (n : Z) : string :=
  concat (replicate (Z.to_nat n) s).

(** [s.split(sep)] for a one-character separator: the first field and the
    remaining ones. *)
Fixpoint fields (sep : ascii) (s : string) : string * list string :=
  match s with
  | EmptyString => ("", [])
  | String c s' =>
      let '(w, ws) := fields sep s' in
      if bool_decide (c = sep) then ("", w :: ws) else (String c w, ws)
  end.

Definition split_on (sep : ascii) (s : string) : list string :=
  let '(w, ws) := fields sep s in w :: ws.

Definition cons_word (w : string) (ws : list string) : list string :=
  if is_empty w then ws else w :: ws.

Fixpoint words (s : string) : string * list string :=
  match s with
  | EmptyString => ("", [])
  | String c s' =>
      let '(w, ws) := words s' in
      if is_space c then ("", cons_word w ws) else (String c w, ws)
  end.

(** [s.split()] *)
Definition split (s : string) : list string :=
  let '(w, ws) := words s in cons_word w ws.

(** Line boundaries of [str.splitlines]. *)
Definition is_linebreak (c : ascii) : bool :=
  between 10 13 (code c) || between 28 30 (code c) || (code c =? 133)%N.

Definition push_char (c : ascii) (ls : list string) : list string :=
  match ls with
  | [] => [String c ""]
  | l :: ls' => String c l :: ls'
  end.

Fixpoint splitlines (s : string) : list string :=
  match s with
  | EmptyString => []
  | String c s' =>
      if is_linebreak c then
        match s' with
        | String d s'' =>
            if (code c =? 13)%N && (code d =? 10)%N
            then "" :: splitlines s''
            else "" :: splitlines s'
        | EmptyString => [""]
        end
      else push_char c (splitlines s')
  end.

Fixpoint replace_from (old new : string) (skip : nat) (s : string) : string :=
  match s with
  | EmptyString => ""
  | String c s' =>
      match skip with
      | S k => replace_from old new k s'
      | O =>
          if String.prefix old s
          then new +:+ replace_from old new (String.length old - 1) s'
          else String c (replace_from old new 0 s')
      end
  end.

Fixpoint interleave (new : string) (s : string) : string :=
  match s with
  | EmptyString => new
  | String c s' => new +:+ String c (interleave new s')
  end.

(** [s.replace(old, new)] *)
Definition replace (old new s : string) : string :=
  if is_empty old then interleave new s else replace_from old new 0 s.

(** [int(ds)] for a string of decimal digits *)
Fixpoint int_from (acc : Z) (ds : string) : Z :=
  match ds with
  | EmptyString => acc
  | String c ds' => int_from (10 * acc + digit_val c) ds'
  end.

Definition int_of_digits (ds : string) : Z := int_from 0 ds.

Fixpoint take_digits (n : nat) (s : string) : string :=
  match n, s with
  | S k, String c s' => if is_digit c then String c (take_digits k s') else ""
  | _, _ => ""
  end.

(** [re.search(r"\d{1,3}", s)]: the text of the leftmost match, the
    quantifier being greedy. *)
Fixpoint search_digits_1_3 (s : string) : option string :=
  match s with
  | EmptyString => None
  | String c s' =>
      if is_digit c then Some (take_digits 3 s) else search_digits_1_3 s'
  end.

(** The maximal run of digits at the head of [s] (what [\d+] matches). *)
Fixpoint digit_run (s : string) : string :=
  match s with
  | String c s' => if is_digit c then String c (digit_run s') else ""
  | EmptyString => ""
  end.

(** [re.search(prefix + r"(\d+)", s)]: group 1 of the leftmost match. *)
Fixpoint search_prefix_digits (prefix s : string) : option string :=
  let here :=
    if String.prefix prefix s
    then let r := digit_run (drop (String.length prefix) s) in
         if is_empty r then None else Some r
    else None in
  match here, s with
  | Some r, _ => Some r
  | None, String _ s' => search_prefix_digits prefix s'
  | None, EmptyString => None
  end.

(** [s.endswith(suffix)] *)
Definition endswith (suffix s : string) : bool :=
  (String.length suffix <=? String.length s)%nat
  && eqb (drop (String.length s - String.length suffix) s) suffix.

End PyStr.


(** ** Data model *)

(** One entry of [memory["history"]]: the Gradio controller stores
    [{"time", "user"}]; [add_to_history] stores entries tagged
    ["user_input"] and ["assistant_response"]. *)
Inductive hist_entry : Type :=
| HUser (time user : string)
| HUserInput (time user : string)
| HAssistant (time assistant : string).

Record conv_pair : Type := ConvPair {
  pair_user : string;
  pair_assistant : string;
  pair_timestamp : string
}.

(** [memory["interview"]]; an absent key is [None], the value [None] of
    ["started_at"] is [Some None]. *)
Record interview_rec : Type := Interview {
  iv_index : option Z;
  iv_answers : option (list string);
  iv_started_at : option (option string)
}.

(** The per-user dictionary, by the keys the program reads and writes; a key
    that is absent from the dictionary is [None]. *)
Record Memory : Type := Mem {
  history : option (list hist_entry);
  conversation_pairs : option (list conv_pair);
  resume_text : option string;
  resume_uploaded : option bool;
  resume_file : option string;
  star_mode : option bool;
  last_response : option string;
  created_at : option string;
  updated_at : option string;
  interview : option interview_rec
}.

(** The dictionary [{}]. *)
Definition empty_dict : Memory :=
  Mem None None None None None None None None None None.

Definition set_history (v : list hist_entry) (m : Memory) : Memory :=
  Mem (Some v) (conversation_pairs m) (resume_text m) (resume_uploaded m)
      (resume_file m) (star_mode m) (last_response m) (created_at m)
      (updated_at m) (interview m).
Definition set_conversation_pairs (v : list conv_pair) (m : Memory) : Memory :=
  Mem (history m) (Some v) (resume_text m) (resume_uploaded m)
      (resume_file m) (star_mode m) (last_response m) (created_at m)
      (updated_at m) (interview m).
Definition set_resume_text (v : string) (m : Memory) : Memory :=
  Mem (history m) (conversation_pairs m) (Some v) (resume_uploaded m)
      (resume_file m) (star_mode m) (last_response m) (created_at m)
      (updated_at m) (interview m).
Definition set_resume_uploaded (v : bool) (m : Memory) : Memory :=
  Mem (history m) (conversation_pairs m) (resume_text m) (Some v)
      (resume_file m) (star_mode m) (last_response m) (created_at m)
      (updated_at m) (interview m).
Definition set_resume_file (v : string) (m : Memory) : Memory :=
  Mem (history m) (conversation_pairs m) (resume_text m) (resume_uploaded m)
      (Some v) (star_mode m) (last_response m) (created_at m)
      (updated_at m) (interview m).
Definition set_star_mode_field (v : bool) (m : Memory) : Memory :=
  Mem (history m) (conversation_pairs m) (resume_text m) (resume_uploaded m)
      (resume_file m) (Some v) (last_response m) (created_at m)
      (updated_at m) (interview m).
Definition set_last_response (v : string) (m : Memory) : Memory :=
  Mem (history m) (conversation_pairs m) (resume_text m) (resume_uploaded m)
      (resume_file m) (star_mode m) (Some v) (created_at m)
      (updated_at m) (interview m).
Definition set_updated_at (v : string) (m : Memory) : Memory :=
  Mem (history m) (conversation_pairs m) (resume_text m) (resume_uploaded m)
      (resume_file m) (star_mode m) (last_response m) (created_at m)
      (Some v) (interview m).
Definition set_interview (v : interview_rec) (m : Memory) : Memory :=
  Mem (history m) (conversation_pairs m) (resume_text m) (resume_uploaded m)
      (resume_file m) (star_mode m) (last_response m) (created_at m)
      (updated_at m) (Some v).

(** Truth value of an optional string ([None] and [""] are false). *)
Definition truthy_str (o : option string) : bool :=
  match o with
  | Some s => negb (PyStr.is_empty s)
  | None => false
  end.

(** [str(x)] inside an f-string, for a string or [None]. *)
Definition fmt (o : option string) : string := default "None" o.

(** [l[-n:]] on a list, for [0 < n] *)
Definition last_n {A : Type} (n : nat) (l : list A) : list A :=
  drop (length l - n)%nat l.

(** [l[:n]] on a list, for any integer [n] *)
Definition slice_to {A : Type} (n : Z) (l : list A) : list A :=
  if 0 <=? n then take (Z.to_nat n) l
  else take (length l - Z.to_nat (- n))%nat l.

(** [l[k:]] on a list, for any integer [k] *)
Definition slice_from {A : Type} (k : Z) (l : list A) : list A :=
  if 0 <=? k then drop (Z.to_nat k) l
  else drop (length l - Z.to_nat (- k))%nat l.

(** ** The outside world *)

(** An exception, by class name and message ([str(e)]). *)
Inductive exn : Type := Exception (kind detail : string).

Definition exn_str (e : exn) : string :=
  match e with Exception _ d => d end.

(** What the Gemini client does with a prompt: it raises (in
    [generate_content] or when [response.text] is read), or gives text. *)
Inductive gen_result : Type :=
| GenRaises (e : exn)
| GenText (text : string).

(** A [base-search-card__info] node as [_parse_card] sees it: the text of
    the title, company and location elements when found, the [href] of the
    enclosing [base-card__full-link] anchor when there is one and it has the
    attribute, and [get_text(" ", strip=True)] of the metadata element. *)
Record card_tag : Type := CardTag {
  title_elem : option string;
  company_elem : option string;
  location_elem : option string;
  link_href : option string;
  metadata_elem : option string
}.

(** A card is a tag, or a node on which a lookup raises. *)
Inductive card : Type :=
| Card (t : card_tag)
| CardBroken.

(** What the LinkedIn request does: [session.get] (or the parser) raises, or
    there is a response with a status and the cards found in its body. *)
Inductive fetch_result : Type :=
| FetchRaises (e : exn)
| FetchResponse (status_code : Z) (job_cards : list card).

Record jsearch_job : Type := JJob {
  job_title : option string;
  employer_name : option string
}.

(** What the JSearch request does: [requests.get] raises, or there is a
    response with a status whose [json()] raises or has the list ["data"]. *)
Inductive jsearch_result : Type :=
| JRaises (e : exn)
| JBadBody (status_code : Z) (e : exn)
| JResponse (status_code : Z) (data : list jsearch_job).

Inductive event : Type :=
| Gateway (full_prompt : string)
| LinkedInGet (keywords : string)
| JSearchGet (query : string).

(** The file [data/memory.json]: it does not exist; it exists and [json.load]
    rejects its text with [JSONDecodeError]; or it holds a JSON object that
    maps user ids to records whose fields have the types the program writes.
    Other contents (bytes that are not UTF-8 text, JSON of another shape) are
    not represented: every statement below is about these three states. *)
Inductive file_state : Type :=
| FileMissing
| FileCorrupt
| FileValid (all_memory : gmap string Memory).

(** The state of the process and of what it talks to: the memory file, the
    clock (the text of the n-th reading), the outgoing calls made so far, and
    what each service answers to a request made as the n-th call. *)
Record World : Type := MkWorld {
  memory_file : file_state;
  ticks : nat;
  clock : nat -> string;
  trace : list event;
  gemini : nat -> string -> gen_result;
  linkedin : nat -> string -> fetch_result;
  jsearch_key : bool;
  jsearch : nat -> string -> jsearch_result
}.

Definition with_file (f : file_state) (w : World) : World :=
  MkWorld f (ticks w) (clock w) (trace w) (gemini w) (linkedin w)
          (jsearch_key w) (jsearch w).
Definition with_tick (w : World) : World :=
  MkWorld (memory_file w) (S (ticks w)) (clock w) (trace w) (gemini w)
          (linkedin w) (jsearch_key w) (jsearch w).
Definition with_event (e : event) (w : World) : World :=
  MkWorld (memory_file w) (ticks w) (clock w) (trace w ++ [e]) (gemini w)
          (linkedin w) (jsearch_key w) (jsearch w).

(** ** Computations: state passing with exceptions *)

Inductive outcome (A : Type) : Type :=
| Return (a : A)
| Raise (e : exn).
Arguments Return {A} a.
Arguments Raise {A} e.

Definition Py (A : Type) : Type := World -> outcome A * World.

Definition ret {A : Type} (a : A) : Py A := fun w => (Return a, w).

Definition raise {A : Type} (e : exn) : Py A := fun w => (Raise e, w).

Definition bind {A B : Type} (m : Py A) (k : A -> Py B) : Py B :=
  fun w =>
    match m w with
    | (Return a, w') => k a w'
    | (Raise e, w') => (Raise e, w')
    end.

(** [try: m except Exception as e: h e] *)
Definition try_except {A : Type} (m : Py A) (h : exn -> Py A) : Py A :=
  fun w =>
    match m w with
    | (Return a, w') => (Return a, w')
    | (Raise e, w') => h e w'
    end.

#[global] Instance py_ret : MRet Py := @ret.
#[global] Instance py_bind : MBind Py := fun A B k m => bind m k.

(** [datetime.utcnow().isoformat()] (and [datetime.now().isoformat()]) *)
Definition utcnow : Py string :=
  fun w => (Return (clock w (ticks w)), with_tick w).

Definition read_file : Py file_state := fun w => (Return (memory_file w), w).

Definition write_file (all_memory : gmap string Memory) : Py unit :=
  fun w => (Return tt, with_file (FileValid all_memory) w).

Definition log_event (e : event) : Py unit :=
  fun w => (Return tt, with_event e w).

Definition dq : string := String "034"%char "".

(** ** llm.py *)

Definition SYSTEM_PROMPT : string :=
  "
You are a Career AI Assistant.

You help ONLY with:
- Jobs and internships
- Resume and CV improvement
- Backend / software / data / AI careers
- Interview questions and preparation
- Career skills and guidance

Rules:
- Allow greetings like hello, hi
- If a question is NOT related to careers or tech:
  respond politely with:
  " +:+ dq +:+ "I'm focused on career and technical guidance. 
   Please ask something related to jobs, resumes, or interviews." +:+ dq +:+ "
- Be concise and practical
".


(** [model.generate_content(full_prompt)] and [response.text] *)
Definition generate_content (full_prompt : string) : Py string :=
  fun w =>
    let w' := with_event (Gateway full_prompt) w in
    match gemini w (length (trace w)) full_prompt with
    | GenRaises e => (Raise e, w')
    | GenText t => (Return t, w')
    end.

Definition LLM_ERROR : string := "⚠️ LLM error: ".

Definition full_prompt_of (user_prompt : string) : string :=
  SYSTEM_PROMPT +:+ "

User question:
" +:+ user_prompt.

Definition query_llm (user_prompt : string) : Py string :=
  try_except
    (text ← generate_content (full_prompt_of user_prompt);
     ret (PyStr.strip text))
    (fun e => ret (LLM_ERROR +:+ exn_str e)).

Definition nl : string := String "010"%char "".

Definition lift {A : Type} (o : outcome A) : Py A := fun w => (o, w).

(** [d[key]] on a key that may be absent *)
Definition getitem {A : Type} (key : string) (o : option A) : Py A :=
  match o with
  | Some a => ret a
  | None => raise (Exception "KeyError" ("'" +:+ key +:+ "'"))
  end.

(** [str(n)] for an integer *)
Definition str_of_int (n : Z) : string :=
  NilZero.string_of_int (Z.to_int n).

(** The module [memory] that [analytics.py] imports: the one beside the
    application that loads it. *)
Class MemoryLayer : Type := {
  load_memory : string -> Py Memory
}.

(** ** memory.py (beside the Gradio application [app.py]) *)

Module RootMemory.

Definition json_load : Py (gmap string Memory) :=
  f ← read_file;
  match f with
  | FileValid all_memory => ret all_memory
  | FileCorrupt => raise (Exception "JSONDecodeError" "Expecting value")
  | FileMissing => raise (Exception "FileNotFoundError" "data/memory.json")
  end.

Definition path_exists : Py bool :=
  f ← read_file;
  ret (match f with FileMissing => false | _ => true end).

Definition load_memory (user_id : string) : Py Memory :=
  e ← path_exists;
  if negb e then ret empty_dict
  else
    all_memory ← json_load;
    ret (default empty_dict (all_memory !! user_id)).

Definition save_memory (user_id : string) (memory : Memory) : Py unit :=
  e ← path_exists;
  all_memory ← (if e : bool then json_load else ret ∅);
  write_file (<[user_id := memory]> all_memory).

#[export] Instance layer : MemoryLayer := Build_MemoryLayer load_memory.

End RootMemory.

(** ** backend/memory.py *)

Module BackendMemory.

Definition MAX_HISTORY_LENGTH : nat := 50.
Definition MAX_CONVERSATION_PAIRS : nat := 20.

Definition default_interview : interview_rec :=
  Interview (Some 0) (Some []) (Some None).

Definition create_empty_memory : Py Memory :=
  created ← utcnow;
  updated ← utcnow;
  ret (Mem (Some []) (Some []) (Some "") (Some false) (Some "") (Some false)
           (Some "") (Some created) (Some updated) (Some default_interview)).

(** [if key not in memory: memory[key] = default_value] *)
Definition fill {A : Type} (default_value : A) (o : option A) : option A :=
  match o with
  | Some v => Some v
  | None => Some default_value
  end.

(** The fields [ensure_memory_structure] adds when they are missing. *)
Definition with_defaults (memory : Memory) : Memory :=
  let memory :=
    Mem (fill [] (history memory)) (fill [] (conversation_pairs memory))
        (fill "" (resume_text memory)) (fill false (resume_uploaded memory))
        (fill "" (resume_file memory)) (fill false (star_mode memory))
        (fill "" (last_response memory)) (created_at memory)
        (updated_at memory) (fill default_interview (interview memory)) in
  match interview memory with
  | None => set_interview default_interview memory
  | Some iv =>
      set_interview
        (Interview (fill 0 (iv_index iv)) (fill [] (iv_answers iv))
                   (fill None (iv_started_at iv)))
        memory
  end.

Definition ensure_memory_structure (memory : Memory) : Py Memory :=
  let memory := with_defaults memory in
  now ← utcnow;
  ret (set_updated_at now memory).

Definition load_memory (user_id : string) : Py Memory :=
  f ← read_file;
  match f with
  | FileMissing => create_empty_memory
  | FileCorrupt => create_empty_memory
  | FileValid all_memory =>
      ensure_memory_structure (default empty_dict (all_memory !! user_id))
  end.

Definition save_memory (user_id : string) (memory : Memory) : Py unit :=
  f ← read_file;
  let all_memory : gmap string Memory :=
    match f with
    | FileValid all_memory => all_memory
    | _ => ∅
    end in
  memory ← ensure_memory_structure memory;
  write_file (<[user_id := memory]> all_memory).

Definition add_to_history (user_id user_input : string)
    (response : option string) : Py unit :=
  memory ← load_memory user_id;
  h ← getitem "history" (history memory);
  t ← utcnow;
  let memory := set_history (h ++ [HUserInput t user_input]) memory in
  memory ←
    (if truthy_str response then
       h ← getitem "history" (history memory);
       t ← utcnow;
       ret (set_history
              (h ++ [HAssistant t (PyStr.take 500 (default "" response))])
              memory)
     else ret memory);
  memory ←
    (if truthy_str response then
       let pairs := default [] (conversation_pairs memory) in
       t ← utcnow;
       let pairs :=
         pairs ++ [ConvPair user_input (PyStr.take 1000 (default "" response)) t] in
       let memory := set_conversation_pairs pairs memory in
       if (MAX_CONVERSATION_PAIRS <? length pairs)%nat
       then ret (set_conversation_pairs (last_n MAX_CONVERSATION_PAIRS pairs) memory)
       else ret memory
     else ret memory);
  h ← getitem "history" (history memory);
  let memory :=
    if (MAX_HISTORY_LENGTH <? length h)%nat
    then set_history (last_n MAX_HISTORY_LENGTH h) memory
    else memory in
  let memory :=
    if truthy_str response
    then set_last_response (default "" response) memory
    else memory in
  now ← utcnow;
  save_memory user_id (set_updated_at now memory).

Definition set_resume (user_id resume_text file_path : string) : Py unit :=
  memory ← load_memory user_id;
  let memory := set_resume_text resume_text memory in
  let memory := set_resume_uploaded true memory in
  let memory := set_resume_file file_path memory in
  now ← utcnow;
  save_memory user_id (set_updated_at now memory).

Definition clear_resume (user_id : string) : Py unit :=
  memory ← load_memory user_id;
  let memory := set_resume_text "" memory in
  let memory := set_resume_uploaded false memory in
  let memory := set_resume_file "" memory in
  now ← utcnow;
  save_memory user_id (set_updated_at now memory).

Definition is_resume_uploaded (user_id : string) : Py bool :=
  memory ← load_memory user_id;
  ret (default false (resume_uploaded memory)).

Definition get_resume_text (user_id : string) : Py string :=
  memory ← load_memory user_id;
  ret (default "" (resume_text memory)).

Definition set_star_mode (user_id : string) (enabled : bool) : Py unit :=
  memory ← load_memory user_id;
  let memory := set_star_mode_field enabled memory in
  now ← utcnow;
  save_memory user_id (set_updated_at now memory).

Definition is_star_mode (user_id : string) : Py bool :=
  memory ← load_memory user_id;
  ret (default false (star_mode memory)).

Definition clear_memory (user_id : string) : Py unit :=
  empty_memory ← create_empty_memory;
  save_memory user_id empty_memory.

#[export] Instance layer : MemoryLayer := Build_MemoryLayer load_memory.


Fixpoint context_lines (pairs : list conv_pair) : list string :=
  match pairs with
  | [] => []
  | p :: rest =>
      ("User: " +:+ pair_user p)
      :: ("Assistant: " +:+ PyStr.take 200 (pair_assistant p))
      :: context_lines rest
  end.

Definition get_conversation_context (user_id : string) (last_n : Z) : Py string :=
  memory ← load_memory user_id;
  let pairs := default [] (conversation_pairs memory) in
  if (length pairs =? 0)%nat then ret ""
  else
    let recent_pairs :=
      if last_n <? Z.of_nat (length pairs) then slice_from (- last_n) pairs
      else pairs in
    ret (PyStr.join nl (context_lines recent_pairs)).

Definition get_resume_context (user_id : string) : Py string :=
  memory ← load_memory user_id;
  if default false (resume_uploaded memory) && truthy_str (resume_text memory)
  then
    text ← getitem "resume_text" (resume_text memory);
    ret (PyStr.take 1500 text)
  else ret "".

Definition update_interview_progress (user_id : string) (answer : option string)
    : Py unit :=
  memory ← load_memory user_id;
  let interview := default default_interview (interview memory) in
  interview ←
    match answer with
    | Some a =>
        answers ← getitem "answers" (iv_answers interview);
        ret (Interview (iv_index interview) (Some (answers ++ [a]))
                       (iv_started_at interview))
    | None => ret interview
    end;
  answers ← getitem "answers" (iv_answers interview);
  let interview :=
    Interview (Some (Z.of_nat (length answers))) (iv_answers interview)
              (iv_started_at interview) in
  started_at ← getitem "started_at" (iv_started_at interview);
  interview ←
    match started_at : option string with
    | None =>
        now ← utcnow;
        ret (Interview (iv_index interview) (iv_answers interview)
                       (Some (Some now)))
    | Some _ => ret interview
    end;
  now ← utcnow;
  save_memory user_id (set_updated_at now (set_interview interview memory)).

End BackendMemory.

(** ** backend/resume.py *)

Module BackendResume.

Definition resume_prompt (resume_text : string) : string :=
  "
Analyze this resume and give improvement suggestions:

"
  +:+ resume_text
  +:+ "
".

(** [pdf] is what [pdfplumber] gives for the file: it raises, or there are
    pages, each with the result of [extract_text()]. *)
Definition analyze_resume (pdf : outcome (list (option string)))
    (user_id : string) : Py string :=
  pages ← lift pdf;
  let text := PyStr.join nl (map (fun page => if truthy_str page then default "" page else "") pages) in
  let resume_text := PyStr.take 3000 text in
  response ← query_llm (resume_prompt resume_text);
  memory ← BackendMemory.load_memory user_id;
  let memory := set_resume_text resume_text memory in
  let memory := set_resume_uploaded true memory in
  BackendMemory.save_memory user_id memory;;
  ret response.

End BackendResume.

(** ** analytics.py *)

Definition UPLOAD_FIRST : string := "📄 Please upload your resume first.".

Definition role_prompt (resume_text target_role : string) : string :=
  "
You are a senior technical recruiter.

Resume:
"
  +:+ resume_text
  +:+ "

Target Role:
"
  +:+ target_role
  +:+ "

Task:
- Identify weak sections
- Suggest concrete improvements
- Mention missing skills or experience
- Keep suggestions actionable

Output format:
- Bullet points only
- Clear and concise
".

Definition skill_gap_prompt (resume_text job_description : string) : string :=
  "
You are an AI hiring analyst.

Resume:
"
  +:+ resume_text
  +:+ "

Job Description:
"
  +:+ job_description
  +:+ "

Task:
- Identify the TOP 3 missing or weak skills
- Explain WHY each skill matters
- Suggest HOW to learn or improve each skill

Rules:
- No fluff
- Career-focused
- Practical advice
".

Definition match_prompt (resume_text job_description : string) : string :=
  "
You are an ATS (Applicant Tracking System).

Resume:
"
  +:+ resume_text
  +:+ "

Job Description:
"
  +:+ job_description
  +:+ "

Task:
- Give a match percentage (0–100%)
- Explain strengths
- Explain gaps

Output format:
Match Percentage: XX%
Strengths:
- ...
Gaps:
- ...
".

Definition reverse_prompt (resume_text : string) : string :=
  "
You are a career strategist.

Resume:
"
  +:+ resume_text
  +:+ "

Task:
- Identify hidden strengths
- Infer transferable skills
- Suggest 3 alternative job roles the user
  may not be actively searching for

For each role:
- Why they are a good fit
- What to improve to transition into it

Rules:
- Do NOT repeat obvious roles
- Focus on career growth
".

Definition star_prompt (raw_story : string) : string :=
  "
You are an interview coach.

User's raw story:
"
  +:+ raw_story
  +:+ "

Task:
- Extract Situation
- Extract Task
- Extract Action
- Extract Result

Then generate:
- A polished 30-second interview answer
- Clear, confident, professional tone
".


Definition heatmap_prompt (resume_text jd_text : string) : string :=
  "
You are an ATS + career expert.

Compare each resume section against the job description.

Resume:
"
  +:+ resume_text
  +:+ "

Job Description:
"
  +:+ jd_text
  +:+ "

Return output ONLY in this format:

Section | Score | Explanation

Rules:
- Score between 0 and 100
- One section per line
- No extra text
".


(** *** The heatmap post-processor (the loop body of [resume_heatmap]) *)

Definition heatmap_score (score_text : string) : Z :=
  let score :=
    match PyStr.search_digits_1_3 score_text with
    | Some m => PyStr.int_of_digits m
    | None => 0
    end in
  Z.max 0 (Z.min score 100).

Definition FILLED : string := "●".
Definition HOLLOW : string := "○".

Definition heatmap_bar (score : Z) : string :=
  let filled := score / 10 in
  PyStr.mul FILLED filled +:+ PyStr.mul HOLLOW (10 - filled).

Definition heatmap_icon (score : Z) : string :=
  if 75 <=? score then "🟢"
  else if 40 <=? score then "🟡"
  else "🔴".

Definition heatmap_verdict (score : Z) : string :=
  if 75 <=? score then "Strong match"
  else if 40 <=? score then "Partial match"
  else "Weak match".

Definition heatmap_block (section score_text explanation : string) : string :=
  let score := heatmap_score score_text in
  heatmap_icon score +:+ " **" +:+ PyStr.upper section +:+ "**" +:+ nl
  +:+ heatmap_bar score +:+ "  **" +:+ str_of_int score +:+ "% — "
  +:+ heatmap_verdict score +:+ "**" +:+ nl
  +:+ "_" +:+ explanation +:+ "_" +:+ nl.

(** One turn of the loop: [None] for [continue], a block to append, or the
    [ValueError] of unpacking more than three fields. *)
Definition heatmap_row (line : string) : outcome (option string) :=
  if negb (PyStr.contains "|" line) then Return None
  else
    let parts := map PyStr.strip (PyStr.split_on "|" line) in
    if (length parts <? 3)%nat then Return None
    else
      match parts with
      | [section; score_text; explanation] =>
          if PyStr.member (PyStr.lower section) ["section"; "score"; "---"]
          then Return None
          else Return (Some (heatmap_block section score_text explanation))
      | _ => Raise (Exception "ValueError" "too many values to unpack (expected 3)")
      end.

Fixpoint heatmap_loop (lines heatmap_lines : list string)
    : outcome (list string) :=
  match lines with
  | [] => Return heatmap_lines
  | line :: rest =>
      match heatmap_row line with
      | Return None => heatmap_loop rest heatmap_lines
      | Return (Some block) => heatmap_loop rest (heatmap_lines ++ [block])
      | Raise e => Raise e
      end
  end.

Definition NO_HEATMAP : string := "⚠️ Could not generate heatmap.".
Definition HEATMAP_HEADER : string :=
  "📊 **Resume Heatmap vs Job Description**" +:+ nl +:+ nl.

Section Analytics.
Context {ML : MemoryLayer}.

Definition analyze_resume_for_role (target_role : string) : Py string :=
  memory ← load_memory "default";
  let resume_text := resume_text memory in
  if negb (truthy_str resume_text) then ret UPLOAD_FIRST
  else query_llm (role_prompt (fmt resume_text) target_role).

Definition detect_skill_gaps (job_description : string) : Py string :=
  memory ← load_memory "default";
  let resume_text := resume_text memory in
  if negb (truthy_str resume_text) then ret UPLOAD_FIRST
  else query_llm (skill_gap_prompt (fmt resume_text) job_description).

Definition calculate_resume_job_match (job_description : string) : Py string :=
  memory ← load_memory "default";
  let resume_text := resume_text memory in
  if negb (truthy_str resume_text) then ret UPLOAD_FIRST
  else query_llm (match_prompt (fmt resume_text) job_description).

Definition reverse_job_matcher : Py string :=
  memory ← load_memory "default";
  let resume_text := resume_text memory in
  if negb (truthy_str resume_text) then ret UPLOAD_FIRST
  else query_llm (reverse_prompt (fmt resume_text)).

Definition build_star_story (raw_story : string) : Py string :=
  query_llm (star_prompt raw_story).


Definition resume_heatmap (jd_text : string) : Py string :=
  memory ← load_memory "default";
  let resume_text := resume_text memory in
  if negb (truthy_str resume_text) then ret UPLOAD_FIRST
  else
    result ← query_llm (heatmap_prompt (fmt resume_text) jd_text);
    heatmap_lines ← lift (heatmap_loop (PyStr.splitlines result) []);
    if (length (heatmap_lines : list string) =? 0)%nat then ret NO_HEATMAP
    else ret (HEATMAP_HEADER +:+ PyStr.join nl heatmap_lines).

End Analytics.

(** ** backend/jobs.py *)

Module BackendJobs.

Record job : Type := Job {
  title : string;
  company : string;
  location : string;
  description : string;
  url : string;
  source : string
}.

Definition hex_digit (n : N) : ascii :=
  if (n <? 10)%N then Ascii.ascii_of_N (48 + n) else Ascii.ascii_of_N (55 + n).

Definition percent (byte : N) : string :=
  String "%" (String (hex_digit (byte / 16)) (String (hex_digit (byte mod 16)) "")).

(** Characters [urllib.parse.quote] never quotes: letters, digits, [_.-~]
    and the default safe character [/]. *)
Definition unreserved (c : ascii) : bool :=
  let n := PyStr.code c in
  PyStr.between 65 90 n || PyStr.between 97 122 n || PyStr.between 48 57 n
  || (n =? 95)%N || (n =? 46)%N || (n =? 45)%N || (n =? 126)%N || (n =? 47)%N.

(** One character of [quote]: kept, or the percent-escapes of its UTF-8 bytes. *)
Definition quote_char (c : ascii) : string :=
  let n := PyStr.code c in
  if unreserved c then String c ""
  else if (n <? 128)%N then percent n
  else percent (192 + n / 64) +:+ percent (128 + n mod 64).

(** [urllib.parse.quote(query)] *)
Fixpoint quote (s : string) : string :=
  match s with
  | EmptyString => ""
  | String c s' => quote_char c +:+ quote s'
  end.

Definition SEARCH_URL : string := "https://www.linkedin.com/jobs/search/?keywords=".

Definition _get_search_link (query : string) : list job :=
  let encoded := quote query in
  let linkedin_url := SEARCH_URL +:+ encoded in
  [Job ("Search " +:+ query +:+ " jobs on LinkedIn") "LinkedIn" "Worldwide"
       "Click to search real jobs on LinkedIn" linkedin_url "LinkedIn Search"].

Definition text_or (fallback : string) (elem : option string) : string :=
  match elem with
  | Some text => PyStr.strip text
  | None => fallback
  end.

Definition card_url (title company : string) (link : option string) : string :=
  match link with
  | Some href =>
      let href :=
        if PyStr.startswith "/" href
        then "https://www.linkedin.com" +:+ href else href in
      if PyStr.contains "currentJobId=" href then href
      else
        match PyStr.search_prefix_digits "/jobs/view/" href with
        | Some job_id =>
            let encoded_title := PyStr.replace " " "%20" title in
            let encoded_company := PyStr.replace " " "%20" company in
            "https://www.linkedin.com/jobs/search/?currentJobId=" +:+ job_id
            +:+ "&keywords=" +:+ encoded_title +:+ "%20" +:+ encoded_company
        | None => href
        end
  | None =>
      let encoded_query := PyStr.replace " " "%20" (title +:+ " " +:+ company) in
      SEARCH_URL +:+ encoded_query
  end.

Definition raw_description (title company location : string)
    (metadata : option string) : string :=
  match metadata with
  | Some text =>
      let meta_text := PyStr.strip (PyStr.replace location "" text) in
      if PyStr.is_empty meta_text then title +:+ " at " +:+ company
      else meta_text
  | None => title +:+ " position at " +:+ company
  end.

(** The two statements under [# Clean description]. *)
Definition clean_description (description : string) : string :=
  let description := PyStr.join " " (PyStr.split description) in
  if (120 <? String.length description)%nat
  then PyStr.take 120 description +:+ "..."
  else description.

Definition card_description (title company location : string)
    (metadata : option string) : string :=
  clean_description (raw_description title company location metadata).

Definition _parse_card (c : card) : option job :=
  match c with
  | CardBroken => None
  | Card t =>
      let title := text_or "Job" (title_elem t) in
      let company := text_or "Company" (company_elem t) in
      let location := text_or "Remote" (location_elem t) in
      let url := card_url title company (link_href t) in
      let description := card_description title company location (metadata_elem t) in
      Some (Job title company location description url "LinkedIn")
  end.

(** [self.session.get(url, params=params, timeout=10)] and the parse of the
    body into cards. *)
Definition session_get (query : string) : Py (Z * list card) :=
  fun w =>
    let w' := with_event (LinkedInGet query) w in
    match linkedin w (length (trace w)) query with
    | FetchRaises e => (Raise e, w')
    | FetchResponse status_code job_cards => (Return (status_code, job_cards), w')
    end.

Definition get_jobs (query : string) (limit : Z) : Py (list job) :=
  try_except
    (response ← session_get query;
     if negb (fst (response : Z * list card) =? 200)
     then ret (_get_search_link query)
     else
       let jobs := omap _parse_card (slice_to limit (snd response)) in
       if (0 <? length jobs)%nat then ret jobs
       else ret (_get_search_link query))
    (fun _ => ret (_get_search_link query)).

Definition format_job (j : job) : string :=
  let display_url :=
    if negb (PyStr.is_empty (url j)) && negb (PyStr.eqb (url j) "#")
       && PyStr.contains "linkedin.com" (url j)
    then url j
    else
      let search_query := PyStr.replace " " "+" (title j +:+ " " +:+ company j) in
      SEARCH_URL +:+ search_query in
  "**" +:+ title j +:+ "**" +:+ nl
  +:+ "**Company:** " +:+ company j +:+ nl
  +:+ "**Location:** " +:+ location j +:+ nl
  +:+ "**Description:** " +:+ description j +:+ nl
  +:+ "**Apply:** " +:+ display_url +:+ nl
  +:+ "---".

Definition search_jobs (query : string) : Py (list string) :=
  let clean_query := PyStr.strip (PyStr.replace "for" "" (PyStr.replace "jobs" "" query)) in
  let clean_query := if PyStr.is_empty clean_query then "developer" else clean_query in
  jobs ← get_jobs clean_query 5;
  ret (map format_job jobs).

Definition search_jobs_by_skills (resume_text role : string) : Py (list string) :=
  let resume_lower := PyStr.lower resume_text in
  if PyStr.contains "python" resume_lower then search_jobs "python developer"
  else if PyStr.contains "java" resume_lower then search_jobs "java developer"
  else if PyStr.contains "javascript" resume_lower then search_jobs "javascript developer"
  else if PyStr.contains "data" resume_lower then search_jobs "data scientist"
  else if PyStr.contains "aws" resume_lower || PyStr.contains "cloud" resume_lower
  then search_jobs "devops engineer"
  else search_jobs role.

End BackendJobs.

(** ** jobs.py (beside the Gradio application) *)

Module RootJobs.

Definition job_line (j : jsearch_job) : outcome string :=
  match job_title j, employer_name j with
  | None, _ => Raise (Exception "KeyError" "'job_title'")
  | Some _, None => Raise (Exception "KeyError" "'employer_name'")
  | Some t, Some e => Return (t +:+ " @ " +:+ e)
  end.

Fixpoint job_lines (data : list jsearch_job) : outcome (list string) :=
  match data with
  | [] => Return []
  | j :: rest =>
      match job_line j with
      | Raise e => Raise e
      | Return l =>
          match job_lines rest with
          | Raise e => Raise e
          | Return ls => Return (l :: ls)
          end
      end
  end.

Definition or_list (jobs fallback : list string) : list string :=
  match jobs with [] => fallback | _ => jobs end.

Definition search_jobs (query : string) : Py (list string) :=
  fun w =>
    if negb (jsearch_key w)
    then (Return ["⚠️ Job search API key not configured"], w)
    else
      let w' := with_event (JSearchGet query) w in
      match jsearch w (length (trace w)) query with
      | JRaises e => (Raise e, w')
      | JBadBody status_code e =>
          if status_code =? 200 then (Raise e, w')
          else (Return ["No jobs found"], w')
      | JResponse status_code data =>
          if status_code =? 200 then
            match job_lines (take 3 data) with
            | Raise e => (Raise e, w')
            | Return jobs => (Return (or_list jobs ["No jobs found"]), w')
            end
          else (Return ["No jobs found"], w')
      end.

End RootJobs.

(** ** app.py (the Gradio application) *)

Module RootApp.

Record chat_msg : Type := ChatMsg { role : string; content : string }.

Definition GREETING : string := "Hello 👋 How can I help you with your career today?".

Definition STAR_ASK : string :=
  "Great 👍" +:+ nl +:+ nl
  +:+ "Please describe your experience or project in your own words." +:+ nl
  +:+ "I’ll convert it into a STAR interview answer.".

Definition interview_prompt (user_input : string) : string :=
  "
        You are a technical interviewer.

        Generate 5 interview questions for:
        "
  +:+ user_input
  +:+ "

        Rules:
        - Questions only
        - No explanations
        ".

Definition job_reply (jobs : list string) : string :=
  match jobs with
  | [] => "⚠️ No matching jobs found."
  | _ =>
      "🔎 **Top matching opportunities:**" +:+ nl +:+ nl
      +:+ PyStr.join nl (map (fun job => "- " +:+ job) jobs)
  end.

Definition agent_controller (user_input : string) (chat_history : list chat_msg)
    : Py (list chat_msg * Memory * string) :=
  memory ← RootMemory.load_memory "default";
  let star_mode := default false (star_mode memory) in
  t ← utcnow;
  let memory := set_history (default [] (history memory) ++ [HUser t user_input]) memory in
  let text := PyStr.strip (PyStr.lower user_input) in
  answered ←
    (if PyStr.member text ["hi"; "hello"; "hey"] then ret (GREETING, memory)
     else if star_mode then
       response ← build_star_story user_input;
       let memory := set_star_mode_field false memory in
       RootMemory.save_memory "default" memory;;
       ret (response, memory)
     else if PyStr.contains "star" text || PyStr.contains "behavioral" text then
       let memory := set_star_mode_field true memory in
       RootMemory.save_memory "default" memory;;
       ret (STAR_ASK, memory)
     else if PyStr.contains "improve" text && PyStr.contains "resume" text then
       response ← analyze_resume_for_role (ML := RootMemory.layer) "Backend Engineer";
       ret (response, memory)
     else if PyStr.contains "interview" text && PyStr.contains "question" text then
       response ← query_llm (interview_prompt user_input);
       ret (response, memory)
     else if PyStr.contains_any ["job"; "jobs"; "internship"; "intern"] text then
       jobs ← RootJobs.search_jobs user_input;
       ret (job_reply jobs, memory)
     else
       response ← query_llm user_input;
       ret (response, memory));
  let response := fst (answered : string * Memory) in
  let memory := set_last_response response (snd answered) in
  RootMemory.save_memory "default" memory;;
  let chat_history :=
    chat_history ++ [ChatMsg "user" user_input; ChatMsg "assistant" response] in
  final ← RootMemory.load_memory "default";
  ret (chat_history, final, "").

End RootApp.

(** ** backend/app.py *)

Module BackendApp.
Import BackendMemory.

Record JSONResponse : Type := Json {
  success : bool;
  response : string;
  error : option string;
  timestamp : option string;
  status_code : Z
}.

Definition GREETING : string :=
  "👋 Hello! I'm your Career AI Assistant. How can I help with your career today?".

Definition STAR_ASK : string :=
  "📝 I'll help you create a STAR interview answer. Please describe your experience or situation.".

Definition UPLOAD_NOTICE : string :=
  "📄 Please upload your resume first using the upload button on the left.".

Definition resume_jobs_reply (jobs : list string) : string :=
  match jobs with
  | [] => "No matching jobs found. Try uploading your resume first."
  | _ => "🔍 **Jobs matching your resume:**" +:+ nl +:+ nl
         +:+ PyStr.join (nl +:+ nl) (take 3 jobs)
  end.

Definition profile_jobs_reply (jobs : list string) : string :=
  match jobs with
  | [] => "No matching jobs found."
  | _ => "🎯 **Jobs matching your profile:**" +:+ nl +:+ nl
         +:+ PyStr.join (nl +:+ nl) jobs
  end.

Definition general_jobs_reply (jobs : list string) : string :=
  match jobs with
  | [] => "No jobs found. Try: 'python developer' or 'backend engineer'"
  | _ => "💼 **Job Opportunities:**" +:+ nl +:+ nl
         +:+ PyStr.join (nl +:+ nl) jobs
  end.

Definition GREETINGS : list string := ["hi"; "hello"; "hey"; "greetings"].

Definition RESUME_MARKERS : list string :=
  ["based on my resume"; "from my resume"; "my resume"; "according to my resume"].

Definition JOB_KEYWORDS : list string :=
  ["job"; "jobs"; "internship"; "intern"; "position"; "opening"; "vacancy"].

(** Branch 4 of the routing logic, entered on a resume marker. *)
Definition resume_branch (user_input text resume_text : string)
    (resume_uploaded : bool) : Py string :=
  if negb resume_uploaded then ret UPLOAD_NOTICE
  else if PyStr.contains "job" text || PyStr.contains "jobs" text
          || PyStr.contains "position" text || PyStr.contains "role" text then
    jobs ← BackendJobs.search_jobs_by_skills resume_text "Software Engineer";
    ret (resume_jobs_reply jobs)
  else if PyStr.contains "improve" text || PyStr.contains "feedback" text
          || PyStr.contains "better" text then
    analyze_resume_for_role (ML := BackendMemory.layer) "Software Engineer"
  else if PyStr.contains "interview" text && PyStr.contains "question" text then
    query_llm ("Generate interview questions based on this resume:" +:+ nl
               +:+ PyStr.take 1000 resume_text)
  else
    query_llm ("Based on this resume:" +:+ nl +:+ PyStr.take 1000 resume_text
               +:+ nl +:+ nl +:+ "Question: " +:+ user_input).

(** Branch 5 of the routing logic, entered on a job keyword. *)
Definition job_branch (user_input text resume_text : string)
    (resume_uploaded : bool) : Py string :=
  if resume_uploaded
     && (PyStr.contains "suitable" text || PyStr.contains "for me" text
         || PyStr.contains "matching" text || PyStr.contains "fit" text) then
    jobs ← BackendJobs.search_jobs_by_skills resume_text "Software Engineer";
    ret (profile_jobs_reply jobs)
  else
    jobs ← BackendJobs.search_jobs user_input;
    ret (general_jobs_reply jobs).

(** The chain under [# ===== ROUTING LOGIC =====]: the reply to a message,
    given the state read before it. *)
Definition routing_logic (user_input text resume_text : string)
    (resume_uploaded star_mode : bool) : Py string :=
  if PyStr.member text GREETINGS then ret GREETING
  else if star_mode then
    response ← build_star_story user_input;
    set_star_mode "default" false;;
    ret response
  else if PyStr.contains "star" text || PyStr.contains "behavioral" text
          || PyStr.contains "interview story" text then
    set_star_mode "default" true;;
    ret STAR_ASK
  else if PyStr.contains_any RESUME_MARKERS text then
    resume_branch user_input text resume_text resume_uploaded
  else if PyStr.contains_any JOB_KEYWORDS text then
    job_branch user_input text resume_text resume_uploaded
  else query_llm user_input.

(** The body of the [try] of [chat_endpoint]. *)
Definition chat_try (user_input : string) : Py JSONResponse :=
  add_to_history "default" user_input None;;
  resume_uploaded ← is_resume_uploaded "default";
  resume_text ← get_resume_text "default";
  star_mode ← is_star_mode "default";
  let text := PyStr.strip (PyStr.lower user_input) in
  response ← routing_logic user_input text resume_text resume_uploaded star_mode;
  add_to_history "default" user_input (Some response);;
  now ← utcnow;
  ret (Json true response None (Some now) 200).

Definition chat_endpoint (user_input : string) : Py JSONResponse :=
  try_except (chat_try user_input)
    (fun e =>
       ret (Json false
              ("I encountered an error. Please try again. Error: " +:+ exn_str e)
              (Some (exn_str e)) None 500)).


(** *** The other endpoints *)

(** What the uploaded file gives when opened with [pdfplumber] (it raises, or
    there are pages with their [extract_text()]) and when read as text. *)
Record disk_file : Type := DiskFile {
  as_pdf : outcome (list (option string));
  as_text : outcome string
}.

Fixpoint pdf_text (pages : list (option string)) (text : string) : string :=
  match pages with
  | [] => text
  | page_text :: rest =>
      pdf_text rest
        (if truthy_str page_text
         then text +:+ default "" page_text +:+ nl
         else text)
  end.

Definition extract_text_from_file (file : disk_file) (filename : string) : string :=
  let attempt : outcome string :=
    if PyStr.endswith ".pdf" (PyStr.lower filename) then
      match as_pdf file with
      | Return pages => Return (PyStr.take 3000 (pdf_text pages ""))
      | Raise e => Raise e
      end
    else if PyStr.endswith ".txt" (PyStr.lower filename) then
      match as_text file with
      | Return content => Return (PyStr.take 3000 content)
      | Raise e => Raise e
      end
    else Return ("Unsupported file: " +:+ filename) in
  match attempt with
  | Return text => text
  | Raise e => "Error extracting text: " +:+ exn_str e
  end.

Record UploadResponse : Type := Upload {
  up_success : bool;
  up_message : string;
  up_details : option string;
  up_filename : option string;
  up_has_resume : option bool;
  up_error : option string;
  up_status : Z
}.

(** The body of the [try] of [upload_resume], after the upload was copied
    to a temporary file. *)
Definition upload_try (file : disk_file) (filename : string) : Py UploadResponse :=
  let resume_text := extract_text_from_file file filename in
  if PyStr.contains "Error" resume_text
  then raise (Exception "Exception" resume_text)
  else
    set_resume "default" resume_text filename;;
    ret (Upload true ("✅ Resume '" +:+ filename +:+ "' uploaded successfully!")
           (Some ("Extracted " +:+ str_of_int (PyStr.len resume_text)
                  +:+ " characters"))
           (Some filename) (Some true) None 200).

Definition upload_resume (file : disk_file) (filename : string) : Py UploadResponse :=
  try_except (upload_try file filename)
    (fun e =>
       ret (Upload false ("Failed to upload resume: " +:+ exn_str e)
              None None None (Some (exn_str e)) 500)).

Record AnalysisResponse : Type := Analysis {
  an_success : bool;
  an_result : string;
  an_type : option string;
  an_error : option string;
  an_timestamp : option string;
  an_status : Z
}.

(** [HTTPException(status_code=.., detail=..)]; its [str] is the status, a
    colon and the detail. *)
Definition http_exception (status : Z) (detail : string) : exn :=
  Exception "HTTPException" (str_of_int status +:+ ": " +:+ detail).

(** The shape the analysis endpoints share: a precondition that raises an
    [HTTPException] inside the [try], the computation, and the handler of
    every exception. *)
Definition analysis_route (refused : Py bool) (detail : string)
    (compute : Py string) (type_name error_prefix : string) : Py AnalysisResponse :=
  try_except
    (r ← refused;
     if r : bool then raise (http_exception 400 detail)
     else
       result ← compute;
       now ← utcnow;
       ret (Analysis true result (Some type_name) None (Some now) 200))
    (fun e =>
       ret (Analysis false (error_prefix +:+ exn_str e) None
              (Some (exn_str e)) None 500)).

Definition blank (text : string) : Py bool :=
  ret (PyStr.is_empty (PyStr.strip text)).

Definition analyze_match (job_description : string) : Py AnalysisResponse :=
  analysis_route (blank job_description) "Job description is required"
    (calculate_resume_job_match (ML := BackendMemory.layer) job_description)
    "match_analysis" "Error analyzing match: ".

Definition skill_gaps (job_description : string) : Py AnalysisResponse :=
  analysis_route (blank job_description) "Job description is required"
    (detect_skill_gaps (ML := BackendMemory.layer) job_description)
    "skill_gaps" "Error detecting skill gaps: ".

Definition alternative_roles : Py AnalysisResponse :=
  analysis_route (u ← is_resume_uploaded "default"; ret (negb u))
    "Upload resume first"
    (reverse_job_matcher (ML := BackendMemory.layer))
    "alternative_roles" "Error finding alternative roles: ".

Definition heatmap (job_description : string) : Py AnalysisResponse :=
  analysis_route (blank job_description) "Job description is required"
    (resume_heatmap (ML := BackendMemory.layer) job_description)
    "resume_heatmap" "Error generating heatmap: ".

Record JobsResponse : Type := Jobs {
  jr_success : bool;
  jr_jobs : list string;
  jr_source : option string;
  jr_query : option string;
  jr_count : option nat;
  jr_error : option string;
  jr_status : Z
}.

Definition get_jobs (query : option string) : Py JobsResponse :=
  try_except
    (resume_uploaded ← is_resume_uploaded "default";
     resume_text ← get_resume_text "default";
     if (resume_uploaded : bool) && negb (truthy_str query) then
       jobs ← BackendJobs.search_jobs_by_skills resume_text "Software Engineer";
       ret (Jobs true jobs (Some "resume_based") None (Some (length jobs)) None 200)
     else
       let search_query :=
         if truthy_str query then default "" query else "software engineer" in
       jobs ← BackendJobs.search_jobs search_query;
       ret (Jobs true jobs (Some "query_based") (Some search_query)
              (Some (length jobs)) None 200))
    (fun e => ret (Jobs false [] None None None (Some (exn_str e)) 500)).

End BackendApp.

(** ** Vocabulary of the statements *)

Fixpoint all_chars (p : ascii -> bool) (s : string) : bool :=
  match s with
  | EmptyString => true
  | String c s' => p c && all_chars p s'
  end.

Definition starts_with_digit (s : string) : bool :=
  match s with
  | String c _ => PyStr.is_digit c
  | EmptyString => false
  end.

(** [ds] is the first run of one to three digits of [t]: nothing before it
    is a digit, and it stops at three digits or where the digits stop. *)
Definition first_digits (t ds : string) : Prop :=
  exists pre rest : string,
    t = pre +:+ ds +:+ rest
    /\ all_chars (fun c => negb (PyStr.is_digit c)) pre = true
    /\ all_chars PyStr.is_digit ds = true
    /\ (1 <= String.length ds <= 3)%nat
    /\ (String.length ds = 3%nat \/ starts_with_digit rest = false).

(** The fields of a table line, as the loop body sees them. *)
Definition row_parts (line : string) : list string :=
  map PyStr.strip (PyStr.split_on "|" line).

(** What the Gateway answers in world [w] to a prompt, as [query_llm]
    hands it back. *)
Definition gateway_answer (w : World) (user_prompt : string) : string :=
  match gemini w (length (trace w)) (full_prompt_of user_prompt) with
  | GenRaises e => LLM_ERROR +:+ exn_str e
  | GenText text => PyStr.strip text
  end.

(** The live fetch fails: the request raises, the status is not 200, or no
    card of the slice parses. *)
Definition fetch_failed (limit : Z) (r : fetch_result) : Prop :=
  match r with
  | FetchRaises _ => True
  | FetchResponse status_code job_cards =>
      status_code <> 200
      \/ omap BackendJobs._parse_card (slice_to limit job_cards) = []
  end.

(** Whitespace-normalized text: every whitespace character is a single
    space between two characters that are not whitespace. *)
Fixpoint tight_from (after_space : bool) (s : string) : bool :=
  match s with
  | EmptyString => negb after_space
  | String c s' =>
      if PyStr.is_space c
      then negb after_space && (PyStr.code c =? 32)%N && tight_from true s'
      else tight_from false s'
  end.

Definition ws_normalized (s : string) : bool :=
  PyStr.is_empty s || tight_from true s.

Definition no_space (s : string) : bool :=
  all_chars (fun c => negb (PyStr.is_space c)) s.

(** A card whose metadata text is 121 letters. *)
Definition long_card : card :=
  Card (CardTag (Some "Engineer") (Some "Acme") (Some "Berlin") None
                (Some (PyStr.mul "a" 121))).

(** Sample worlds: a clock that counts, and services that are down, or a
    model that answers every prompt with the same text. *)
Definition counting_clock (n : nat) : string := "t" +:+ str_of_int (Z.of_nat n).

Definition offline_world (file : file_state) : World :=
  MkWorld file 0 counting_clock []
    (fun _ _ => GenRaises (Exception "ConnectionError" "network unreachable"))
    (fun _ _ => FetchRaises (Exception "ConnectionError" "network unreachable"))
    false
    (fun _ _ => JRaises (Exception "ConnectionError" "network unreachable")).

Definition canned_world (file : file_state) (answer : string) : World :=
  MkWorld file 0 counting_clock []
    (fun _ _ => GenText answer)
    (fun _ _ => FetchRaises (Exception "ConnectionError" "network unreachable"))
    false
    (fun _ _ => JRaises (Exception "ConnectionError" "network unreachable")).

(** The sessions held by the memory file; an unreadable or missing file
    holds none. *)
Definition stored_all (f : file_state) : gmap string Memory :=
  match f with
  | FileValid all_memory => all_memory
  | _ => ∅
  end.

(** The session of a user as the enhanced store reads it, time stamps apart. *)
Definition session (f : file_state) (user_id : string) : Memory :=
  BackendMemory.with_defaults (default empty_dict (stored_all f !! user_id)).

(** A record without its two time stamps. *)
Definition core (m : Memory) : Memory :=
  Mem (history m) (conversation_pairs m) (resume_text m) (resume_uploaded m)
      (resume_file m) (star_mode m) (last_response m) None None (interview m).

(** The services answer the same in both worlds. *)
Definition same_services (w w' : World) : Prop :=
  clock w' = clock w /\ gemini w' = gemini w /\ linkedin w' = linkedin w
  /\ jsearch_key w' = jsearch_key w /\ jsearch w' = jsearch w.

(** No call went out between [w] and [w']. *)
Definition quiet (w w' : World) : Prop :=
  same_services w w' /\ trace w' = trace w.

(** Nothing but the clock moved between [w] and [w']. *)
Definition steady (w w' : World) : Prop :=
  quiet w w' /\ memory_file w' = memory_file w.

Definition history_len (m : Memory) : nat := length (default [] (history m)).
Definition pairs_len (m : Memory) : nat := length (default [] (conversation_pairs m)).

Definition capped (m : Memory) : Prop :=
  (history_len m <= 50)%nat /\ (pairs_len m <= 20)%nat.

(** Every stored session is within the two caps. *)
Definition within_caps (f : file_state) : Prop :=
  forall (user_id : string) (m : Memory),
    stored_all f !! user_id = Some m -> capped m.

(** The services answer the same and the memory file is as it was (calls
    may have gone out). *)
Definition untouched (w w' : World) : Prop :=
  same_services w w' /\ memory_file w' = memory_file w.

(** The entries one call of [add_to_history] appends. *)
Definition new_entries (t t' user_input : string) (response : option string)
    : list hist_entry :=
  HUserInput t user_input
  :: (if truthy_str response
      then [HAssistant t' (PyStr.take 500 (default "" response))]
      else []).

(** One append to the history: a direct call of [add_to_history], or a
    message sent to the chat endpoint. *)
Inductive append_call : Type :=
| ViaStore (user_id user_input : string) (response : option string)
| ViaRouter (user_input : string).

Definition run_call (c : append_call) (w : World) : World :=
  match c with
  | ViaStore user_id user_input response =>
      snd (BackendMemory.add_to_history user_id user_input response w)
  | ViaRouter user_input => snd (BackendApp.chat_endpoint user_input w)
  end.

Definition run_calls (calls : list append_call) (w : World) : World :=
  fold_left (fun w c => run_call c w) calls w.

(** Messages sent one after the other to the Gradio controller. *)
Definition run_controller (inputs : list string) (w : World) : World :=
  fold_left (fun w user_input => snd (RootApp.agent_controller user_input [] w))
            inputs w.

(** A session that is waiting for a STAR story, and a store that holds it. *)
Definition star_session : Memory :=
  Mem (Some []) (Some []) (Some "") (Some false) (Some "") (Some true)
      (Some "") (Some "2025-01-01T00:00:00") (Some "2025-01-01T00:00:00")
      (Some BackendMemory.default_interview).

Definition star_file : file_state := FileValid {["default" := star_session]}.

(** A complete record, as [create_empty_memory] makes them. *)
Definition sample_record : Memory :=
  Mem (Some []) (Some []) (Some "") (Some false) (Some "") (Some false)
      (Some "") (Some "2025-01-01T00:00:00") (Some "2025-01-01T00:00:00")
      (Some BackendMemory.default_interview).

Definition present {A : Type} (o : option A) : bool :=
  match o with Some _ => true | None => false end.

(** All the keys [ensure_memory_structure] requires are present. *)
Definition complete (m : Memory) : bool :=
  present (history m) && present (conversation_pairs m)
  && present (resume_text m) && present (resume_uploaded m)
  && present (resume_file m) && present (star_mode m)
  && present (last_response m)
  && match interview m with
     | Some iv =>
         present (iv_index iv) && present (iv_answers iv)
         && present (iv_started_at iv)
     | None => false
     end.

(** A word of [str.split]: not empty, no whitespace in it. *)
Definition is_word (w : string) : Prop := no_space w = true /\ w <> "".

(** A step that returns, keeps the services and keeps the caps. *)
Definition safe_step {A : Type} (m : Py A) (w : World) : Prop :=
  exists (a : A) (w' : World),
    m w = (Return a, w') /\ same_services w w'
    /\ (within_caps (memory_file w) -> within_caps (memory_file w')).


(** ** Vocabulary of the further statements *)

Fixpoint count_char (c : ascii) (s : string) : nat :=
  match s with
  | EmptyString => 0%nat
  | String d s' => ((if bool_decide (d = c) then 1 else 0) + count_char c s')%nat
  end.

(** The number of [|] separators of a line. *)
Definition pipes (line : string) : nat := count_char "|" line.

(** The block a line contributes to the heatmap, if any. *)
Definition row_block (line : string) : option string :=
  match heatmap_row line with
  | Return (Some block) => Some block
  | _ => None
  end.

(** The answers, the index and the start time of the interview a session
    holds. *)
Definition answers_of (m : Memory) : list string :=
  match interview m with
  | Some iv => default [] (iv_answers iv)
  | None => []
  end.

Definition index_of (m : Memory) : option Z :=
  match interview m with
  | Some iv => iv_index iv
  | None => None
  end.

Definition started_of (m : Memory) : option string :=
  match interview m with
  | Some iv => default None (iv_started_at iv)
  | None => None
  end.

(** The operations of the enhanced store that write a session. *)
Inductive store_write : Type :=
| AddToHistory (user_input : string) (response : option string)
| SetResume (resume_text file_path : string)
| ClearResume
| SetStarMode (enabled : bool)
| UpdateInterview (answer : option string)
| ClearMemory.

Definition run_write (user_id : string) (op : store_write) : Py unit :=
  match op with
  | AddToHistory user_input response =>
      BackendMemory.add_to_history user_id user_input response
  | SetResume resume_text file_path =>
      BackendMemory.set_resume user_id resume_text file_path
  | ClearResume => BackendMemory.clear_resume user_id
  | SetStarMode enabled => BackendMemory.set_star_mode user_id enabled
  | UpdateInterview answer => BackendMemory.update_interview_progress user_id answer
  | ClearMemory => BackendMemory.clear_memory user_id
  end.



(** No character of the text lies above U+007F (a character above it may be
    one byte of a code point above 255). *)
Definition plain (s : string) : bool :=
  all_chars (fun c => (PyStr.code c <? 128)%N) s.

(** [a] is what the slice [s[:n]] keeps of [s]: a prefix of [s]; all of [s]
    when [s] has at most [n] characters; and the first [n] characters of [s]
    when [s] is plain. *)
Definition cut_at (n : nat) (s a : string) : Prop :=
  (exists rest : string, s = a +:+ rest)
  /\ ((String.length s <= n)%nat -> a = s)
  /\ (plain s = true -> a = PyStr.take n s).

(** The lines [get_conversation_context] makes of the pairs: for each pair
    the user's message and what the slice [[:200]] keeps of the reply. *)
Inductive context_of : list conv_pair -> list string -> Prop :=
| context_nil : context_of [] []
| context_pair (p : conv_pair) (rest : list conv_pair) (a : string)
    (lines : list string) :
    cut_at 200 (pair_assistant p) a ->
    context_of rest lines ->
    context_of (p :: rest)
      (("User: " +:+ pair_user p) :: ("Assistant: " +:+ a) :: lines).

(** * Properties *)

(** ** Strings *)

Lemma append_cons (x : ascii) (a b : string) :
  String x a +:+ b = String x (a +:+ b).
Proof. reflexivity. Qed.

Lemma append_nil_l (b : string) : "" +:+ b = b.
Proof. reflexivity. Qed.

Lemma append_assoc (a b c : string) : (a +:+ b) +:+ c = a +:+ (b +:+ c).
Proof.
  induction a as [|x a IH]; [reflexivity|].
  rewrite !append_cons. now rewrite IH.
Qed.

Lemma append_nil_r (a : string) : a +:+ "" = a.
Proof.
  induction a as [|x a IH]; [reflexivity|].
  rewrite append_cons. now rewrite IH.
Qed.

Lemma length_append (a b : string) :
  String.length (a +:+ b) = (String.length a + String.length b)%nat.
Proof.
  induction a as [|x a IH]; [reflexivity|].
  rewrite append_cons. simpl. now rewrite IH.
Qed.

(** ** Substrings *)

Lemma prefix_cons (a b : ascii) (p s : string) :
  String.prefix (String a p) (String b s)
  = if ascii_dec a b then String.prefix p s else false.
Proof. reflexivity. Qed.

Lemma prefix_shorter (p q s : string) :
  String.prefix (p +:+ q) s = true -> String.prefix p s = true.
Proof.
  revert s. induction p as [|a p IH]; intros s H; [now destruct s|].
  rewrite append_cons in H. destruct s as [|b s]; [discriminate|].
  rewrite prefix_cons in *. destruct (ascii_dec a b); [now apply IH|discriminate].
Qed.

Lemma prefix_longer (p s t : string) :
  String.prefix p s = true -> String.prefix p (s +:+ t) = true.
Proof.
  revert s. induction p as [|a p IH]; intros s H;
    [now destruct (s +:+ t)|].
  destruct s as [|b s]; [discriminate|].
  rewrite append_cons, prefix_cons in *.
  destruct (ascii_dec a b); [now apply IH|discriminate].
Qed.

Lemma contains_cons (sub : string) (c : ascii) (s : string) :
  PyStr.contains sub (String c s)
  = String.prefix sub (String c s) || PyStr.contains sub s.
Proof. reflexivity. Qed.

Lemma contains_shorter (p q s : string) :
  PyStr.contains (p +:+ q) s = true -> PyStr.contains p s = true.
Proof.
  induction s as [|c s IH]; intros H.
  - cbn [PyStr.contains] in *. rewrite orb_false_r in *.
    now apply prefix_shorter with q.
  - rewrite contains_cons in *. apply orb_true_iff in H as [H|H].
    + apply prefix_shorter in H. now rewrite H.
    + rewrite (IH H). apply orb_true_r.
Qed.

Lemma contains_longer (sub s t : string) :
  PyStr.contains sub s = true -> PyStr.contains sub (s +:+ t) = true.
Proof.
  induction s as [|c s IH]; intros H.
  - cbn [PyStr.contains] in H. rewrite orb_false_r in H.
    destruct sub; [|discriminate]. rewrite append_nil_l. now destruct t.
  - rewrite append_cons, contains_cons in *. apply orb_true_iff in H as [H|H].
    + apply (prefix_longer _ _ t) in H. rewrite append_cons in H. now rewrite H.
    + rewrite (IH H). apply orb_true_r.
Qed.

Lemma contains_after (sub s t : string) :
  PyStr.contains sub t = true -> PyStr.contains sub (s +:+ t) = true.
Proof.
  intros H. induction s as [|c s IH]; [exact H|].
  rewrite append_cons, contains_cons, IH. apply orb_true_r.
Qed.

Lemma prefix_refl (s : string) : String.prefix s s = true.
Proof.
  induction s as [|c s IH]; [reflexivity|].
  rewrite prefix_cons. now destruct (ascii_dec c c).
Qed.

Lemma contains_refl (s : string) : PyStr.contains s s = true.
Proof.
  destruct s as [|c s]; [reflexivity|].
  rewrite contains_cons, prefix_refl. reflexivity.
Qed.

(** A text put between two others is contained in the whole. *)
Lemma contains_middle (a s b : string) :
  PyStr.contains s (a +:+ s +:+ b) = true.
Proof. apply contains_after, contains_longer, contains_refl. Qed.

(** ** The heatmap post-processor *)

Lemma take_digits_run (n : nat) (ds rest : string) :
  all_chars PyStr.is_digit ds = true ->
  (String.length ds <= n)%nat ->
  (String.length ds = n \/ starts_with_digit rest = false) ->
  PyStr.take_digits n (ds +:+ rest) = ds.
Proof.
  revert n. induction ds as [|c ds IH]; intros n Hd Hlen Hstop.
  - rewrite append_nil_l. destruct n as [|n]; [reflexivity|].
    destruct Hstop as [Hstop|Hstop]; [discriminate|].
    destruct rest as [|r rest]; [reflexivity|].
    simpl in Hstop. simpl. now rewrite Hstop.
  - simpl in Hd, Hlen. apply andb_prop in Hd as [Hc Hd].
    rewrite append_cons.
    destruct n as [|n]; [lia|]. simpl. rewrite Hc. f_equal.
    apply IH; [assumption|lia|].
    destruct Hstop as [Hstop|Hstop]; [left; simpl in Hstop; lia|now right].
Qed.

Lemma search_first_digits (t ds : string) :
  first_digits t ds -> PyStr.search_digits_1_3 t = Some ds.
Proof.
  intros (pre & rest & -> & Hpre & Hds & [Hlo Hhi] & Hstop).
  induction pre as [|c pre IH].
  - rewrite append_nil_l.
    destruct ds as [|d ds]; [simpl in Hlo; lia|].
    simpl in Hds, Hhi, Hstop. apply andb_prop in Hds as [Hd Hds].
    rewrite append_cons. simpl. rewrite Hd. do 2 f_equal.
    apply (take_digits_run 2 ds rest); [assumption|lia|].
    destruct Hstop as [Hstop|Hstop]; [left; lia|now right].
  - simpl in Hpre. apply andb_prop in Hpre as [Hc Hpre].
    apply negb_true_iff in Hc. rewrite append_cons. simpl. rewrite Hc.
    now apply IH.
Qed.

Lemma search_no_digit (t : string) :
  all_chars (fun c => negb (PyStr.is_digit c)) t = true ->
  PyStr.search_digits_1_3 t = None.
Proof.
  induction t as [|c t IH]; simpl; [reflexivity|].
  intros H. apply andb_prop in H as [Hc Ht].
  apply negb_true_iff in Hc. rewrite Hc. now apply IH.
Qed.

Lemma heatmap_score_range (t : string) : 0 <= heatmap_score t <= 100.
Proof. unfold heatmap_score. lia. Qed.

Lemma heatmap_row_inv (line block : string) :
  heatmap_row line = Return (Some block) ->
  exists section score_text explanation : string,
    row_parts line = [section; score_text; explanation]
    /\ block = heatmap_block section score_text explanation.
Proof.
  unfold heatmap_row, row_parts.
  destruct (negb (PyStr.contains "|" line)); [discriminate|].
  destruct (map PyStr.strip (PyStr.split_on "|" line))
    as [|a [|b [|c [|d l]]]];
    cbn -[PyStr.member PyStr.lower heatmap_block]; try discriminate.
  match goal with
  | |- context [PyStr.member ?x ?l] => destruct (PyStr.member x l)
  end; [discriminate|].
  intros [= <-]. now exists a, b, c.
Qed.

Lemma concat_app (a b : list string) :
  PyStr.concat (a ++ b) = PyStr.concat a +:+ PyStr.concat b.
Proof.
  induction a as [|x a IH]; simpl; [reflexivity|].
  rewrite IH. symmetry. apply append_assoc.
Qed.

Lemma heatmap_bar_segments (s : Z) :
  0 <= s <= 100 ->
  let filled := Z.to_nat (s / 10) in
  (filled <= 10)%nat
  /\ heatmap_bar s
     = PyStr.concat (replicate filled FILLED ++ replicate (10 - filled) HOLLOW).
Proof.
  intros Hs filled.
  assert (Hq : 0 <= s / 10 <= 10).
  { split; [apply Z.div_pos; lia|].
    apply Z.div_le_upper_bound; lia. }
  split; [unfold filled; lia|].
  unfold heatmap_bar, PyStr.mul. rewrite concat_app.
  replace (Z.to_nat (10 - s / 10)) with (10 - filled)%nat
    by (unfold filled; lia).
  reflexivity.
Qed.

Lemma heatmap_verdict_tiers (s : Z) :
  (heatmap_verdict s = "Strong match" <-> 75 <= s)
  /\ (heatmap_verdict s = "Partial match" <-> 40 <= s < 75)
  /\ (heatmap_verdict s = "Weak match" <-> s < 40).
Proof.
  unfold heatmap_verdict.
  destruct (Z.leb_spec 75 s); [|destruct (Z.leb_spec 40 s)];
    repeat split; intros; try lia; try discriminate; reflexivity.
Qed.

Lemma is_digit_cases (c : ascii) :
  PyStr.is_digit c = true ->
  In c ["0"; "1"; "2"; "3"; "4"; "5"; "6"; "7"; "8"; "9"]%char.
Proof.
  destruct c as [[] [] [] [] [] [] [] []]; intros H;
    try discriminate H; cbn [In]; tauto.
Qed.

Ltac digit_split H :=
  apply is_digit_cases in H; cbn [In] in H;
  repeat (destruct H as [<-|H]); [..|contradiction].

(** The integer the code computes from a run of at most three digits is the
    one the decimal notation of the Standard Library reads. *)
Lemma digits_value (ds : string) :
  all_chars PyStr.is_digit ds = true ->
  (String.length ds <= 3)%nat ->
  exists u : Decimal.uint,
    NilEmpty.uint_of_string ds = Some u
    /\ PyStr.int_of_digits ds = Z.of_uint u.
Proof.
  intros H L.
  destruct ds as [|a [|b [|c [|d ds]]]]; [| | | |simpl in L; lia];
    cbn [all_chars] in H.
  - eexists. split; reflexivity.
  - apply andb_prop in H as [Ha _]. digit_split Ha; eexists; split; reflexivity.
  - apply andb_prop in H as [Ha H]. apply andb_prop in H as [Hb _].
    digit_split Ha; digit_split Hb; eexists; split; reflexivity.
  - apply andb_prop in H as [Ha H]. apply andb_prop in H as [Hb H].
    apply andb_prop in H as [Hc _].
    digit_split Ha; digit_split Hb; digit_split Hc; eexists; split; reflexivity.
Qed.

Lemma concat_sep_empty (l : list string) :
  PyStr.concat l = String.concat "" l.
Proof.
  induction l as [|x [|y l] IH]; [reflexivity| |].
  - cbn. apply append_nil_r.
  - change (PyStr.concat (x :: y :: l)) with (x +:+ PyStr.concat (y :: l)).
    rewrite IH. reflexivity.
Qed.

(** C3: the score shown for a parsed table row is the value of the first run
    of one to three digits of the score field, read as a decimal number, 0
    when the field has no digit, clamped into [0,100]; a field 150 shows 100,
    a field abc shows 0 and a field 39 shows 39. *)
Theorem heatmap_score_is_clamped_first_digits (line block : string) :
  heatmap_row line = Return (Some block) ->
  exists section score_text explanation : string,
    row_parts line = [section; score_text; explanation]
    /\ block
       = heatmap_icon (heatmap_score score_text) +:+ " **"
         +:+ PyStr.upper section +:+ "**" +:+ nl
         +:+ heatmap_bar (heatmap_score score_text) +:+ "  **"
         +:+ str_of_int (heatmap_score score_text) +:+ "% — "
         +:+ heatmap_verdict (heatmap_score score_text) +:+ "**" +:+ nl
         +:+ "_" +:+ explanation +:+ "_" +:+ nl
    /\ (forall ds, first_digits score_text ds ->
          exists u : Decimal.uint,
            NilEmpty.uint_of_string ds = Some u
            /\ heatmap_score score_text = Z.max 0 (Z.min (Z.of_uint u) 100))
    /\ (all_chars (fun c => negb (PyStr.is_digit c)) score_text = true ->
          heatmap_score score_text = 0)
    /\ 0 <= heatmap_score score_text <= 100
    /\ heatmap_score "150" = 100
    /\ heatmap_score "abc" = 0
    /\ heatmap_score "39" = 39
    /\ heatmap_score "about 7 of 10" = 7
    /\ heatmap_score "075%" = 75
    /\ heatmap_score "1500" = 100
    /\ heatmap_score "100" = 100
    /\ heatmap_score "-5" = 5.
Proof.
  intros H. destruct (heatmap_row_inv _ _ H) as (a & b & c & Hp & ->).
  exists a, b, c. split; [exact Hp|]. split; [reflexivity|].
  split; [|split; [|split; [apply heatmap_score_range|repeat split]]].
  - intros ds Hds.
    destruct Hds as (pre & rest & Ht & Hpre & Hd & [Hlo Hhi] & Hstop).
    destruct (digits_value ds Hd Hhi) as (u & Hu & Hv).
    exists u. split; [exact Hu|]. unfold heatmap_score.
    rewrite (search_first_digits b ds), Hv; [reflexivity|].
    now exists pre, rest.
  - intros Hn. unfold heatmap_score. now rewrite (search_no_digit _ Hn).
Qed.

Lemma heatmap_score_is_clamped_first_digits_witness :
  heatmap_row "Skills | about 150% | strong"
  = Return (Some "🟢 **SKILLS**
●●●●●●●●●●  **100% — Strong match**
_strong_
")
  /\ heatmap_row "Skills | 39 | thin"
     = Return (Some "🔴 **SKILLS**
●●●○○○○○○○  **39% — Weak match**
_thin_
")
  /\ exists section score_text explanation : string,
       row_parts "Skills | about 150% | strong"
       = [section; score_text; explanation]
       /\ score_text = "about 150%"
       /\ first_digits score_text "150"
       /\ NilEmpty.uint_of_string "150"
          = Some (Decimal.D1 (Decimal.D5 (Decimal.D0 Decimal.Nil)))
       /\ heatmap_score score_text = 100.
Proof.
  split; [vm_compute; reflexivity|]. split; [vm_compute; reflexivity|].
  destruct (heatmap_score_is_clamped_first_digits
              "Skills | about 150% | strong" _ eq_refl)
    as (a & b & c & Hp & _ & Hd & _).
  exists a, b, c. split; [exact Hp|].
  assert (Hb : b = "about 150%") by (vm_compute in Hp; congruence).
  assert (Hf : first_digits b "150").
  { subst b. exists "about ", "%". repeat split; try reflexivity; simpl; lia. }
  split; [exact Hb|]. split; [exact Hf|]. split; [reflexivity|].
  destruct (Hd _ Hf) as (u & Hu & ->).
  vm_compute in Hu. injection Hu as <-. reflexivity.
Defined.

(** C4: for a parsed row with clamped score s the bar is floor(s/10) filled
    segments followed by 10 - floor(s/10) empty ones, and the verdict is
    Strong match iff s >= 75, Partial match iff 40 <= s < 75 and Weak match
    iff s < 40; 75 gives seven filled and three empty with Strong match, 40
    gives Partial match and 39 gives Weak match. *)
Theorem heatmap_bar_and_verdict (line block : string) :
  heatmap_row line = Return (Some block) ->
  exists (section score_text explanation : string) (s : Z),
    row_parts line = [section; score_text; explanation]
    /\ s = heatmap_score score_text
    /\ 0 <= s <= 100
    /\ block
       = heatmap_icon s +:+ " **" +:+ PyStr.upper section +:+ "**" +:+ nl
         +:+ heatmap_bar s +:+ "  **" +:+ str_of_int s +:+ "% — "
         +:+ heatmap_verdict s +:+ "**" +:+ nl
         +:+ "_" +:+ explanation +:+ "_" +:+ nl
    /\ (Z.to_nat (s / 10) <= 10)%nat
    /\ heatmap_bar s
       = String.concat ""
           (replicate (Z.to_nat (s / 10)) "●"
            ++ replicate (10 - Z.to_nat (s / 10)) "○")
    /\ (heatmap_verdict s = "Strong match" <-> 75 <= s)
    /\ (heatmap_verdict s = "Partial match" <-> 40 <= s < 75)
    /\ (heatmap_verdict s = "Weak match" <-> s < 40)
    /\ heatmap_bar 75 = "●●●●●●●○○○"
    /\ heatmap_bar 40 = "●●●●○○○○○○"
    /\ heatmap_bar 39 = "●●●○○○○○○○"
    /\ heatmap_bar 0 = "○○○○○○○○○○"
    /\ heatmap_bar 100 = "●●●●●●●●●●"
    /\ heatmap_verdict 75 = "Strong match"
    /\ heatmap_verdict 40 = "Partial match"
    /\ heatmap_verdict 39 = "Weak match".
Proof.
  intros H. destruct (heatmap_row_inv _ _ H) as (a & b & c & Hp & ->).
  exists a, b, c, (heatmap_score b).
  pose proof (heatmap_score_range b) as Hr.
  destruct (heatmap_bar_segments _ Hr) as [Hn Hbar].
  rewrite concat_sep_empty in Hbar.
  destruct (heatmap_verdict_tiers (heatmap_score b)) as (H1 & H2 & H3).
  repeat match goal with |- _ /\ _ => split end;
    try assumption; try reflexivity; try apply Hr.
Qed.

Lemma heatmap_bar_and_verdict_witness :
  heatmap_row "Skills | 75 | good"
  = Return (Some "🟢 **SKILLS**
●●●●●●●○○○  **75% — Strong match**
_good_
")
  /\ heatmap_row "Tools | 40 | some"
     = Return (Some "🟡 **TOOLS**
●●●●○○○○○○  **40% — Partial match**
_some_
")
  /\ exists (section score_text explanation : string) (s : Z),
       row_parts "Skills | 75 | good" = [section; score_text; explanation]
       /\ s = heatmap_score score_text
       /\ s = 75
       /\ heatmap_bar s = "●●●●●●●○○○"
       /\ heatmap_verdict s = "Strong match".
Proof.
  split; [vm_compute; reflexivity|]. split; [vm_compute; reflexivity|].
  destruct (heatmap_bar_and_verdict "Skills | 75 | good" _ eq_refl)
    as (a & b & c & s & Hp & Hs & _ & _ & _ & Hbar & Hv & _).
  exists a, b, c, s.
  assert (Hb : b = "75") by (vm_compute in Hp; congruence).
  assert (H75 : s = 75) by (subst s b; reflexivity).
  split; [exact Hp|]. split; [exact Hs|]. split; [exact H75|].
  split.
  - rewrite Hbar, H75. reflexivity.
  - apply Hv. lia.
Defined.

(** ** Sample evaluations *)

Example lower_strip_ex : PyStr.strip (PyStr.lower "  Hello World 	") = "hello world".
Proof. reflexivity. Qed.
Example split_ex : PyStr.split "  a  b c " = ["a"; "b"; "c"].
Proof. reflexivity. Qed.
Example split_on_ex : PyStr.split_on "|" "a|b||c" = ["a"; "b"; ""; "c"].
Proof. reflexivity. Qed.
Example splitlines_ex : PyStr.splitlines "ab
c

d
" = ["ab"; "c"; ""; "d"].
Proof. reflexivity. Qed.
Example replace_ex : PyStr.replace "jobs" "" "python jobs for jobsjobs me" = "python  for  me".
Proof. reflexivity. Qed.
Example replace_ex2 : PyStr.replace "aa" "b" "aaaaa" = "bba".
Proof. reflexivity. Qed.
Example replace_ex3 : PyStr.replace "" "-" "ab" = "-a-b-".
Proof. reflexivity. Qed.
Example search_ex : PyStr.search_digits_1_3 "x 1500%" = Some "150".
Proof. reflexivity. Qed.
Example search_ex2 : PyStr.search_prefix_digits "/jobs/view/" "https://x/jobs/view/a/jobs/view/123?x" = Some "123".
Proof. reflexivity. Qed.
Example int_ex : PyStr.int_of_digits "150" = 150.
Proof. reflexivity. Qed.
Example upper_ex : PyStr.upper "Skills a-z" = "SKILLS A-Z".
Proof. reflexivity. Qed.

Example row_ex : heatmap_row "Skills | 75 | good " = Return (Some (heatmap_block "Skills" "75" "good")).
Proof. reflexivity. Qed.
Example row_too_many_ex :
  heatmap_row "| Skills | 75 | good |"
  = Raise (Exception "ValueError" "too many values to unpack (expected 3)").
Proof. reflexivity. Qed.
Example row_header_ex : heatmap_row "Section | Score | Explanation" = Return None.
Proof. reflexivity. Qed.
Example quote_ex : BackendJobs.quote "c++ dev/ops" = "c%2B%2B%20dev/ops".
Proof. reflexivity. Qed.

(** ** The Gateway *)

Lemma query_llm_run (user_prompt : string) (w : World) :
  query_llm user_prompt w
  = (Return (gateway_answer w user_prompt),
     with_event (Gateway (full_prompt_of user_prompt)) w).
Proof.
  unfold query_llm, try_except, gateway_answer, mbind, py_bind, bind,
    generate_content, ret.
  destruct (gemini w (length (trace w)) (full_prompt_of user_prompt));
    reflexivity.
Qed.


(** ** The job source adapter *)

Lemma get_jobs_run (query : string) (limit : Z) (w : World) :
  exists jobs : list BackendJobs.job,
    BackendJobs.get_jobs query limit w
    = (Return jobs, with_event (LinkedInGet query) w)
    /\ jobs <> []
    /\ (fetch_failed limit (linkedin w (length (trace w)) query) ->
        jobs = BackendJobs._get_search_link query).
Proof.
  unfold BackendJobs.get_jobs, try_except, mbind, py_bind, bind,
    BackendJobs.session_get, fetch_failed.
  destruct (linkedin w (length (trace w)) query) as [e|st cards].
  - eexists. split; [reflexivity|]. split; [discriminate|reflexivity].
  - cbn [fst snd]. destruct (Z.eqb_spec st 200) as [->|Hne]; cbn [negb].
    + destruct (omap BackendJobs._parse_card (slice_to limit cards))
        as [|j jobs] eqn:E; cbn [length Nat.ltb Nat.leb].
      * eexists. split; [reflexivity|]. split; [discriminate|reflexivity].
      * eexists. split; [reflexivity|]. split; [discriminate|].
        intros [H|H]; [contradiction|discriminate].
    + eexists. split; [reflexivity|]. split; [discriminate|reflexivity].
Qed.

Lemma search_jobs_run (query : string) (w : World) :
  exists (clean : string) (lines : list string),
    BackendJobs.search_jobs query w
    = (Return lines, with_event (LinkedInGet clean) w)
    /\ lines <> [].
Proof.
  unfold BackendJobs.search_jobs, mbind, py_bind, bind.
  match goal with
  | |- context [BackendJobs.get_jobs ?q ?l w] =>
      destruct (get_jobs_run q l w) as (jobs & E & Hne & _); exists q
  end.
  rewrite E. eexists. split; [reflexivity|].
  destruct jobs; [contradiction|discriminate].
Qed.

(** C5: when the live fetch fails (exception, status other than 200, or no
    card parsed) [get_jobs] returns exactly the one listing of
    [_get_search_link], whose url is the search link with the quoted query, a
    function of the query alone; no caller ever gets an empty sequence. *)
Theorem job_search_falls_back_to_link (query : string) (limit : Z) (w : World) :
  (exists jobs : list BackendJobs.job,
     fst (BackendJobs.get_jobs query limit w) = Return jobs /\ jobs <> [])
  /\ (exists lines : list string,
        fst (BackendJobs.search_jobs query w) = Return lines /\ lines <> [])
  /\ (fetch_failed limit (linkedin w (length (trace w)) query) ->
      fst (BackendJobs.get_jobs query limit w)
      = Return [BackendJobs.Job ("Search " +:+ query +:+ " jobs on LinkedIn")
                  "LinkedIn" "Worldwide"
                  "Click to search real jobs on LinkedIn"
                  ("https://www.linkedin.com/jobs/search/?keywords="
                   +:+ BackendJobs.quote query)
                  "LinkedIn Search"]).
Proof.
  destruct (get_jobs_run query limit w) as (jobs & E & Hne & Hf).
  destruct (search_jobs_run query w) as (clean & lines & E' & Hne').
  rewrite E, E'. cbn [fst].
  split; [now exists jobs|]. split; [now exists lines|].
  intros H. now rewrite (Hf H).
Qed.

Lemma job_search_falls_back_to_link_witness :
  fetch_failed 5 (linkedin (offline_world FileMissing) 0 "python developer")
  /\ fst (BackendJobs.get_jobs "python developer" 5 (offline_world FileMissing))
     = Return [BackendJobs.Job "Search python developer jobs on LinkedIn"
                 "LinkedIn" "Worldwide" "Click to search real jobs on LinkedIn"
                 "https://www.linkedin.com/jobs/search/?keywords=python%20developer"
                 "LinkedIn Search"].
Proof.
  split; [exact I|].
  destruct (job_search_falls_back_to_link "python developer" 5
              (offline_world FileMissing)) as (_ & _ & H).
  rewrite (H I). reflexivity.
Defined.

(** *** Descriptions of parsed cards *)

Lemma length_take (n : nat) (s : string) :
  String.length (PyStr.take n s) = Nat.min n (String.length s).
Proof.
  revert s. induction n as [|n IH]; intros [|c s]; simpl; try reflexivity.
  now rewrite IH.
Qed.

Lemma tight_skip_word (w rest : string) :
  no_space w = true ->
  tight_from false (w +:+ rest) = tight_from false rest.
Proof.
  induction w as [|c w IH]; intros H; [reflexivity|].
  simpl in H. apply andb_prop in H as [Hc Hw].
  apply negb_true_iff in Hc. rewrite append_cons. simpl. rewrite Hc. auto.
Qed.

Lemma tight_word (b : bool) (w rest : string) :
  no_space w = true -> w <> "" ->
  tight_from b (w +:+ rest) = tight_from false rest.
Proof.
  destruct w as [|c w]; intros H Hne; [contradiction|].
  simpl in H. apply andb_prop in H as [Hc Hw].
  apply negb_true_iff in Hc. rewrite append_cons. simpl. rewrite Hc.
  now apply tight_skip_word.
Qed.

Lemma cons_word_words (w : string) (ws : list string) :
  no_space w = true -> Forall is_word ws -> Forall is_word (PyStr.cons_word w ws).
Proof.
  intros Hw Hws. unfold PyStr.cons_word.
  destruct w; simpl; [assumption|].
  constructor; [split; [assumption|discriminate]|assumption].
Qed.

Lemma words_spec (s : string) :
  no_space (fst (PyStr.words s)) = true /\ Forall is_word (snd (PyStr.words s)).
Proof.
  induction s as [|c s [IHw IHws]]; simpl; [split; [reflexivity|constructor]|].
  destruct (PyStr.words s) as [w ws]. simpl in IHw, IHws.
  destruct (PyStr.is_space c) eqn:Hc; cbn [fst snd].
  - split; [reflexivity|now apply cons_word_words].
  - split; [|assumption].
    unfold no_space in *. cbn [all_chars]. rewrite Hc. exact IHw.
Qed.

Lemma split_words (s : string) : Forall is_word (PyStr.split s).
Proof.
  unfold PyStr.split. pose proof (words_spec s) as [Hw Hws].
  destruct (PyStr.words s) as [w ws]. now apply cons_word_words.
Qed.

Lemma join_tight (l : list string) :
  Forall is_word l -> l <> [] -> tight_from true (PyStr.join " " l) = true.
Proof.
  induction l as [|w l IH]; intros Hl Hne; [contradiction|].
  inversion Hl as [|? ? [Hw Hw'] Hl']; subst.
  destruct l as [|w2 l].
  - simpl. rewrite <- (append_nil_r w). now rewrite tight_word.
  - change (PyStr.join " " (w :: w2 :: l))
      with (w +:+ " " +:+ PyStr.join " " (w2 :: l)).
    rewrite tight_word by assumption.
    rewrite append_cons, append_nil_l.
    change (tight_from false (String " " (PyStr.join " " (w2 :: l))))
      with (tight_from true (PyStr.join " " (w2 :: l))).
    apply IH; [assumption|discriminate].
Qed.

Lemma join_split_normalized (s : string) :
  ws_normalized (PyStr.join " " (PyStr.split s)) = true.
Proof.
  unfold ws_normalized. pose proof (split_words s) as H.
  destruct (PyStr.split s) as [|w l] eqn:E; [reflexivity|].
  rewrite join_tight; [apply orb_true_r|assumption|discriminate].
Qed.

Lemma tight_truncated (b : bool) (n : nat) (s : string) :
  tight_from b s = true -> tight_from b (PyStr.take n s +:+ "...") = true.
Proof.
  revert b s. induction n as [|n IH]; intros b s H.
  - destruct s; reflexivity.
  - destruct s as [|c s]; [reflexivity|].
    simpl PyStr.take. rewrite append_cons. simpl in H |- *.
    destruct (PyStr.is_space c).
    + apply andb_prop in H as [H1 H2]. rewrite H1. simpl. now apply IH.
    + now apply IH.
Qed.

Lemma clean_description_spec (raw : string) :
  let normal := PyStr.join " " (PyStr.split raw) in
  ws_normalized normal = true
  /\ ws_normalized (BackendJobs.clean_description raw) = true
  /\ ((String.length normal <= 120)%nat ->
      BackendJobs.clean_description raw = normal)
  /\ ((120 < String.length normal)%nat ->
      BackendJobs.clean_description raw = PyStr.take 120 normal +:+ "..."
      /\ String.length (BackendJobs.clean_description raw) = 123%nat)
  /\ (String.length (BackendJobs.clean_description raw) <= 123)%nat.
Proof.
  intros normal. pose proof (join_split_normalized raw) as Hn.
  fold normal in Hn. unfold BackendJobs.clean_description. fold normal.
  destruct (Nat.ltb_spec 120 (String.length normal)) as [Hlong|Hshort].
  - assert (Hlen : String.length (PyStr.take 120 normal +:+ "...") = 123%nat).
    { rewrite length_append, length_take. simpl String.length. lia. }
    repeat split; try assumption; try lia.
    unfold ws_normalized in *. apply orb_true_iff. right.
    apply tight_truncated.
    destruct normal; [simpl in Hlong; lia|]. exact Hn.
  - repeat split; try assumption; try lia.
Qed.

(** C9 (as the code has it): the description of every parsed card is made
    from the card's own text: the metadata text without the location,
    trimmed, or "<title> at <company>" when that is empty, or "<title>
    position at <company>" when the card has no metadata element.  The
    description is that text whitespace-normalized when the normalized text
    has at most 120 characters, and otherwise its first 120 characters
    followed by an ellipsis of three dots, 123 characters in all. *)
Theorem job_description_normalized_and_truncated (c : card) (j : BackendJobs.job) :
  BackendJobs._parse_card c = Some j ->
  exists t : card_tag,
    c = Card t
    /\ let title :=
         match title_elem t with Some text => PyStr.strip text | None => "Job" end in
       let company :=
         match company_elem t with
         | Some text => PyStr.strip text
         | None => "Company"
         end in
       let location :=
         match location_elem t with
         | Some text => PyStr.strip text
         | None => "Remote"
         end in
       let raw :=
         match metadata_elem t with
         | Some text =>
             if PyStr.is_empty (PyStr.strip (PyStr.replace location "" text))
             then title +:+ " at " +:+ company
             else PyStr.strip (PyStr.replace location "" text)
         | None => title +:+ " position at " +:+ company
         end in
       let normal := PyStr.join " " (PyStr.split raw) in
       ws_normalized normal = true
       /\ ws_normalized (BackendJobs.description j) = true
       /\ ((String.length normal <= 120)%nat ->
           BackendJobs.description j = normal)
       /\ ((120 < String.length normal)%nat ->
           BackendJobs.description j = PyStr.take 120 normal +:+ "..."
           /\ String.length (BackendJobs.description j) = 123%nat)
       /\ (String.length (BackendJobs.description j) <= 123)%nat.
Proof.
  destruct c as [t|]; [|discriminate].
  intros [= <-]. exists t. split; [reflexivity|].
  cbn [BackendJobs.description].
  unfold BackendJobs.card_description.
  match goal with
  | |- context [BackendJobs.clean_description ?r] =>
      pose proof (clean_description_spec r) as H
  end.
  unfold BackendJobs.raw_description, BackendJobs.text_or in H.
  exact H.
Qed.

Lemma job_description_normalized_and_truncated_witness :
  (exists j : BackendJobs.job,
     BackendJobs._parse_card long_card = Some j
     /\ BackendJobs.description j
        = "aaaaaaaaaaaaaaaaaaaaaaaaaaaaaaaaaaaaaaaaaaaaaaaaaaaaaaaaaaaaaaaaaaaaaaaaaaaaaaaaaaaaaaaaaaaaaaaaaaaaaaaaaaaaaaaaaaaaaaaa..."
     /\ String.length (BackendJobs.description j) = 123%nat)
  /\ (exists j : BackendJobs.job,
        BackendJobs._parse_card
          (Card (CardTag (Some " Engineer ") (Some "Acme") (Some "Berlin") None
                   (Some "Posted   2 days ago	Berlin   Full-time ")))
        = Some j
        /\ BackendJobs.description j = "Posted 2 days ago Full-time")
  /\ (exists j : BackendJobs.job,
        BackendJobs._parse_card
          (Card (CardTag (Some " Engineer ") None (Some "Berlin") None None))
        = Some j
        /\ BackendJobs.description j = "Engineer position at Company").
Proof.
  split; [|split].
  - eexists. split; [reflexivity|].
    destruct (job_description_normalized_and_truncated long_card _ eq_refl)
      as (t & Ht & _ & _ & _ & Hl & _).
    injection Ht as <-. apply Hl. vm_compute. lia.
  - eexists. split; [reflexivity|].
    destruct (job_description_normalized_and_truncated
                (Card (CardTag (Some " Engineer ") (Some "Acme") (Some "Berlin")
                         None (Some "Posted   2 days ago	Berlin   Full-time ")))
                _ eq_refl)
      as (t & Ht & _ & _ & Hs & _).
    injection Ht as <-. rewrite Hs; [vm_compute; reflexivity|vm_compute; lia].
  - eexists. split; [reflexivity|].
    destruct (job_description_normalized_and_truncated
                (Card (CardTag (Some " Engineer ") None (Some "Berlin") None None))
                _ eq_refl)
      as (t & Ht & _ & _ & Hs & _).
    injection Ht as <-. rewrite Hs; [vm_compute; reflexivity|vm_compute; lia].
Defined.

(** C9 as stated fails: a card whose metadata text has 121 characters gets a
    description of 123 characters. *)
Lemma job_description_longer_than_120 :
  exists j : BackendJobs.job,
    BackendJobs._parse_card long_card = Some j
    /\ BackendJobs.description j = PyStr.mul "a" 120 +:+ "..."
    /\ String.length (BackendJobs.description j) = 123%nat
    /\ ~ (String.length (BackendJobs.description j) <= 120)%nat.
Proof.
  eexists. split; [reflexivity|].
  split; [vm_compute; reflexivity|].
  split; [vm_compute; reflexivity|].
  vm_compute. lia.
Qed.

(** ** The state store *)

Lemma same_services_refl (w : World) : same_services w w.
Proof. repeat split. Qed.

Lemma same_services_trans (a b c : World) :
  same_services a b -> same_services b c -> same_services a c.
Proof.
  intros (A1 & A2 & A3 & A4 & A5) (B1 & B2 & B3 & B4 & B5).
  repeat split; congruence.
Qed.

Lemma quiet_refl (w : World) : quiet w w.
Proof. split; [apply same_services_refl|reflexivity]. Qed.

Lemma quiet_trans (a b c : World) : quiet a b -> quiet b c -> quiet a c.
Proof.
  intros [A At] [B Bt].
  split; [eapply same_services_trans; eassumption|congruence].
Qed.

Lemma steady_quiet (a b : World) : steady a b -> quiet a b.
Proof. now intros [H _]. Qed.

Lemma steady_trans (a b c : World) : steady a b -> steady b c -> steady a c.
Proof.
  intros [A Af] [B Bf]. split; [eapply quiet_trans; eassumption|congruence].
Qed.

Lemma quiet_tick (w : World) : steady w (with_tick w).
Proof. repeat split. Qed.

Lemma quiet_answer (w w' : World) (p : string) :
  quiet w w' -> gateway_answer w' p = gateway_answer w p.
Proof.
  intros [(_ & Hg & _) Ht]. unfold gateway_answer. now rewrite Hg, Ht.
Qed.

Lemma fill_fill {A : Type} (d d' : A) (o : option A) :
  BackendMemory.fill d (BackendMemory.fill d' o) = BackendMemory.fill d' o.
Proof. now destruct o. Qed.

Lemma with_defaults_idem (m : Memory) :
  BackendMemory.with_defaults (BackendMemory.with_defaults m)
  = BackendMemory.with_defaults m.
Proof.
  destruct m as [h p rt ru rf sm lr ca ua [[i a s]|]];
    unfold BackendMemory.with_defaults, set_interview; cbn;
    rewrite ?fill_fill; reflexivity.
Qed.

Lemma with_defaults_updated (t : string) (m : Memory) :
  BackendMemory.with_defaults (set_updated_at t m)
  = set_updated_at t (BackendMemory.with_defaults m).
Proof.
  destruct m as [h p rt ru rf sm lr ca ua [[i a s]|]]; reflexivity.
Qed.

Lemma core_updated (t : string) (m : Memory) : core (set_updated_at t m) = core m.
Proof. reflexivity. Qed.

Lemma utcnow_run (w : World) :
  utcnow w = (Return (clock w (ticks w)), with_tick w).
Proof. reflexivity. Qed.

Lemma ensure_run (m : Memory) (w : World) :
  BackendMemory.ensure_memory_structure m w
  = (Return (set_updated_at (clock w (ticks w)) (BackendMemory.with_defaults m)),
     with_tick w).
Proof. reflexivity. Qed.

Lemma save_memory_run (user_id : string) (m : Memory) (w : World) :
  BackendMemory.save_memory user_id m w
  = (Return tt,
     with_file
       (FileValid (<[user_id := set_updated_at (clock w (ticks w))
                                  (BackendMemory.with_defaults m)]>
                     (stored_all (memory_file w))))
       (with_tick w)).
Proof.
  unfold BackendMemory.save_memory, mbind, py_bind, bind, read_file.
  rewrite ensure_run. destruct (memory_file w); reflexivity.
Qed.

Lemma load_memory_valid (user_id : string) (w : World) (all_memory : gmap string Memory) :
  memory_file w = FileValid all_memory ->
  BackendMemory.load_memory user_id w
  = (Return (set_updated_at (clock w (ticks w)) (session (memory_file w) user_id)),
     with_tick w).
Proof.
  intros E. unfold BackendMemory.load_memory, mbind, py_bind, bind, read_file.
  rewrite E. rewrite ensure_run. reflexivity.
Qed.

Lemma load_memory_spec (user_id : string) (w : World) :
  exists (m : Memory) (w' : World),
    BackendMemory.load_memory user_id w = (Return m, w')
    /\ steady w w'
    /\ core m = core (session (memory_file w) user_id)
    /\ BackendMemory.with_defaults m = m.
Proof.
  destruct (memory_file w) as [| |all_memory] eqn:E.
  - unfold BackendMemory.load_memory, mbind, py_bind, bind, read_file.
    rewrite E. do 2 eexists. split; [reflexivity|].
    split; [repeat split|]. split; reflexivity.
  - unfold BackendMemory.load_memory, mbind, py_bind, bind, read_file.
    rewrite E. do 2 eexists. split; [reflexivity|].
    split; [repeat split|]. split; reflexivity.
  - rewrite <- E. rewrite (load_memory_valid _ _ _ E).
    do 2 eexists. split; [reflexivity|]. split; [apply quiet_tick|].
    split; [reflexivity|].
    rewrite with_defaults_updated. unfold session.
    now rewrite with_defaults_idem.
Qed.

Lemma with_defaults_history (m : Memory) :
  history (BackendMemory.with_defaults m) = Some (default [] (history m)).
Proof. destruct m as [[h|] p rt ru rf sm lr ca ua [[i a s]|]]; reflexivity. Qed.

Lemma with_defaults_pairs (m : Memory) :
  conversation_pairs (BackendMemory.with_defaults m)
  = Some (default [] (conversation_pairs m)).
Proof. destruct m as [h [p|] rt ru rf sm lr ca ua [[i a s]|]]; reflexivity. Qed.

Lemma with_defaults_resume_text (m : Memory) :
  resume_text (BackendMemory.with_defaults m) = Some (default "" (resume_text m)).
Proof. destruct m as [h p [rt|] ru rf sm lr ca ua [[i a s]|]]; reflexivity. Qed.

Lemma with_defaults_resume_uploaded (m : Memory) :
  resume_uploaded (BackendMemory.with_defaults m)
  = Some (default false (resume_uploaded m)).
Proof. destruct m as [h p rt [ru|] rf sm lr ca ua [[i a s]|]]; reflexivity. Qed.

Lemma with_defaults_star_mode (m : Memory) :
  star_mode (BackendMemory.with_defaults m) = Some (default false (star_mode m)).
Proof. destruct m as [h p rt ru rf [sm|] lr ca ua [[i a s]|]]; reflexivity. Qed.

Lemma core_fields (m m' : Memory) :
  core m = core m' ->
  history m = history m' /\ conversation_pairs m = conversation_pairs m'
  /\ resume_text m = resume_text m' /\ resume_uploaded m = resume_uploaded m'
  /\ star_mode m = star_mode m'.
Proof. intros H. injection H. intros. repeat split; assumption. Qed.

Lemma last_n_all {A : Type} (n : nat) (l : list A) :
  (length l <= n)%nat -> last_n n l = l.
Proof.
  intros H. unfold last_n. replace (length l - n)%nat with 0%nat by lia.
  reflexivity.
Qed.

Lemma last_n_length {A : Type} (n : nat) (l : list A) :
  (length (last_n n l) <= n)%nat.
Proof. unfold last_n. rewrite length_drop. lia. Qed.

(** The truncation the code guards by a length test is [last_n] in all cases. *)
Lemma capped_last_n {A : Type} (n : nat) (l : list A) :
  (if (n <? length l)%nat then last_n n l else l) = last_n n l.
Proof.
  destruct (Nat.ltb_spec n (length l)); [reflexivity|].
  symmetry. now apply last_n_all.
Qed.

Lemma cap_history (n : nat) (l : list hist_entry) (m : Memory) :
  history m = Some l ->
  (if (n <? length l)%nat then set_history (last_n n l) m else m)
  = set_history (last_n n l) m.
Proof.
  intros H. destruct (Nat.ltb_spec n (length l)); [reflexivity|].
  rewrite last_n_all by assumption.
  destruct m; simpl in H; subst; reflexivity.
Qed.

Ltac run_py :=
  repeat (progress
    (rewrite ?utcnow_run;
     cbn [getitem ret history set_history conversation_pairs
            set_conversation_pairs default id with_tick ticks clock fst snd])).

Lemma saved_fields (t : string) (X : Memory) :
  BackendMemory.with_defaults (set_updated_at t (BackendMemory.with_defaults X))
  = set_updated_at t (BackendMemory.with_defaults X)
  /\ history (set_updated_at t (BackendMemory.with_defaults X))
     = Some (default [] (history X))
  /\ conversation_pairs (set_updated_at t (BackendMemory.with_defaults X))
     = Some (default [] (conversation_pairs X))
  /\ resume_text (set_updated_at t (BackendMemory.with_defaults X))
     = Some (default "" (resume_text X))
  /\ resume_uploaded (set_updated_at t (BackendMemory.with_defaults X))
     = Some (default false (resume_uploaded X))
  /\ star_mode (set_updated_at t (BackendMemory.with_defaults X))
     = Some (default false (star_mode X)).
Proof.
  split; [now rewrite with_defaults_updated, with_defaults_idem|].
  change (history (BackendMemory.with_defaults X) = Some (default [] (history X))
          /\ conversation_pairs (BackendMemory.with_defaults X)
             = Some (default [] (conversation_pairs X))
          /\ resume_text (BackendMemory.with_defaults X)
             = Some (default "" (resume_text X))
          /\ resume_uploaded (BackendMemory.with_defaults X)
             = Some (default false (resume_uploaded X))
          /\ star_mode (BackendMemory.with_defaults X)
             = Some (default false (star_mode X))).
  rewrite with_defaults_history, with_defaults_pairs, with_defaults_resume_text,
    with_defaults_resume_uploaded, with_defaults_star_mode.
  repeat split.
Qed.

Lemma add_to_history_spec (user_id user_input : string)
    (response : option string) (w : World) :
  let s := session (memory_file w) user_id in
  exists (m' : Memory) (w' : World) (t t' t'' : string),
    BackendMemory.add_to_history user_id user_input response w = (Return tt, w')
    /\ quiet w w'
    /\ memory_file w' = FileValid (<[user_id := m']> (stored_all (memory_file w)))
    /\ BackendMemory.with_defaults m' = m'
    /\ history m'
       = Some (last_n 50 (default [] (history s)
                          ++ new_entries t t' user_input response))
    /\ conversation_pairs m'
       = (if truthy_str response
          then Some (last_n 20
                       (default [] (conversation_pairs s)
                        ++ [ConvPair user_input
                              (PyStr.take 1000 (default "" response)) t'']))
          else conversation_pairs s)
    /\ resume_text m' = resume_text s
    /\ resume_uploaded m' = resume_uploaded s
    /\ star_mode m' = star_mode s.
Proof.
  intros s. unfold BackendMemory.add_to_history.
  destruct (load_memory_spec user_id w) as (m & w1 & El & [Q1 F1] & Hc & Hm).
  apply core_fields in Hc as (Hh & Hp & Hrt & Hru & Hsm). fold s in Hh, Hp, Hrt, Hru, Hsm.
  assert (Hs : BackendMemory.with_defaults s = s) by apply with_defaults_idem.
  assert (Hsh : history s = Some (default [] (history s))).
  { rewrite <- Hs at 1. rewrite with_defaults_history. reflexivity. }
  assert (Hsp : conversation_pairs s = Some (default [] (conversation_pairs s))).
  { rewrite <- Hs at 1. rewrite with_defaults_pairs. reflexivity. }
  assert (Hsrt : resume_text s = Some (default "" (resume_text s))).
  { rewrite <- Hs at 1. rewrite with_defaults_resume_text. reflexivity. }
  assert (Hsru : resume_uploaded s = Some (default false (resume_uploaded s))).
  { rewrite <- Hs at 1. rewrite with_defaults_resume_uploaded. reflexivity. }
  assert (Hssm : star_mode s = Some (default false (star_mode s))).
  { rewrite <- Hs at 1. rewrite with_defaults_star_mode. reflexivity. }
  set (h := default [] (history s)) in *.
  set (p := default [] (conversation_pairs s)) in *.
  unfold mbind, py_bind, bind. rewrite El. rewrite Hh, Hsh.
  destruct (truthy_str response) eqn:Htr.
  - run_py. rewrite Hp, Hsp. cbn [default id].
    set (p' := p ++ [ConvPair user_input (PyStr.take 1000 (default "" response))
                       (clock w1 (S (S (ticks w1))))]).
    assert (Hq : quiet w (with_tick (with_tick (with_tick w1)))).
    { eapply quiet_trans; [exact Q1|]. repeat split. }
    destruct (BackendMemory.MAX_CONVERSATION_PAIRS <? length p')%nat eqn:E;
      run_py; rewrite cap_history by reflexivity; rewrite save_memory_run;
      match goal with
      | |- context [FileValid (<[_ := set_updated_at ?t
                                       (BackendMemory.with_defaults ?X)]> _)] =>
          destruct (saved_fields t X) as (Fd & Fh & Fp & Frt & Fru & Fsm);
          exists (set_updated_at t (BackendMemory.with_defaults X))
      end;
      eexists; exists (clock w1 (ticks w1)), (clock w1 (S (ticks w1))),
        (clock w1 (S (S (ticks w1))));
      (split; [reflexivity|]);
      (split; [eapply quiet_trans; [exact Hq|repeat split]|]);
      (split; [cbn [memory_file with_file with_tick]; rewrite F1; reflexivity|]);
      (split; [exact Fd|]);
      rewrite Fh, Fp, Frt, Fru, Fsm;
      cbn [history conversation_pairs resume_text resume_uploaded star_mode
             set_updated_at set_last_response set_history
             set_conversation_pairs default id];
      rewrite Hrt, Hsrt, Hru, Hsru, Hsm, Hssm;
      cbn [default id]; unfold new_entries; rewrite Htr, <- app_assoc;
      (split; [reflexivity|]); (split; [|repeat split]).
    + reflexivity.
    + apply Nat.ltb_ge in E. f_equal. symmetry. now apply last_n_all.
  - run_py. rewrite cap_history by reflexivity. rewrite save_memory_run.
    match goal with
    | |- context [FileValid (<[_ := set_updated_at ?t
                                     (BackendMemory.with_defaults ?X)]> _)] =>
        destruct (saved_fields t X) as (Fd & Fh & Fp & Frt & Fru & Fsm);
        exists (set_updated_at t (BackendMemory.with_defaults X))
    end.
    eexists. exists (clock w1 (ticks w1)), "", "".
    split; [reflexivity|].
    split; [eapply quiet_trans; [exact Q1|repeat split]|].
    split; [cbn [memory_file with_file with_tick]; rewrite F1; reflexivity|].
    split; [exact Fd|].
    rewrite Fh, Fp, Frt, Fru, Fsm.
    cbn [history conversation_pairs resume_text resume_uploaded star_mode
           set_updated_at set_last_response set_history
           set_conversation_pairs default id].
    rewrite Hp, Hsp, Hrt, Hsrt, Hru, Hsru, Hsm, Hssm.
    cbn [default id]. unfold new_entries. rewrite Htr.
    repeat split.
Qed.

Lemma untouched_refl (w : World) : untouched w w.
Proof. split; [apply same_services_refl|reflexivity]. Qed.

Lemma untouched_trans (a b c : World) :
  untouched a b -> untouched b c -> untouched a c.
Proof.
  intros [A Af] [B Bf].
  split; [eapply same_services_trans; eassumption|congruence].
Qed.

Lemma steady_untouched (a b : World) : steady a b -> untouched a b.
Proof. intros [[H _] F]. now split. Qed.

Lemma untouched_event (e : event) (w : World) : untouched w (with_event e w).
Proof. repeat split. Qed.

Lemma session_written (user_id : string) (m : Memory) (all_memory : gmap string Memory) :
  BackendMemory.with_defaults m = m ->
  session (FileValid (<[user_id := m]> all_memory)) user_id = m.
Proof.
  intros H. unfold session, stored_all. rewrite lookup_insert_eq. exact H.
Qed.

Lemma session_fields (f : file_state) (user_id : string) :
  let s := session f user_id in
  history s = Some (default [] (history s))
  /\ conversation_pairs s = Some (default [] (conversation_pairs s))
  /\ resume_text s = Some (default "" (resume_text s))
  /\ resume_uploaded s = Some (default false (resume_uploaded s))
  /\ star_mode s = Some (default false (star_mode s)).
Proof.
  intros s.
  assert (Hs : BackendMemory.with_defaults s = s) by apply with_defaults_idem.
  repeat split; rewrite <- Hs at 1.
  - now rewrite with_defaults_history.
  - now rewrite with_defaults_pairs.
  - now rewrite with_defaults_resume_text.
  - now rewrite with_defaults_resume_uploaded.
  - now rewrite with_defaults_star_mode.
Qed.

Lemma is_star_mode_run (user_id : string) (w : World) :
  exists w' : World,
    BackendMemory.is_star_mode user_id w
    = (Return (default false (star_mode (session (memory_file w) user_id))), w')
    /\ steady w w'.
Proof.
  unfold BackendMemory.is_star_mode, mbind, py_bind, bind.
  destruct (load_memory_spec user_id w) as (m & w1 & E & S & Hc & _).
  apply core_fields in Hc as (_ & _ & _ & _ & Hsm).
  rewrite E, Hsm. now exists w1.
Qed.

Lemma is_resume_uploaded_run (user_id : string) (w : World) :
  exists w' : World,
    BackendMemory.is_resume_uploaded user_id w
    = (Return (default false (resume_uploaded (session (memory_file w) user_id))), w')
    /\ steady w w'.
Proof.
  unfold BackendMemory.is_resume_uploaded, mbind, py_bind, bind.
  destruct (load_memory_spec user_id w) as (m & w1 & E & S & Hc & _).
  apply core_fields in Hc as (_ & _ & _ & Hru & _).
  rewrite E, Hru. now exists w1.
Qed.

Lemma get_resume_text_run (user_id : string) (w : World) :
  exists w' : World,
    BackendMemory.get_resume_text user_id w
    = (Return (default "" (resume_text (session (memory_file w) user_id))), w')
    /\ steady w w'.
Proof.
  unfold BackendMemory.get_resume_text, mbind, py_bind, bind.
  destruct (load_memory_spec user_id w) as (m & w1 & E & S & Hc & _).
  apply core_fields in Hc as (_ & _ & Hrt & _ & _).
  rewrite E, Hrt. now exists w1.
Qed.

Lemma set_star_mode_spec (user_id : string) (enabled : bool) (w : World) :
  let s := session (memory_file w) user_id in
  exists (m' : Memory) (w' : World),
    BackendMemory.set_star_mode user_id enabled w = (Return tt, w')
    /\ quiet w w'
    /\ memory_file w' = FileValid (<[user_id := m']> (stored_all (memory_file w)))
    /\ BackendMemory.with_defaults m' = m'
    /\ star_mode m' = Some enabled
    /\ history m' = history s
    /\ conversation_pairs m' = conversation_pairs s
    /\ resume_text m' = resume_text s
    /\ resume_uploaded m' = resume_uploaded s.
Proof.
  intros s. unfold BackendMemory.set_star_mode, mbind, py_bind, bind.
  destruct (load_memory_spec user_id w) as (m & w1 & E & [Q1 F1] & Hc & _).
  apply core_fields in Hc as (Hh & Hp & Hrt & Hru & _).
  fold s in Hh, Hp, Hrt, Hru.
  destruct (session_fields (memory_file w) user_id) as (Sh & Sp & Srt & Sru & _).
  fold s in Sh, Sp, Srt, Sru.
  rewrite E, utcnow_run, save_memory_run.
  do 2 eexists. split; [reflexivity|].
  split; [eapply quiet_trans; [exact Q1|repeat split]|].
  split; [cbn [memory_file with_file with_tick]; rewrite F1; reflexivity|].
  split; [rewrite with_defaults_updated, with_defaults_idem; reflexivity|].
  cbn [history conversation_pairs resume_text resume_uploaded star_mode
         set_updated_at].
  rewrite with_defaults_history, with_defaults_pairs,
    with_defaults_resume_text, with_defaults_resume_uploaded,
    with_defaults_star_mode.
  cbn [history conversation_pairs resume_text resume_uploaded star_mode
         set_updated_at set_star_mode_field default id].
  rewrite Hh, Hp, Hrt, Hru, Sh, Sp, Srt, Sru. repeat split.
Qed.

Lemma set_resume_spec (user_id text file_path : string) (w : World) :
  let s := session (memory_file w) user_id in
  exists (m' : Memory) (w' : World),
    BackendMemory.set_resume user_id text file_path w = (Return tt, w')
    /\ quiet w w'
    /\ memory_file w' = FileValid (<[user_id := m']> (stored_all (memory_file w)))
    /\ BackendMemory.with_defaults m' = m'
    /\ resume_text m' = Some text
    /\ resume_uploaded m' = Some true
    /\ star_mode m' = star_mode s
    /\ history m' = history s
    /\ conversation_pairs m' = conversation_pairs s.
Proof.
  intros s. unfold BackendMemory.set_resume, mbind, py_bind, bind.
  destruct (load_memory_spec user_id w) as (m & w1 & E & [Q1 F1] & Hc & _).
  apply core_fields in Hc as (Hh & Hp & _ & _ & Hsm).
  fold s in Hh, Hp, Hsm.
  destruct (session_fields (memory_file w) user_id) as (Sh & Sp & _ & _ & Ssm).
  fold s in Sh, Sp, Ssm.
  rewrite E, utcnow_run, save_memory_run.
  do 2 eexists. split; [reflexivity|].
  split; [eapply quiet_trans; [exact Q1|repeat split]|].
  split; [cbn [memory_file with_file with_tick]; rewrite F1; reflexivity|].
  split; [rewrite with_defaults_updated, with_defaults_idem; reflexivity|].
  cbn [history conversation_pairs resume_text resume_uploaded star_mode
         set_updated_at].
  rewrite with_defaults_history, with_defaults_pairs,
    with_defaults_resume_text, with_defaults_resume_uploaded,
    with_defaults_star_mode.
  cbn [history conversation_pairs resume_text resume_uploaded star_mode
         set_updated_at set_resume_file set_resume_uploaded set_resume_text
         default id].
  rewrite Hh, Hp, Hsm, Sh, Sp, Ssm. repeat split.
Qed.

(** *** The caps *)

Lemma capped_with_defaults (m : Memory) :
  capped m -> capped (BackendMemory.with_defaults m).
Proof.
  unfold capped, history_len, pairs_len.
  rewrite with_defaults_history, with_defaults_pairs. auto.
Qed.

Lemma capped_session (f : file_state) (user_id : string) :
  within_caps f -> capped (session f user_id).
Proof.
  intros H. unfold session. apply capped_with_defaults.
  destruct (stored_all f !! user_id) as [m|] eqn:E; [exact (H _ _ E)|].
  split; cbn; lia.
Qed.

Lemma within_caps_insert (f : file_state) (user_id : string) (m : Memory) :
  within_caps f -> capped m ->
  within_caps (FileValid (<[user_id := m]> (stored_all f))).
Proof.
  intros Hf Hm u m2. cbn [stored_all]. rewrite lookup_insert.
  case_decide; [intros [= <-]; exact Hm|apply Hf].
Qed.

Lemma within_caps_missing : within_caps FileMissing.
Proof. intros u m. cbn [stored_all]. rewrite lookup_empty. discriminate. Qed.

Lemma capped_same_lists (m m' : Memory) :
  history m' = history m -> conversation_pairs m' = conversation_pairs m ->
  capped m -> capped m'.
Proof.
  unfold capped, history_len, pairs_len. intros -> ->. auto.
Qed.

(** ** Analytics over the enhanced store *)

Lemma search_jobs_by_skills_run (text role : string) (w : World) :
  exists (clean : string) (lines : list string),
    BackendJobs.search_jobs_by_skills text role w
    = (Return lines, with_event (LinkedInGet clean) w)
    /\ lines <> [].
Proof.
  unfold BackendJobs.search_jobs_by_skills.
  repeat match goal with
         | |- context [if ?c then _ else _] => destruct c
         end; apply search_jobs_run.
Qed.

Lemma analyze_resume_for_role_backend (role : string) (w : World) :
  exists (answer : string) (w' : World),
    analyze_resume_for_role (ML := BackendMemory.layer) role w = (Return answer, w')
    /\ untouched w w'.
Proof.
  unfold analyze_resume_for_role, mbind, py_bind, bind.
  cbn [load_memory BackendMemory.layer].
  destruct (load_memory_spec "default" w) as (m & w1 & E & S & _).
  rewrite E. destruct (negb (truthy_str (resume_text m))).
  - do 2 eexists. split; [reflexivity|exact (steady_untouched _ _ S)].
  - rewrite query_llm_run. do 2 eexists. split; [reflexivity|].
    eapply untouched_trans; [exact (steady_untouched _ _ S)|apply untouched_event].
Qed.

(** ** The chat endpoint *)

Lemma safe_untouched {A : Type} (m : Py A) (w : World) (a : A) (w' : World) :
  m w = (Return a, w') -> untouched w w' -> safe_step m w.
Proof.
  intros E [S F]. exists a, w'. split; [exact E|]. split; [exact S|].
  now rewrite F.
Qed.

Lemma safe_set_star_mode (enabled : bool) (w : World) :
  safe_step (BackendMemory.set_star_mode "default" enabled) w.
Proof.
  destruct (set_star_mode_spec "default" enabled w)
    as (m' & w' & E & [S _] & F & _ & _ & Hh & Hp & _).
  exists tt, w'. split; [exact E|]. split; [exact S|].
  intros Hc. rewrite F. apply within_caps_insert; [exact Hc|].
  eapply capped_same_lists; [exact Hh|exact Hp|now apply capped_session].
Qed.

Lemma safe_add_to_history (user_id user_input : string)
    (response : option string) (w : World) :
  safe_step (BackendMemory.add_to_history user_id user_input response) w.
Proof.
  destruct (add_to_history_spec user_id user_input response w)
    as (m' & w' & t & t' & t'' & E & [S _] & F & _ & Hh & Hp & _).
  exists tt, w'. split; [exact E|]. split; [exact S|].
  intros Hc. rewrite F. apply within_caps_insert; [exact Hc|].
  pose proof (capped_session _ user_id Hc) as [_ Hps].
  split.
  - unfold history_len. rewrite Hh. cbn [default id]. apply last_n_length.
  - unfold pairs_len. rewrite Hp. destruct (truthy_str response).
    + cbn [default id]. apply last_n_length.
    + exact Hps.
Qed.

Lemma safe_bind {A B : Type} (m : Py A) (k : A -> Py B) (w : World) :
  safe_step m w ->
  (forall (a : A) (w' : World), safe_step (k a) w') ->
  safe_step (m ≫= k) w.
Proof.
  intros (a & w1 & E & S & C) Hk.
  destruct (Hk a w1) as (b & w2 & E2 & S2 & C2).
  exists b, w2. unfold mbind, py_bind, bind. rewrite E.
  split; [exact E2|]. split; [eapply same_services_trans; eassumption|auto].
Qed.

Lemma safe_ret {A : Type} (a : A) (w : World) : safe_step (ret a) w.
Proof. exists a, w. split; [reflexivity|]. split; [apply same_services_refl|auto]. Qed.

Lemma safe_query_llm (p : string) (w : World) : safe_step (query_llm p) w.
Proof. eapply safe_untouched; [apply query_llm_run|apply untouched_event]. Qed.

Lemma safe_search_jobs (q : string) (w : World) :
  safe_step (BackendJobs.search_jobs q) w.
Proof.
  destruct (search_jobs_run q w) as (c & l & E & _).
  eapply safe_untouched; [exact E|apply untouched_event].
Qed.

Lemma safe_search_jobs_by_skills (text role : string) (w : World) :
  safe_step (BackendJobs.search_jobs_by_skills text role) w.
Proof.
  destruct (search_jobs_by_skills_run text role w) as (c & l & E & _).
  eapply safe_untouched; [exact E|apply untouched_event].
Qed.

Lemma safe_analyze (role : string) (w : World) :
  safe_step (analyze_resume_for_role (ML := BackendMemory.layer) role) w.
Proof.
  destruct (analyze_resume_for_role_backend role w) as (a & w' & E & U).
  eapply safe_untouched; eassumption.
Qed.

Lemma safe_utcnow (w : World) : safe_step utcnow w.
Proof.
  eapply safe_untouched; [apply utcnow_run|].
  apply steady_untouched, quiet_tick.
Qed.

Lemma safe_reader {A : Type} (m : Py A) (w : World) (a : A) :
  (exists w', m w = (Return a, w') /\ steady w w') -> safe_step m w.
Proof.
  intros (w' & E & S). eapply safe_untouched; [exact E|].
  now apply steady_untouched.
Qed.

Ltac safe_steps :=
  repeat first
    [ apply safe_ret
    | apply safe_query_llm
    | apply safe_search_jobs
    | apply safe_search_jobs_by_skills
    | apply safe_analyze
    | apply safe_set_star_mode
    | apply safe_add_to_history
    | apply safe_utcnow
    | apply safe_bind; [|intros ? ?]
    | match goal with
      | |- safe_step (if ?c then _ else _) _ => destruct c
      end ].

Lemma safe_routing_logic (user_input text resume_text : string)
    (resume_uploaded star_mode : bool) (w : World) :
  safe_step
    (BackendApp.routing_logic user_input text resume_text resume_uploaded star_mode)
    w.
Proof.
  unfold BackendApp.routing_logic, BackendApp.resume_branch,
    BackendApp.job_branch, build_star_story.
  safe_steps.
Qed.

Lemma safe_chat_try (user_input : string) (w : World) :
  safe_step (BackendApp.chat_try user_input) w.
Proof.
  unfold BackendApp.chat_try.
  apply safe_bind; [apply safe_add_to_history|intros ? ?].
  apply safe_bind;
    [eapply safe_reader; apply is_resume_uploaded_run|intros ? ?].
  apply safe_bind; [eapply safe_reader; apply get_resume_text_run|intros ? ?].
  apply safe_bind; [eapply safe_reader; apply is_star_mode_run|intros ? ?].
  apply safe_bind; [apply safe_routing_logic|intros ? ?].
  safe_steps.
Qed.

Lemma safe_chat_endpoint (user_input : string) (w : World) :
  safe_step (BackendApp.chat_endpoint user_input) w.
Proof.
  destruct (safe_chat_try user_input w) as (a & w' & E & S & C).
  exists a, w'. unfold BackendApp.chat_endpoint, try_except. rewrite E.
  now split.
Qed.

Lemma run_call_caps (c : append_call) (w : World) :
  within_caps (memory_file w) -> within_caps (memory_file (run_call c w)).
Proof.
  destruct c as [u i r|i]; cbn [run_call].
  - destruct (safe_add_to_history u i r w) as (a & w' & E & _ & C).
    rewrite E. exact C.
  - destruct (safe_chat_endpoint i w) as (a & w' & E & _ & C).
    rewrite E. exact C.
Qed.

Lemma run_calls_caps (calls : list append_call) (w : World) :
  within_caps (memory_file w) -> within_caps (memory_file (run_calls calls w)).
Proof.
  revert w. induction calls as [|c calls IH]; intros w H; [exact H|].
  cbn [run_calls fold_left]. apply IH. now apply run_call_caps.
Qed.

Lemma chat_try_frame (user_input : string) (w : World) :
  let s := session (memory_file w) "default" in
  exists w4 : World,
    quiet w w4
    /\ star_mode (session (memory_file w4) "default") = star_mode s
    /\ resume_text (session (memory_file w4) "default") = resume_text s
    /\ resume_uploaded (session (memory_file w4) "default") = resume_uploaded s
    /\ forall (answer : string) (w5 : World),
         BackendApp.routing_logic user_input (PyStr.strip (PyStr.lower user_input))
           (default "" (resume_text s)) (default false (resume_uploaded s))
           (default false (star_mode s)) w4
         = (Return answer, w5) ->
         exists (w8 : World) (ts : string),
           BackendApp.chat_endpoint user_input w
           = (Return (BackendApp.Json true answer None (Some ts) 200), w8)
           /\ quiet w5 w8
           /\ star_mode (session (memory_file w8) "default")
              = star_mode (session (memory_file w5) "default")
           /\ resume_text (session (memory_file w8) "default")
              = resume_text (session (memory_file w5) "default")
           /\ resume_uploaded (session (memory_file w8) "default")
              = resume_uploaded (session (memory_file w5) "default").
Proof.
  intros s.
  destruct (add_to_history_spec "default" user_input None w)
    as (m1 & w1 & t & t' & t'' & E1 & Q1 & F1 & D1 & _ & _ & Hrt & Hru & Hsm).
  fold s in Hrt, Hru, Hsm.
  assert (S1 : session (memory_file w1) "default" = m1)
    by (rewrite F1; now apply session_written).
  destruct (is_resume_uploaded_run "default" w1) as (w2 & E2 & [Q2 F2]).
  destruct (get_resume_text_run "default" w2) as (w3 & E3 & [Q3 F3]).
  destruct (is_star_mode_run "default" w3) as (w4 & E4 & [Q4 F4]).
  rewrite S1, Hru in E2. rewrite F2, S1, Hrt in E3.
  rewrite F3, F2, S1, Hsm in E4.
  assert (S4 : session (memory_file w4) "default" = m1)
    by (rewrite F4, F3, F2; exact S1).
  exists w4. split.
  { eapply quiet_trans; [exact Q1|]. eapply quiet_trans; [exact Q2|].
    eapply quiet_trans; [exact Q3|exact Q4]. }
  rewrite S4. split; [exact Hsm|]. split; [exact Hrt|]. split; [exact Hru|].
  intros answer w5 E5.
  destruct (add_to_history_spec "default" user_input (Some answer) w5)
    as (m7 & w7 & u & u' & u'' & E7 & Q7 & F7 & D7 & _ & _ & Hrt7 & Hru7 & Hsm7).
  exists (with_tick w7), (clock w7 (ticks w7)).
  assert (S7 : session (memory_file (with_tick w7)) "default" = m7).
  { cbn [memory_file with_tick]. rewrite F7. now apply session_written. }
  split.
  { unfold BackendApp.chat_endpoint, try_except, BackendApp.chat_try,
      mbind, py_bind, bind.
    rewrite E1, E2, E3, E4, E5, E7. reflexivity. }
  split; [eapply quiet_trans; [exact Q7|repeat split]|].
  rewrite S7. repeat split; assumption.
Qed.

Lemma chat_endpoint_greeting (user_input : string) (w : World) :
  PyStr.member (PyStr.strip (PyStr.lower user_input)) BackendApp.GREETINGS = true ->
  exists (ts : string) (w' : World),
    BackendApp.chat_endpoint user_input w
    = (Return (BackendApp.Json true BackendApp.GREETING None (Some ts) 200), w')
    /\ trace w' = trace w
    /\ star_mode (session (memory_file w') "default")
       = star_mode (session (memory_file w) "default").
Proof.
  intros Hg.
  destruct (chat_try_frame user_input w) as (w4 & Q4 & S4 & _ & _ & Hk).
  destruct (Hk BackendApp.GREETING w4) as (w8 & ts & E8 & Q8 & S8 & _).
  { unfold BackendApp.routing_logic. rewrite Hg. reflexivity. }
  exists ts, w8. split; [exact E8|]. split.
  - destruct Q8 as [_ ->]. now destruct Q4 as [_ ->].
  - now rewrite S8.
Qed.

(** ** The Gradio controller *)

Lemma root_load_valid (user_id : string) (w : World) (all_memory : gmap string Memory) :
  memory_file w = FileValid all_memory ->
  RootMemory.load_memory user_id w
  = (Return (default empty_dict (all_memory !! user_id)), w).
Proof.
  intros E. unfold RootMemory.load_memory, RootMemory.path_exists,
    RootMemory.json_load, mbind, py_bind, bind, read_file, ret.
  rewrite E. cbn [negb]. rewrite E. reflexivity.
Qed.

Lemma root_load_missing (user_id : string) (w : World) :
  memory_file w = FileMissing ->
  RootMemory.load_memory user_id w = (Return empty_dict, w).
Proof.
  intros E. unfold RootMemory.load_memory, RootMemory.path_exists,
    mbind, py_bind, bind, read_file, ret.
  rewrite E. reflexivity.
Qed.

Lemma root_save_run (user_id : string) (m : Memory) (w : World) :
  memory_file w <> FileCorrupt ->
  RootMemory.save_memory user_id m w
  = (Return tt, with_file (FileValid (<[user_id := m]> (stored_all (memory_file w)))) w).
Proof.
  intros H. unfold RootMemory.save_memory, RootMemory.path_exists,
    RootMemory.json_load, mbind, py_bind, bind, read_file, ret, write_file.
  destruct (memory_file w) eqn:E; cbn [negb]; rewrite ?E;
    try reflexivity; contradiction.
Qed.

Lemma agent_controller_star (user_input : string)
    (chat_history : list RootApp.chat_msg) (w : World)
    (all_memory : gmap string Memory) (m : Memory) :
  memory_file w = FileValid all_memory ->
  all_memory !! "default" = Some m ->
  star_mode m = Some true ->
  PyStr.member (PyStr.strip (PyStr.lower user_input)) ["hi"; "hello"; "hey"] = false ->
  exists (final : Memory) (w' : World),
    RootApp.agent_controller user_input chat_history w
    = (Return (chat_history
               ++ [RootApp.ChatMsg "user" user_input;
                   RootApp.ChatMsg "assistant"
                     (gateway_answer w (star_prompt user_input))],
               final, ""), w')
    /\ trace w' = trace w ++ [Gateway (full_prompt_of (star_prompt user_input))]
    /\ star_mode final = Some false
    /\ stored_all (memory_file w') !! "default" = Some final.
Proof.
  intros Hf Hm Hs Hg. unfold RootApp.agent_controller, mbind, py_bind, bind.
  rewrite (root_load_valid _ _ _ Hf), Hm, utcnow_run.
  cbn [default id star_mode]. rewrite Hs, Hg. cbn [default id].
  unfold build_star_story. rewrite query_llm_run.
  rewrite root_save_run by (cbn [memory_file with_event with_tick]; congruence).
  cbn [ret fst snd].
  rewrite root_save_run by (cbn [memory_file with_file]; congruence).
  erewrite root_load_valid by (cbn [memory_file with_file]; reflexivity).
  rewrite lookup_insert_eq. cbn [default id].
  rewrite (quiet_answer w (with_tick w)) by (repeat split).
  do 2 eexists. split; [reflexivity|].
  cbn [trace with_file with_event with_tick memory_file stored_all].
  rewrite lookup_insert_eq. repeat split.
Qed.

Lemma agent_controller_greeting (user_input : string)
    (chat_history : list RootApp.chat_msg) (w : World)
    (all_memory : gmap string Memory) (m : Memory) :
  memory_file w = FileValid all_memory ->
  all_memory !! "default" = Some m ->
  PyStr.member (PyStr.strip (PyStr.lower user_input)) ["hi"; "hello"; "hey"] = true ->
  exists (final : Memory) (w' : World),
    RootApp.agent_controller user_input chat_history w
    = (Return (chat_history
               ++ [RootApp.ChatMsg "user" user_input;
                   RootApp.ChatMsg "assistant" RootApp.GREETING],
               final, ""), w')
    /\ trace w' = trace w
    /\ star_mode final = star_mode m
    /\ stored_all (memory_file w') !! "default" = Some final.
Proof.
  intros Hf Hm Hg. unfold RootApp.agent_controller, mbind, py_bind, bind.
  rewrite (root_load_valid _ _ _ Hf), Hm, utcnow_run.
  cbn [default id]. rewrite Hg. cbn [ret fst snd].
  rewrite root_save_run by (cbn [memory_file with_tick]; congruence).
  erewrite root_load_valid by (cbn [memory_file with_file]; reflexivity).
  rewrite lookup_insert_eq. cbn [default id].
  do 2 eexists. split; [reflexivity|].
  cbn [trace with_file with_tick memory_file stored_all].
  rewrite lookup_insert_eq. repeat split.
Qed.

(** ** The Gradio controller, step by step *)

Lemma root_load_quiet (user_id : string) (w : World) (m : Memory) (w1 : World) :
  RootMemory.load_memory user_id w = (Return m, w1) -> w1 = w.
Proof.
  destruct (memory_file w) as [| |all_memory] eqn:E.
  - rewrite (root_load_missing _ _ E). now intros [= _ <-].
  - unfold RootMemory.load_memory, RootMemory.path_exists, RootMemory.json_load,
      mbind, py_bind, bind, read_file, ret.
    rewrite E. cbn [negb]. rewrite E. discriminate.
  - rewrite (root_load_valid _ _ _ E). now intros [= _ <-].
Qed.

Lemma job_lines_length (data : list jsearch_job) (lines : list string) :
  RootJobs.job_lines data = Return lines -> length lines = length data.
Proof.
  revert lines. induction data as [|j data IH]; intros lines H.
  - now injection H as <-.
  - cbn [RootJobs.job_lines] in H. destruct (RootJobs.job_line j); [|discriminate].
    destruct (RootJobs.job_lines data) as [ls|]; [|discriminate].
    injection H as <-. cbn [length]. now rewrite (IH ls).
Qed.

Lemma root_search_jobs_cases (query : string) (w : World) :
  (jsearch_key w = false ->
   RootJobs.search_jobs query w
   = (Return ["⚠️ Job search API key not configured"], w))
  /\ (jsearch_key w = true ->
      exists o : outcome (list string),
        RootJobs.search_jobs query w = (o, with_event (JSearchGet query) w)
        /\ (forall e : exn,
              jsearch w (length (trace w)) query = JRaises e -> o = Raise e)
        /\ (forall lines : list string,
              o = Return lines -> (1 <= length lines <= 3)%nat)).
Proof.
  unfold RootJobs.search_jobs. split; intros H; rewrite H; cbn [negb].
  - reflexivity.
  - destruct (jsearch w (length (trace w)) query) as [e|st e|st data].
    + eexists. split; [reflexivity|]. split; [now intros ? [= <-]|discriminate].
    + destruct (st =? 200); (eexists; split; [reflexivity|]);
        (split; [discriminate|]); [discriminate|].
      intros lines [= <-]. cbn. lia.
    + destruct (st =? 200).
      * destruct (RootJobs.job_lines (take 3 data)) as [jobs|e] eqn:E.
        -- eexists. split; [reflexivity|]. split; [discriminate|].
           intros lines [= <-]. apply job_lines_length in E.
           rewrite list.length_take in E.
           destruct jobs; cbn [RootJobs.or_list length] in *; lia.
        -- eexists. split; [reflexivity|]. split; discriminate.
      * eexists. split; [reflexivity|]. split; [discriminate|].
        intros lines [= <-]. cbn. lia.
Qed.

Lemma root_load_readable (user_id : string) (w : World) :
  memory_file w <> FileCorrupt ->
  RootMemory.load_memory user_id w
  = (Return (default empty_dict (stored_all (memory_file w) !! user_id)), w).
Proof.
  intros H. destruct (memory_file w) as [| |all_memory] eqn:E.
  - now rewrite (root_load_missing _ _ E).
  - contradiction.
  - now rewrite (root_load_valid _ _ _ E).
Qed.

Lemma root_save_readable (user_id : string) (m : Memory) (w : World) :
  memory_file w <> FileCorrupt ->
  exists w' : World,
    RootMemory.save_memory user_id m w = (Return tt, w')
    /\ memory_file w' = FileValid (<[user_id := m]> (stored_all (memory_file w)))
    /\ trace w' = trace w.
Proof.
  intros H. rewrite (root_save_run _ _ _ H). eexists. now repeat split.
Qed.

Lemma controller_tail (user_input response : string)
    (chat_history : list RootApp.chat_msg) (memory : Memory) (w : World) :
  memory_file w <> FileCorrupt ->
  exists w' : World,
    (RootMemory.save_memory "default" (set_last_response response memory);;
     final ← RootMemory.load_memory "default";
     ret (chat_history
          ++ [RootApp.ChatMsg "user" user_input;
              RootApp.ChatMsg "assistant" response],
          final, "")) w
    = (Return (chat_history
               ++ [RootApp.ChatMsg "user" user_input;
                   RootApp.ChatMsg "assistant" response],
               set_last_response response memory, ""), w')
    /\ stored_all (memory_file w') !! "default"
       = Some (set_last_response response memory).
Proof.
  intros H. unfold mbind, py_bind, bind.
  rewrite (root_save_run _ _ _ H).
  rewrite root_load_readable by (cbn [memory_file with_file]; discriminate).
  cbn [memory_file with_file stored_all]. rewrite lookup_insert_eq.
  eexists. split; [reflexivity|]. cbn [memory_file with_file stored_all].
  apply lookup_insert_eq.
Qed.

Lemma bind_return_inv {A B : Type} (m : Py A) (k : A -> Py B) (w : World)
    (b : B) (w' : World) :
  (m ≫= k) w = (Return b, w') ->
  exists (a : A) (w1 : World), m w = (Return a, w1) /\ k a w1 = (Return b, w').
Proof.
  unfold mbind, py_bind, bind. destruct (m w) as [[a|e] w1]; [eauto|discriminate].
Qed.

Lemma query_llm_file (p : string) (w : World) (a : string) (w' : World) :
  query_llm p w = (Return a, w') -> memory_file w' = memory_file w.
Proof. rewrite query_llm_run. now intros [= _ <-]. Qed.

Lemma root_search_jobs_file (q : string) (w : World) (a : list string)
    (w' : World) :
  RootJobs.search_jobs q w = (Return a, w') -> memory_file w' = memory_file w.
Proof.
  destruct (root_search_jobs_cases q w) as [H0 H1].
  destruct (jsearch_key w).
  - destruct (H1 eq_refl) as (o & -> & _). now intros [= _ <-].
  - rewrite (H0 eq_refl). now intros [= _ <-].
Qed.

Lemma root_analyze_file (role : string) (w : World) (a : string) (w' : World) :
  analyze_resume_for_role (ML := RootMemory.layer) role w = (Return a, w') ->
  memory_file w' = memory_file w.
Proof.
  intros H. apply bind_return_inv in H as (m & w1 & E & H).
  cbn [load_memory RootMemory.layer] in E. apply root_load_quiet in E as ->.
  cbn zeta in H. destruct (negb (truthy_str (resume_text m))).
  - unfold ret in H. now injection H as _ <-.
  - now apply query_llm_file in H.
Qed.

Lemma agent_controller_shape (user_input : string)
    (chat_history : list RootApp.chat_msg) (w : World)
    (r : list RootApp.chat_msg * Memory * string) (w' : World) :
  let m := default empty_dict (stored_all (memory_file w) !! "default") in
  RootApp.agent_controller user_input chat_history w = (Return r, w') ->
  exists (response t : string) (final : Memory),
    r = (chat_history
         ++ [RootApp.ChatMsg "user" user_input;
             RootApp.ChatMsg "assistant" response], final, "")
    /\ stored_all (memory_file w') !! "default" = Some final
    /\ last_response final = Some response
    /\ history final = Some (default [] (history m) ++ [HUser t user_input])
    /\ resume_text final = resume_text m
    /\ resume_uploaded final = resume_uploaded m
    /\ conversation_pairs final = conversation_pairs m.
Proof.
  intros m H. unfold RootApp.agent_controller in H.
  apply bind_return_inv in H as (m0 & w1 & E0 & H).
  assert (Hf : memory_file w <> FileCorrupt).
  { intros Hc. revert E0.
    unfold RootMemory.load_memory, RootMemory.path_exists, RootMemory.json_load,
      mbind, py_bind, bind, read_file, ret.
    rewrite Hc. cbn [negb]. rewrite Hc. discriminate. }
  rewrite (root_load_readable _ _ Hf) in E0. injection E0 as <- <-. fold m in H.
  apply bind_return_inv in H as (t & w2 & E1 & H).
  rewrite utcnow_run in E1. injection E1 as <- <-.
  apply bind_return_inv in H as ([response memory'] & w3 & Hb & H).
  cbn [fst snd] in H.
  assert (Hk : memory_file w3 <> FileCorrupt
               /\ history memory'
                  = Some (default [] (history m) ++ [HUser (clock w (ticks w)) user_input])
               /\ resume_text memory' = resume_text m
               /\ resume_uploaded memory' = resume_uploaded m
               /\ conversation_pairs memory' = conversation_pairs m).
  { assert (Hf2 : memory_file (with_tick w) <> FileCorrupt) by exact Hf.
    revert Hb. generalize (with_tick w) Hf2. intros v Hv.
    repeat match goal with
           | |- (if ?c then _ else _) _ = _ -> _ => destruct c
           end; intros Hb.
    - injection Hb as _ <- <-. now repeat split.
    - apply bind_return_inv in Hb as (a & v1 & Ea & Hb).
      apply query_llm_file in Ea.
      apply bind_return_inv in Hb as ([] & v2 & Es & Hb).
      destruct (root_save_readable "default"
                  (set_star_mode_field false
                     (set_history
                        (default [] (history m)
                         ++ [HUser (clock w (ticks w)) user_input]) m)) v1)
        as (v2' & Es' & Fs & _); [congruence|].
      rewrite Es' in Es. injection Es as <-.
      injection Hb as _ <- <-. split; [congruence|]. now repeat split.
    - apply bind_return_inv in Hb as ([] & v2 & Es & Hb).
      destruct (root_save_readable "default"
                  (set_star_mode_field true
                     (set_history
                        (default [] (history m)
                         ++ [HUser (clock w (ticks w)) user_input]) m)) v)
        as (v2' & Es' & Fs & _); [congruence|].
      rewrite Es' in Es. injection Es as <-.
      injection Hb as _ <- <-. split; [congruence|]. now repeat split.
    - apply bind_return_inv in Hb as (a & v1 & Ea & Hb).
      apply root_analyze_file in Ea.
      injection Hb as _ <- <-. split; [congruence|]. now repeat split.
    - apply bind_return_inv in Hb as (a & v1 & Ea & Hb).
      apply query_llm_file in Ea.
      injection Hb as _ <- <-. split; [congruence|]. now repeat split.
    - apply bind_return_inv in Hb as (a & v1 & Ea & Hb).
      apply root_search_jobs_file in Ea.
      injection Hb as _ <- <-. split; [congruence|]. now repeat split.
    - apply bind_return_inv in Hb as (a & v1 & Ea & Hb).
      apply query_llm_file in Ea.
      injection Hb as _ <- <-. split; [congruence|]. now repeat split. }
  destruct Hk as (Hf3 & Hh & Hrt & Hru & Hcp).
  destruct (controller_tail user_input response chat_history memory' w3 Hf3)
    as (w4 & Et & St).
  rewrite Et in H. injection H as <- <-.
  exists response, (clock w (ticks w)), (set_last_response response memory').
  split; [reflexivity|]. split; [exact St|]. now repeat split.
Qed.


(** ** STAR mode *)

Lemma chat_endpoint_star (user_input : string) (w : World) :
  star_mode (session (memory_file w) "default") = Some true ->
  PyStr.member (PyStr.strip (PyStr.lower user_input)) BackendApp.GREETINGS = false ->
  exists (ts : string) (w' : World),
    BackendApp.chat_endpoint user_input w
    = (Return (BackendApp.Json true (gateway_answer w (star_prompt user_input))
                 None (Some ts) 200), w')
    /\ trace w' = trace w ++ [Gateway (full_prompt_of (star_prompt user_input))]
    /\ star_mode (session (memory_file w') "default") = Some false.
Proof.
  intros Hs Hg.
  destruct (chat_try_frame user_input w) as (w4 & Q4 & _ & _ & _ & Hk).
  destruct (set_star_mode_spec "default" false
              (with_event (Gateway (full_prompt_of (star_prompt user_input))) w4))
    as (m6 & w6 & E6 & Q6 & F6 & D6 & S6 & _).
  destruct (Hk (gateway_answer w4 (star_prompt user_input)) w6)
    as (w8 & ts & E8 & Q8 & S8 & _).
  { unfold BackendApp.routing_logic. rewrite Hg, Hs. cbn [default id].
    unfold build_star_story, mbind, py_bind, bind.
    rewrite query_llm_run, E6. reflexivity. }
  exists ts, w8. rewrite (quiet_answer _ _ _ Q4) in E8.
  split; [exact E8|]. split.
  - destruct Q8 as [_ ->]. destruct Q6 as [_ ->]. destruct Q4 as [_ T4].
    cbn [trace with_event]. now rewrite T4.
  - rewrite S8, F6. rewrite session_written by exact D6. exact S6.
Qed.

(** C1 (as the code has it): when star mode is on and the message is not one
    of the greetings, the next call of either router hands the raw message
    to the STAR template, answers with what the Gateway returns and leaves
    star mode off, whatever else the message contains; when the message is
    one of the greetings, either router answers with its fixed greeting,
    sends nothing and leaves star mode on. *)
Theorem star_mode_consumes_next_message :
  (forall (user_input : string) (w : World),
     star_mode (session (memory_file w) "default") = Some true ->
     PyStr.member (PyStr.strip (PyStr.lower user_input))
       ["hi"; "hello"; "hey"; "greetings"] = false ->
     let prompt :=
       "
You are an interview coach.

User's raw story:
" +:+ user_input +:+ "

Task:
- Extract Situation
- Extract Task
- Extract Action
- Extract Result

Then generate:
- A polished 30-second interview answer
- Clear, confident, professional tone
" in
     exists (ts : string) (w' : World),
       BackendApp.chat_endpoint user_input w
       = (Return (BackendApp.Json true (gateway_answer w prompt)
                    None (Some ts) 200), w')
       /\ trace w'
          = trace w
            ++ [Gateway (SYSTEM_PROMPT +:+ nl +:+ nl +:+ "User question:"
                         +:+ nl +:+ prompt)]
       /\ star_mode (session (memory_file w') "default") = Some false)
  /\ (forall (user_input : string) (chat_history : list RootApp.chat_msg)
        (w : World) (all_memory : gmap string Memory) (m : Memory),
        memory_file w = FileValid all_memory ->
        all_memory !! "default" = Some m ->
        star_mode m = Some true ->
        PyStr.member (PyStr.strip (PyStr.lower user_input))
          ["hi"; "hello"; "hey"] = false ->
        let prompt :=
          "
You are an interview coach.

User's raw story:
" +:+ user_input +:+ "

Task:
- Extract Situation
- Extract Task
- Extract Action
- Extract Result

Then generate:
- A polished 30-second interview answer
- Clear, confident, professional tone
" in
        exists (final : Memory) (w' : World),
          RootApp.agent_controller user_input chat_history w
          = (Return (chat_history
                     ++ [RootApp.ChatMsg "user" user_input;
                         RootApp.ChatMsg "assistant" (gateway_answer w prompt)],
                     final, ""), w')
          /\ trace w'
             = trace w
               ++ [Gateway (SYSTEM_PROMPT +:+ nl +:+ nl +:+ "User question:"
                            +:+ nl +:+ prompt)]
          /\ star_mode final = Some false
          /\ stored_all (memory_file w') !! "default" = Some final)
  /\ (forall (user_input : string) (w : World),
        star_mode (session (memory_file w) "default") = Some true ->
        PyStr.member (PyStr.strip (PyStr.lower user_input))
          ["hi"; "hello"; "hey"; "greetings"] = true ->
        exists (ts : string) (w' : World),
          BackendApp.chat_endpoint user_input w
          = (Return (BackendApp.Json true
                       "👋 Hello! I'm your Career AI Assistant. How can I help with your career today?"
                       None (Some ts) 200), w')
          /\ trace w' = trace w
          /\ star_mode (session (memory_file w') "default") = Some true)
  /\ (forall (user_input : string) (chat_history : list RootApp.chat_msg)
        (w : World) (all_memory : gmap string Memory) (m : Memory),
        memory_file w = FileValid all_memory ->
        all_memory !! "default" = Some m ->
        star_mode m = Some true ->
        PyStr.member (PyStr.strip (PyStr.lower user_input))
          ["hi"; "hello"; "hey"] = true ->
        exists (final : Memory) (w' : World),
          RootApp.agent_controller user_input chat_history w
          = (Return (chat_history
                     ++ [RootApp.ChatMsg "user" user_input;
                         RootApp.ChatMsg "assistant"
                           "Hello 👋 How can I help you with your career today?"],
                     final, ""), w')
          /\ trace w' = trace w
          /\ star_mode final = Some true
          /\ stored_all (memory_file w') !! "default" = Some final).
Proof.
  split; [|split; [|split]].
  - intros user_input w Hs Hg prompt.
    change prompt with (star_prompt user_input).
    now apply chat_endpoint_star.
  - intros user_input chat_history w all_memory m Hf Hm Hs Hg prompt.
    change prompt with (star_prompt user_input).
    eapply agent_controller_star; eassumption.
  - intros user_input w Hs Hg.
    destruct (chat_endpoint_greeting user_input w Hg) as (ts & w' & E & T & S).
    exists ts, w'. split; [exact E|]. split; [exact T|]. now rewrite S.
  - intros user_input chat_history w all_memory m Hf Hm Hs Hg.
    destruct (agent_controller_greeting user_input chat_history w _ _ Hf Hm Hg)
      as (final & w' & E & T & S & L).
    exists final, w'. split; [exact E|]. split; [exact T|].
    split; [now rewrite S|exact L].
Qed.

Lemma star_mode_consumes_next_message_witness :
  (exists (ts : string) (w' : World),
     BackendApp.chat_endpoint "I led a team that found me a job"
       (canned_world star_file "Situation: ...")
     = (Return (BackendApp.Json true "Situation: ..." None (Some ts) 200), w')
     /\ (exists sent : string,
           trace w' = [Gateway sent]
           /\ PyStr.contains "User's raw story:
I led a team that found me a job

Task:" sent = true)
     /\ star_mode (session (memory_file w') "default") = Some false)
  /\ (exists (ts : string) (w' : World),
        BackendApp.chat_endpoint " Greetings " (canned_world star_file "Situation: ...")
        = (Return (BackendApp.Json true
                     "👋 Hello! I'm your Career AI Assistant. How can I help with your career today?"
                     None (Some ts) 200), w')
        /\ trace w' = []
        /\ star_mode (session (memory_file w') "default") = Some true)
  /\ (exists (final : Memory) (w' : World),
        RootApp.agent_controller "HEY" [] (canned_world star_file "Situation: ...")
        = (Return ([] ++ [RootApp.ChatMsg "user" "HEY";
                          RootApp.ChatMsg "assistant"
                            "Hello 👋 How can I help you with your career today?"],
                   final, ""), w')
        /\ trace w' = []
        /\ star_mode final = Some true).
Proof.
  destruct star_mode_consumes_next_message as (H1 & _ & H3 & H4).
  split; [|split].
  - destruct (H1 "I led a team that found me a job"
                (canned_world star_file "Situation: ...") eq_refl eq_refl)
      as (ts & w' & E & T & S).
    exists ts, w'. split; [exact E|]. split; [|exact S].
    eexists. split; [exact T|]. vm_compute. reflexivity.
  - destruct (H3 " Greetings " (canned_world star_file "Situation: ...")
                eq_refl eq_refl) as (ts & w' & E & T & S).
    exists ts, w'. split; [exact E|]. split; [exact T|exact S].
  - destruct (H4 "HEY" [] (canned_world star_file "Situation: ...")
                {["default" := star_session]} star_session
                eq_refl eq_refl eq_refl eq_refl)
      as (final & w' & E & T & S & _).
    exists final, w'. split; [exact E|]. split; [exact T|exact S].
Defined.

(** C1 as stated fails: with star mode on, the greeting "hi" is answered by
    the fixed greeting, no prompt goes to the Gateway and star mode stays on. *)
Lemma star_mode_greeting_not_consumed :
  star_mode (session star_file "default") = Some true
  /\ exists (ts : string) (w' : World),
       BackendApp.chat_endpoint "hi" (canned_world star_file "Situation: ...")
       = (Return (BackendApp.Json true
                    "👋 Hello! I'm your Career AI Assistant. How can I help with your career today?"
                    None (Some ts) 200), w')
       /\ trace w' = []
       /\ star_mode (session (memory_file w') "default") = Some true.
Proof.
  split; [reflexivity|].
  eexists. eexists. split; [vm_compute; reflexivity|].
  split; vm_compute; reflexivity.
Qed.


(** ** The resume precondition *)

Lemma resume_guard {ML : MemoryLayer} (w : World) (m : Memory) (w1 : World) :
  load_memory "default" w = (Return m, w1) ->
  truthy_str (resume_text m) = false ->
  (forall target_role, analyze_resume_for_role target_role w = (Return UPLOAD_FIRST, w1))
  /\ (forall job_description, detect_skill_gaps job_description w = (Return UPLOAD_FIRST, w1))
  /\ (forall job_description,
        calculate_resume_job_match job_description w = (Return UPLOAD_FIRST, w1))
  /\ reverse_job_matcher w = (Return UPLOAD_FIRST, w1)
  /\ (forall jd_text, resume_heatmap jd_text w = (Return UPLOAD_FIRST, w1)).
Proof.
  intros E F.
  unfold analyze_resume_for_role, detect_skill_gaps, calculate_resume_job_match,
    reverse_job_matcher, resume_heatmap, mbind, py_bind, bind.
  rewrite E, F. repeat split.
Qed.

Lemma backend_load_quiet (user_id : string) (w : World) (m : Memory) (w1 : World) :
  BackendMemory.load_memory user_id w = (Return m, w1) -> steady w w1.
Proof.
  destruct (load_memory_spec user_id w) as (m' & w' & E & S & _).
  rewrite E. now intros [= _ <-].
Qed.

Lemma chat_endpoint_upload_notice (user_input : string) (w : World) :
  let text := PyStr.strip (PyStr.lower user_input) in
  PyStr.member text BackendApp.GREETINGS = false ->
  star_mode (session (memory_file w) "default") = Some false ->
  PyStr.contains "star" text || PyStr.contains "behavioral" text
  || PyStr.contains "interview story" text = false ->
  PyStr.contains_any BackendApp.RESUME_MARKERS text = true ->
  resume_uploaded (session (memory_file w) "default") = Some false ->
  exists (ts : string) (w' : World),
    BackendApp.chat_endpoint user_input w
    = (Return (BackendApp.Json true BackendApp.UPLOAD_NOTICE None (Some ts) 200), w')
    /\ trace w' = trace w.
Proof.
  intros text Hg Hs Ht Hm Hu.
  destruct (chat_try_frame user_input w) as (w4 & Q4 & _ & _ & _ & Hk).
  destruct (Hk BackendApp.UPLOAD_NOTICE w4) as (w8 & ts & E8 & Q8 & _).
  { fold text. unfold BackendApp.routing_logic, BackendApp.resume_branch.
    rewrite Hg, Hs, Ht, Hm, Hu. reflexivity. }
  exists ts, w8. split; [exact E8|].
  destruct Q8 as [_ ->]. now destruct Q4 as [_ ->].
Qed.

(** C2 (as the code has it): with no resume text in the session, each of the
    five analytics operations returns its fixed notice and sends nothing; the
    resume branch of the chat router tests the flag [resume_uploaded]
    instead, and when that flag is off it returns its own fixed notice and
    sends nothing. *)
Theorem missing_resume_returns_notice :
  (forall (ML : MemoryLayer) (w : World) (m : Memory) (w1 : World),
     load_memory "default" w = (Return m, w1) ->
     truthy_str (resume_text m) = false ->
     (forall target_role,
        analyze_resume_for_role target_role w
        = (Return "📄 Please upload your resume first.", w1))
     /\ (forall job_description,
           detect_skill_gaps job_description w
           = (Return "📄 Please upload your resume first.", w1))
     /\ (forall job_description,
           calculate_resume_job_match job_description w
           = (Return "📄 Please upload your resume first.", w1))
     /\ reverse_job_matcher w = (Return "📄 Please upload your resume first.", w1)
     /\ (forall jd_text,
           resume_heatmap jd_text w
           = (Return "📄 Please upload your resume first.", w1)))
  /\ (forall (w : World) (m : Memory) (w1 : World),
        RootMemory.load_memory "default" w = (Return m, w1) -> trace w1 = trace w)
  /\ (forall (w : World) (m : Memory) (w1 : World),
        BackendMemory.load_memory "default" w = (Return m, w1) ->
        trace w1 = trace w)
  /\ (forall (user_input : string) (w : World),
        let text := PyStr.strip (PyStr.lower user_input) in
        PyStr.member text ["hi"; "hello"; "hey"; "greetings"] = false ->
        star_mode (session (memory_file w) "default") = Some false ->
        PyStr.contains "star" text || PyStr.contains "behavioral" text
        || PyStr.contains "interview story" text = false ->
        PyStr.contains_any
          ["based on my resume"; "from my resume"; "my resume";
           "according to my resume"] text = true ->
        resume_uploaded (session (memory_file w) "default") = Some false ->
        exists (ts : string) (w' : World),
          BackendApp.chat_endpoint user_input w
          = (Return (BackendApp.Json true
                       "📄 Please upload your resume first using the upload button on the left."
                       None (Some ts) 200), w')
          /\ trace w' = trace w).
Proof.
  split; [intros ML w m w1 E F; exact (resume_guard w m w1 E F)|].
  split; [intros w m w1 E; now rewrite (root_load_quiet _ _ _ _ E)|].
  split; [intros w m w1 E; now destruct (backend_load_quiet _ _ _ _ E) as [[_ T] _]|].
  intros. now apply chat_endpoint_upload_notice.
Qed.

Lemma missing_resume_returns_notice_witness :
  (exists w1 : World,
     resume_heatmap (ML := BackendMemory.layer) "Python developer"
       (offline_world FileMissing)
     = (Return "📄 Please upload your resume first.", w1)
     /\ trace w1 = [])
  /\ exists (ts : string) (w' : World),
       BackendApp.chat_endpoint "What does my resume say?" (offline_world FileMissing)
       = (Return (BackendApp.Json true
                    "📄 Please upload your resume first using the upload button on the left."
                    None (Some ts) 200), w')
       /\ trace w' = [].
Proof.
  destruct missing_resume_returns_notice as (HA & _ & HB & HC).
  split.
  - eexists. split.
    + eapply (HA BackendMemory.layer); [vm_compute; reflexivity|reflexivity].
    + reflexivity.
  - apply (HC "What does my resume say?" (offline_world FileMissing));
      reflexivity.
Defined.

(** C2 as stated fails on the router branch: after an upload whose extracted
    text is empty the session holds no resume text, yet a question about "my
    resume" is sent to the Gateway. *)
Lemma empty_resume_reaches_gateway :
  let w1 := snd (BackendMemory.set_resume "default" "" "cv.txt"
                   (canned_world FileMissing "Looks fine")) in
  resume_text (session (memory_file w1) "default") = Some ""
  /\ trace w1 = []
  /\ exists (ts : string) (w' : World),
       BackendApp.chat_endpoint "What does my resume say?" w1
       = (Return (BackendApp.Json true "Looks fine" None (Some ts) 200), w')
       /\ trace w'
          = [Gateway (full_prompt_of
                        ("Based on this resume:" +:+ nl +:+ "" +:+ nl +:+ nl
                         +:+ "Question: " +:+ "What does my resume say?"))].
Proof.
  split; [vm_compute; reflexivity|]. split; [vm_compute; reflexivity|].
  eexists. eexists. split; vm_compute; reflexivity.
Qed.

(** ** The caps of the history *)

Lemma last_n_suffix {A : Type} (n : nat) (l : list A) :
  exists evicted : list A,
    l = evicted ++ last_n n l
    /\ length (last_n n l) = Nat.min n (length l).
Proof.
  exists (take (length l - n) l). unfold last_n. split.
  - symmetry. apply take_drop.
  - rewrite length_drop. lia.
Qed.

Lemma take_drop_string (n : nat) (s : string) :
  s = PyStr.take n s +:+ PyStr.drop n s.
Proof.
  revert s. induction n as [|n IH]; intros [|c s]; try reflexivity.
  cbn [PyStr.take PyStr.drop]. rewrite append_cons. now rewrite <- IH.
Qed.

Lemma take_all (n : nat) (s : string) :
  (String.length s <= n)%nat -> PyStr.take n s = s.
Proof.
  revert s. induction n as [|n IH]; intros [|c s] H; try reflexivity.
  - cbn in H. lia.
  - cbn [PyStr.take]. f_equal. apply IH. cbn in H. lia.
Qed.

Lemma cut_at_take (n : nat) (s : string) : cut_at n s (PyStr.take n s).
Proof.
  split; [exists (PyStr.drop n s); apply take_drop_string|].
  split; [intros H; now apply take_all|reflexivity].
Qed.

(** C7 (as the code has it): [add_to_history] keeps the last 50 entries of
    the history and the last 20 conversation pairs, the oldest going first;
    so after any number of appends through [add_to_history] or the chat
    endpoint, a store within the caps (an absent one is) stays within them.
    The Gradio controller has no cap: each call that returns stores the
    earlier history followed by the message, one entry more whatever the
    length, and leaves [conversation_pairs] as it was. *)
Theorem history_and_pairs_stay_capped :
  (forall (user_id user_input : string) (response : option string) (w : World),
     let s := session (memory_file w) user_id in
     exists (w' : World) (t t' t'' a b : string),
       BackendMemory.add_to_history user_id user_input response w = (Return tt, w')
       /\ cut_at 500 (default "" response) a
       /\ cut_at 1000 (default "" response) b
       /\ history (session (memory_file w') user_id)
          = Some (last_n 50
                    (default [] (history s)
                     ++ HUserInput t user_input
                        :: (if truthy_str response then [HAssistant t' a]
                            else [])))
       /\ conversation_pairs (session (memory_file w') user_id)
          = (if truthy_str response
             then Some (last_n 20
                          (default [] (conversation_pairs s)
                           ++ [ConvPair user_input b t'']))
             else conversation_pairs s)
       /\ (history_len (session (memory_file w') user_id) <= 50)%nat)
  /\ (forall (A : Type) (n : nat) (l : list A),
        exists evicted : list A,
          l = evicted ++ last_n n l
          /\ length (last_n n l) = Nat.min n (length l))
  /\ (forall (calls : list append_call) (w : World),
        within_caps (memory_file w) ->
        within_caps (memory_file (run_calls calls w)))
  /\ within_caps FileMissing
  /\ (forall (user_input : string) (chat_history : list RootApp.chat_msg)
        (w : World) (r : list RootApp.chat_msg * Memory * string) (w' : World),
        let m := default empty_dict (stored_all (memory_file w) !! "default") in
        RootApp.agent_controller user_input chat_history w = (Return r, w') ->
        exists (t : string) (final : Memory),
          stored_all (memory_file w') !! "default" = Some final
          /\ history final = Some (default [] (history m) ++ [HUser t user_input])
          /\ history_len final = S (history_len m)
          /\ conversation_pairs final = conversation_pairs m).
Proof.
  split; [|split; [intros; apply last_n_suffix|split;
                   [apply run_calls_caps|split; [apply within_caps_missing|]]]].
  - intros user_id user_input response w s.
    destruct (add_to_history_spec user_id user_input response w)
      as (m' & w' & t & t' & t'' & E & _ & F & D & Hh & Hp & _).
    exists w', t, t', t'', (PyStr.take 500 (default "" response)),
      (PyStr.take 1000 (default "" response)).
    rewrite F, session_written by exact D.
    split; [exact E|]. split; [apply cut_at_take|]. split; [apply cut_at_take|].
    split; [exact Hh|]. split; [exact Hp|].
    unfold history_len. rewrite Hh. cbn [default id]. apply last_n_length.
  - intros user_input chat_history w r w' m H.
    destruct (agent_controller_shape _ _ _ _ _ H)
      as (response & t & final & _ & Hs & _ & Hh & _ & _ & Hp).
    fold m in Hh, Hp. exists t, final.
    split; [exact Hs|]. split; [exact Hh|]. split; [|exact Hp].
    unfold history_len. rewrite Hh. cbn [default from_option id].
    rewrite length_app. cbn [length]. lia.
Qed.

Lemma history_and_pairs_stay_capped_witness :
  within_caps FileMissing
  /\ within_caps
       (memory_file
          (run_calls [ViaRouter "hi"; ViaStore "default" "thanks" (Some "welcome")]
                     (offline_world FileMissing)))
  /\ exists (t : string) (final : Memory),
       stored_all
         (memory_file
            (snd (RootApp.agent_controller "hi" [] (offline_world FileMissing))))
       !! "default" = Some final
       /\ history final = Some ([] ++ [HUser t "hi"])
       /\ conversation_pairs final = None.
Proof.
  destruct history_and_pairs_stay_capped as (_ & _ & H & H0 & H1).
  split; [exact H0|]. split; [apply H; exact H0|].
  edestruct (H1 "hi" [] (offline_world FileMissing))
    as (t & final & Hs & Hh & _ & Hp); [vm_compute; reflexivity|].
  exists t, final. split; [exact Hs|]. split; [exact Hh|exact Hp].
Defined.

(** C7 as stated fails for the Gradio controller: it appends to the history
    without a cap and writes no conversation pair, so 51 messages leave 51
    entries and no pair. *)
Lemma gradio_history_has_no_cap :
  exists m : Memory,
    stored_all (memory_file (run_controller (replicate 51 "hi")
                               (offline_world FileMissing))) !! "default"
    = Some m
    /\ history_len m = 51%nat
    /\ ~ (history_len m <= 50)%nat
    /\ conversation_pairs m = None.
Proof.
  eexists. split; [vm_compute; reflexivity|].
  split; [vm_compute; reflexivity|]. split; [vm_compute; lia|].
  vm_compute. reflexivity.
Qed.

(** ** Saving and loading *)

Lemma with_defaults_complete (m : Memory) :
  complete m = true -> BackendMemory.with_defaults m = m.
Proof.
  destruct m as [[h|] [p|] [rt|] [ru|] [rf|] [sm|] [lr|] ca ua
                 [[[i|] [a|] [s|]]|]]; cbn; intros H;
    try discriminate; reflexivity.
Qed.

Lemma backend_save_load (user_id : string) (m : Memory) (w : World) :
  let w1 := snd (BackendMemory.save_memory user_id m w) in
  fst (BackendMemory.save_memory user_id m w) = Return tt
  /\ stored_all (memory_file w1) !! user_id
     = Some (set_updated_at (clock w (ticks w)) (BackendMemory.with_defaults m))
  /\ fst (BackendMemory.load_memory user_id w1)
     = Return (set_updated_at (clock w (S (ticks w)))
                 (BackendMemory.with_defaults m)).
Proof.
  intros w1. unfold w1. rewrite save_memory_run. cbn [fst snd].
  split; [reflexivity|]. split.
  - cbn [memory_file with_file stored_all]. apply lookup_insert_eq.
  - erewrite load_memory_valid by reflexivity.
    cbn [fst memory_file with_file with_tick clock ticks].
    rewrite session_written
      by (rewrite with_defaults_updated, with_defaults_idem; reflexivity).
    reflexivity.
Qed.

Lemma root_save_load (user_id : string) (m : Memory) (w : World) :
  memory_file w <> FileCorrupt ->
  fst (RootMemory.load_memory user_id (snd (RootMemory.save_memory user_id m w)))
  = Return m.
Proof.
  intros H. rewrite root_save_run by exact H. cbn [snd].
  erewrite root_load_valid by reflexivity.
  rewrite lookup_insert_eq. reflexivity.
Qed.

(** C8 (as the code has it): with the simple store a saved record is loaded
    back as it was; with the enhanced store the record is saved with its
    missing keys filled in and the time of the save as [updated_at], and
    loaded back equal to that in every key except [updated_at], which is the
    time of the load. *)
Theorem save_then_load_round_trip :
  (forall (user_id : string) (m : Memory) (w : World),
     memory_file w <> FileCorrupt ->
     fst (RootMemory.load_memory user_id
            (snd (RootMemory.save_memory user_id m w)))
     = Return m)
  /\ (forall (user_id : string) (m : Memory) (w : World),
        let w1 := snd (BackendMemory.save_memory user_id m w) in
        fst (BackendMemory.save_memory user_id m w) = Return tt
        /\ stored_all (memory_file w1) !! user_id
           = Some (set_updated_at (clock w (ticks w))
                     (BackendMemory.with_defaults m))
        /\ fst (BackendMemory.load_memory user_id w1)
           = Return (set_updated_at (clock w (S (ticks w)))
                       (BackendMemory.with_defaults m)))
  /\ (forall m : Memory, complete m = true -> BackendMemory.with_defaults m = m)
  /\ (forall (t : string) (m : Memory), core (set_updated_at t m) = core m).
Proof.
  split; [apply root_save_load|]. split; [apply backend_save_load|].
  split; [apply with_defaults_complete|reflexivity].
Qed.

Lemma save_then_load_round_trip_witness :
  memory_file (offline_world FileMissing) <> FileCorrupt
  /\ fst (RootMemory.load_memory "default"
            (snd (RootMemory.save_memory "default" sample_record
                    (offline_world FileMissing))))
     = Return sample_record
  /\ complete sample_record = true
  /\ BackendMemory.with_defaults sample_record = sample_record.
Proof.
  destruct save_then_load_round_trip as (HR & _ & HC & _).
  assert (H : memory_file (offline_world FileMissing) <> FileCorrupt)
    by discriminate.
  split; [exact H|]. split; [apply (HR "default" sample_record _ H)|].
  split; [reflexivity|apply HC; reflexivity].
Defined.

(** C8 as stated fails for the enhanced store: the record loaded after a save
    differs from the record passed in and from the record in the file, by its
    [updated_at]. *)
Lemma enhanced_store_changes_updated_at :
  let w1 := snd (BackendMemory.save_memory "default" sample_record
                   (offline_world FileMissing)) in
  exists saved loaded : Memory,
    stored_all (memory_file w1) !! "default" = Some saved
    /\ fst (BackendMemory.load_memory "default" w1) = Return loaded
    /\ updated_at sample_record = Some "2025-01-01T00:00:00"
    /\ updated_at saved = Some "t0"
    /\ updated_at loaded = Some "t1"
    /\ loaded <> sample_record
    /\ loaded <> saved.
Proof.
  do 2 eexists. split; [vm_compute; reflexivity|].
  split; [vm_compute; reflexivity|].
  repeat split; try (vm_compute; reflexivity); vm_compute; discriminate.
Qed.

(** ** Company interview questions *)





(** * Further properties *)

(** ** Rows of the heatmap table *)

Lemma fields_count (c : ascii) (s : string) :
  length (snd (PyStr.fields c s)) = count_char c s.
Proof.
  induction s as [|d s IH]; [reflexivity|].
  cbn [PyStr.fields count_char]. destruct (PyStr.fields c s) as [w ws].
  cbn [snd] in IH. case_bool_decide; cbn [snd length]; lia.
Qed.

Lemma split_on_length (c : ascii) (s : string) :
  length (PyStr.split_on c s) = S (count_char c s).
Proof.
  unfold PyStr.split_on. pose proof (fields_count c s) as H.
  destruct (PyStr.fields c s) as [w ws]. cbn [snd] in H. cbn [length]. lia.
Qed.

Lemma row_parts_length (line : string) : length (row_parts line) = S (pipes line).
Proof. unfold row_parts. rewrite length_map. apply split_on_length. Qed.

Lemma contains_char (c : ascii) (s : string) :
  PyStr.contains (String c "") s = negb (count_char c s =? 0)%nat.
Proof.
  induction s as [|d s IH]; [reflexivity|].
  cbn [PyStr.contains count_char String.prefix]. rewrite IH.
  destruct (ascii_dec c d) as [->|Hne].
  - rewrite bool_decide_eq_true_2 by reflexivity. now destruct s.
  - rewrite bool_decide_eq_false_2 by congruence. reflexivity.
Qed.

Lemma heatmap_row_cases (line : string) :
  ((pipes line < 2)%nat -> heatmap_row line = Return None)
  /\ (pipes line = 2%nat ->
      exists section score_text explanation : string,
        row_parts line = [section; score_text; explanation]
        /\ heatmap_row line
           = (if PyStr.member (PyStr.lower section) ["section"; "score"; "---"]
              then Return None
              else Return (Some (heatmap_block section score_text explanation))))
  /\ ((3 <= pipes line)%nat ->
      heatmap_row line
      = Raise (Exception "ValueError" "too many values to unpack (expected 3)")).
Proof.
  pose proof (row_parts_length line) as Hlen.
  unfold heatmap_row. fold (row_parts line).
  change "|"%string with (String "|"%char "") at 1 2 3.
  rewrite contains_char. fold (pipes line).
  destruct (row_parts line) as [|a [|b [|c [|d l]]]] eqn:E;
    cbn [length] in Hlen; repeat split; intros H; try lia;
    try (destruct (pipes line); [reflexivity|]; cbn; try reflexivity; lia).
  - destruct (pipes line) as [|[|[|n]]]; try lia. cbn.
    exists a, b, c. split; reflexivity.
  - destruct (pipes line) as [|n]; [lia|]. reflexivity.
Qed.

(** X1: what the loop does with a line depends on its number of [|]: with
    fewer than two the line is skipped, with exactly two its three fields make
    a row (skipped when the first names a header), and with three or more the
    unpacking raises [ValueError]. *)
Theorem heatmap_row_by_separators (line : string) :
  ((pipes line < 2)%nat -> heatmap_row line = Return None)
  /\ (pipes line = 2%nat ->
      exists section score_text explanation : string,
        row_parts line = [section; score_text; explanation]
        /\ heatmap_row line
           = (if PyStr.member (PyStr.lower section) ["section"; "score"; "---"]
              then Return None
              else Return (Some (heatmap_block section score_text explanation))))
  /\ ((3 <= pipes line)%nat ->
      heatmap_row line
      = Raise (Exception "ValueError" "too many values to unpack (expected 3)")).
Proof. apply heatmap_row_cases. Qed.

Lemma heatmap_row_by_separators_witness :
  pipes "| Skills | 80 | Good |" = 4%nat
  /\ heatmap_row "| Skills | 80 | Good |"
     = Raise (Exception "ValueError" "too many values to unpack (expected 3)")
  /\ pipes "Skills: 80" = 0%nat
  /\ heatmap_row "Skills: 80" = Return None.
Proof.
  destruct (heatmap_row_by_separators "| Skills | 80 | Good |") as (_ & _ & H3).
  destruct (heatmap_row_by_separators "Skills: 80") as (H0 & _ & _).
  split; [reflexivity|]. split; [apply H3; vm_compute; lia|].
  split; [reflexivity|]. apply H0. vm_compute. lia.
Defined.

Lemma heatmap_row_no_raise (line : string) :
  (pipes line <= 2)%nat ->
  heatmap_row line = Return (row_block line).
Proof.
  intros H. unfold row_block.
  destruct (heatmap_row_cases line) as (H0 & H2 & _).
  destruct (Nat.eq_dec (pipes line) 2%nat) as [E|E].
  - destruct (H2 E) as (a & b & c & _ & ->). now destruct (PyStr.member _ _).
  - rewrite H0 by lia. reflexivity.
Qed.

Lemma heatmap_loop_blocks (lines acc : list string) :
  Forall (fun line => (pipes line <= 2)%nat) lines ->
  heatmap_loop lines acc = Return (acc ++ omap row_block lines).
Proof.
  intros H. revert acc. induction H as [|line lines Hl _ IH]; intros acc.
  - cbn. now rewrite app_nil_r.
  - cbn [heatmap_loop]. rewrite (heatmap_row_no_raise _ Hl).
    cbn [omap list_omap].
    destruct (row_block line) as [b|]; rewrite IH; [|reflexivity].
    now rewrite <- app_assoc.
Qed.

Lemma heatmap_loop_raises (lines acc : list string) :
  Exists (fun line => (3 <= pipes line)%nat) lines ->
  exists e : exn, heatmap_loop lines acc = Raise e.
Proof.
  intros H. revert acc. induction H as [line lines Hl|line lines _ IH]; intros acc.
  - destruct (heatmap_row_cases line) as (_ & _ & H3).
    cbn [heatmap_loop]. rewrite (H3 Hl). eauto.
  - cbn [heatmap_loop]. destruct (heatmap_row line) as [[b|]|e]; eauto.
Qed.

(** X2: with a resume stored, [resume_heatmap] sends one prompt and renders
    the answer line by line: when no line has more than two [|] it returns
    the could-not-generate notice if no line makes a row, and otherwise the
    header followed by the blocks in the order of the lines (never a bare
    header); when some line has three or more [|] it raises. *)
Theorem resume_heatmap_outcomes (ML : MemoryLayer) (jd_text : string)
    (w : World) (m : Memory) (w1 : World) :
  load_memory "default" w = (Return m, w1) ->
  truthy_str (resume_text m) = true ->
  let prompt := heatmap_prompt (default "" (resume_text m)) jd_text in
  let lines := PyStr.splitlines (gateway_answer w1 prompt) in
  let w2 := with_event (Gateway (full_prompt_of prompt)) w1 in
  (Forall (fun line => (pipes line <= 2)%nat) lines ->
   resume_heatmap jd_text w
   = (Return (match omap row_block lines with
              | [] => "⚠️ Could not generate heatmap."
              | blocks =>
                  "📊 **Resume Heatmap vs Job Description**" +:+ nl +:+ nl
                  +:+ PyStr.join nl blocks
              end), w2))
  /\ (Exists (fun line => (3 <= pipes line)%nat) lines ->
      exists e : exn, resume_heatmap jd_text w = (Raise e, w2)).
Proof.
  intros E T prompt lines w2.
  assert (Hf : fmt (resume_text m) = default "" (resume_text m))
    by (destruct (resume_text m); [reflexivity|discriminate]).
  unfold resume_heatmap, mbind, py_bind, bind. rewrite E, T. cbn [negb].
  rewrite Hf, query_llm_run. fold prompt lines w2. unfold lift. split.
  - intros H. rewrite (heatmap_loop_blocks _ [] H). cbn [app].
    destruct (omap row_block lines); reflexivity.
  - intros H. destruct (heatmap_loop_raises _ [] H) as (e & ->). now exists e.
Qed.

Lemma resume_heatmap_outcomes_witness :
  let w := snd (BackendMemory.set_resume "default" "Python, SQL" "cv.txt"
                  (canned_world FileMissing "Skills | 80 | Good
Education: fine")) in
  exists w' : World,
    resume_heatmap (ML := BackendMemory.layer) "Data engineer" w
    = (Return (HEATMAP_HEADER +:+ heatmap_block "Skills" "80" "Good"), w').
Proof.
  intros w.
  destruct (BackendMemory.load_memory "default" w) as [[m|e] w1] eqn:E;
    [|vm_compute in E; discriminate].
  destruct (resume_heatmap_outcomes BackendMemory.layer "Data engineer" w m w1 E)
    as [H _].
  { vm_compute in E. injection E as <- <-. reflexivity. }
  eexists. rewrite H.
  - vm_compute in E. injection E as <- <-. vm_compute. reflexivity.
  - vm_compute in E. injection E as <- <-. vm_compute.
    repeat constructor.
Defined.

(** ** The LinkedIn adapter *)

Lemma rstrip_cons (c : ascii) (s : string) :
  PyStr.rstrip (String c s)
  = match PyStr.rstrip s with
    | EmptyString => if PyStr.is_space c then "" else String c ""
    | r => String c r
    end.
Proof. reflexivity. Qed.

Lemma rstrip_idem (s : string) : PyStr.rstrip (PyStr.rstrip s) = PyStr.rstrip s.
Proof.
  induction s as [|c s IH]; [reflexivity|].
  rewrite rstrip_cons. destruct (PyStr.rstrip s) as [|d r] eqn:E.
  - destruct (PyStr.is_space c) eqn:Hc; [reflexivity|].
    rewrite rstrip_cons. cbn [PyStr.rstrip]. now rewrite Hc.
  - rewrite rstrip_cons. now rewrite IH.
Qed.

Lemma rstrip_head (c : ascii) (s : string) :
  PyStr.is_space c = false ->
  exists r : string, PyStr.rstrip (String c s) = String c r.
Proof.
  intros Hc. rewrite rstrip_cons. rewrite Hc.
  destruct (PyStr.rstrip s); eauto.
Qed.

Lemma lstrip_head (s : string) :
  PyStr.lstrip s = ""
  \/ exists (c : ascii) (r : string),
       PyStr.lstrip s = String c r /\ PyStr.is_space c = false.
Proof.
  induction s as [|c s IH]; [now left|].
  cbn [PyStr.lstrip]. destruct (PyStr.is_space c) eqn:Hc; [exact IH|].
  right. now exists c, s.
Qed.

Lemma strip_idem (s : string) : PyStr.strip (PyStr.strip s) = PyStr.strip s.
Proof.
  unfold PyStr.strip. destruct (lstrip_head s) as [->|(c & r & -> & Hc)].
  - reflexivity.
  - destruct (rstrip_head c r Hc) as (r' & E). rewrite E.
    cbn [PyStr.lstrip]. rewrite Hc. rewrite <- E. apply rstrip_idem.
Qed.

Lemma omap_length_le {A B : Type} (f : A -> option B) (l : list A) :
  (length (omap f l) <= length l)%nat.
Proof.
  induction l as [|x l IH]; [reflexivity|].
  cbn [omap list_omap]. destruct (f x); cbn [length]; fold (omap f l); lia.
Qed.

Lemma slice_to_length {A : Type} (n : Z) (l : list A) :
  0 <= n -> (length (slice_to n l) <= Z.to_nat n)%nat.
Proof.
  intros H. unfold slice_to. destruct (Z.leb_spec 0 n); [|lia].
  rewrite list.length_take. lia.
Qed.

Lemma get_jobs_bounded (query : string) (limit : Z) (w : World) :
  0 <= limit ->
  exists jobs : list BackendJobs.job,
    BackendJobs.get_jobs query limit w
    = (Return jobs, with_event (LinkedInGet query) w)
    /\ (1 <= length jobs <= Nat.max 1 (Z.to_nat limit))%nat.
Proof.
  intros Hl.
  unfold BackendJobs.get_jobs, try_except, mbind, py_bind, bind,
    BackendJobs.session_get.
  destruct (linkedin w (length (trace w)) query) as [e|st cards].
  - eexists. split; [reflexivity|]. cbn. lia.
  - cbn [fst snd]. destruct (st =? 200); cbn [negb];
      [|eexists; split; [reflexivity|cbn; lia]].
    pose proof (omap_length_le BackendJobs._parse_card (slice_to limit cards)).
    pose proof (slice_to_length limit cards Hl).
    destruct (omap BackendJobs._parse_card (slice_to limit cards))
      as [|j jobs] eqn:E; cbn [length Nat.ltb Nat.leb].
    + eexists. split; [reflexivity|]. cbn. lia.
    + eexists. split; [reflexivity|]. cbn [length] in *. lia.
Qed.

Lemma default_query_ok (c : string) :
  PyStr.strip c = c ->
  (if PyStr.is_empty c then "developer" else c) <> ""
  /\ PyStr.strip (if PyStr.is_empty c then "developer" else c)
     = (if PyStr.is_empty c then "developer" else c).
Proof.
  intros H. destruct c; cbn [PyStr.is_empty]; [split; [discriminate|reflexivity]|].
  split; [discriminate|exact H].
Qed.

Lemma search_jobs_cases (query : string) (w : World) :
  let cleaned :=
    PyStr.strip (PyStr.replace "for" "" (PyStr.replace "jobs" "" query)) in
  let sent := if PyStr.is_empty cleaned then "developer" else cleaned in
  exists lines : list string,
    BackendJobs.search_jobs query w
    = (Return lines, with_event (LinkedInGet sent) w)
    /\ sent <> ""
    /\ PyStr.strip sent = sent
    /\ (1 <= length lines <= 5)%nat.
Proof.
  intros cleaned sent.
  destruct (default_query_ok cleaned (strip_idem _)) as [Hne Hst].
  fold sent in Hne, Hst.
  unfold BackendJobs.search_jobs, mbind, py_bind, bind.
  fold cleaned. fold sent.
  destruct (get_jobs_bounded sent 5 w) as (jobs & E & Hlen); [lia|].
  rewrite E. eexists. split; [reflexivity|].
  split; [exact Hne|split; [exact Hst|]].
  rewrite length_map. cbn in Hlen. lia.
Qed.

(** X3: the query [search_jobs] sends to LinkedIn is the input without the
    occurrences of "jobs" and "for" (also inside words), trimmed, or
    "developer" when nothing is left; it is never empty and has no whitespace
    around it.  The result has between one
    and five entries. *)
Theorem search_jobs_query_and_size (query : string) (w : World) :
  let cleaned :=
    PyStr.strip (PyStr.replace "for" "" (PyStr.replace "jobs" "" query)) in
  let sent := if PyStr.is_empty cleaned then "developer" else cleaned in
  exists lines : list string,
    BackendJobs.search_jobs query w
    = (Return lines, with_event (LinkedInGet sent) w)
    /\ sent <> ""
    /\ PyStr.strip sent = sent
    /\ (1 <= length lines <= 5)%nat.
Proof. apply search_jobs_cases. Qed.

(** X4: for a limit that is not negative [get_jobs] makes one request and
    returns at least one listing and at most [limit] of them (one when the
    limit is 0: the fallback link). *)
Theorem get_jobs_respects_limit (query : string) (limit : Z) (w : World) :
  0 <= limit ->
  exists jobs : list BackendJobs.job,
    BackendJobs.get_jobs query limit w
    = (Return jobs, with_event (LinkedInGet query) w)
    /\ (1 <= length jobs <= Nat.max 1 (Z.to_nat limit))%nat.
Proof. apply get_jobs_bounded. Qed.

Lemma get_jobs_respects_limit_witness :
  exists jobs : list BackendJobs.job,
    BackendJobs.get_jobs "python" 2
      (MkWorld FileMissing 0 counting_clock []
         (fun _ _ => GenText "")
         (fun _ _ => FetchResponse 200
                       [Card (CardTag (Some "A") None None None None);
                        CardBroken;
                        Card (CardTag (Some "B") None None None None);
                        Card (CardTag (Some "C") None None None None)])
         false (fun _ _ => JResponse 200 []))
    = (Return jobs,
       with_event (LinkedInGet "python")
         (MkWorld FileMissing 0 counting_clock []
            (fun _ _ => GenText "")
            (fun _ _ => FetchResponse 200
                          [Card (CardTag (Some "A") None None None None);
                           CardBroken;
                           Card (CardTag (Some "B") None None None None);
                           Card (CardTag (Some "C") None None None None)])
            false (fun _ _ => JResponse 200 [])))
    /\ (1 <= length jobs <= 2)%nat.
Proof.
  refine (get_jobs_respects_limit "python" 2 _ _). lia.
Defined.

(** ** The enhanced store *)

Lemma present_fill {A : Type} (d : A) (o : option A) :
  present (BackendMemory.fill d o) = true.
Proof. now destruct o. Qed.

Lemma complete_with_defaults (m : Memory) :
  complete (BackendMemory.with_defaults m) = true.
Proof.
  unfold complete, BackendMemory.with_defaults.
  destruct (interview m) as [[i a s]|];
    cbn; rewrite ?present_fill; reflexivity.
Qed.

Lemma complete_fixed (m : Memory) :
  BackendMemory.with_defaults m = m -> complete m = true.
Proof. intros H. rewrite <- H. apply complete_with_defaults. Qed.

Lemma core_interview (m m' : Memory) :
  core m = core m' -> interview m = interview m'.
Proof. unfold core. now intros [= _ _ _ _ _ _ _ <-]. Qed.

Lemma fixed_interview (m : Memory) :
  BackendMemory.with_defaults m = m ->
  exists (i : Z) (a : list string) (s : option string),
    interview m = Some (Interview (Some i) (Some a) (Some s)).
Proof.
  intros H. rewrite <- H. unfold BackendMemory.with_defaults.
  destruct (interview m) as [[[i|] [a|] [s|]]|]; cbn; eauto.
Qed.

Lemma save_after_load (user_id : string) (X : Memory) (w w1 : World) :
  steady w w1 ->
  exists w' : World,
    BackendMemory.save_memory user_id X w1 = (Return tt, w')
    /\ quiet w w'
    /\ memory_file w'
       = FileValid (<[user_id := set_updated_at (clock w1 (ticks w1))
                                   (BackendMemory.with_defaults X)]>
                      (stored_all (memory_file w))).
Proof.
  intros [Q F]. rewrite save_memory_run. eexists. split; [reflexivity|].
  split; [eapply quiet_trans; [exact Q|repeat split]|].
  cbn [memory_file with_file with_tick]. now rewrite F.
Qed.

Lemma clear_resume_spec (user_id : string) (w : World) :
  let s := session (memory_file w) user_id in
  exists (m' : Memory) (w' : World),
    BackendMemory.clear_resume user_id w = (Return tt, w')
    /\ quiet w w'
    /\ memory_file w' = FileValid (<[user_id := m']> (stored_all (memory_file w)))
    /\ BackendMemory.with_defaults m' = m'
    /\ resume_text m' = Some ""
    /\ resume_uploaded m' = Some false
    /\ star_mode m' = star_mode s
    /\ history m' = history s
    /\ conversation_pairs m' = conversation_pairs s.
Proof.
  intros s. unfold BackendMemory.clear_resume, mbind, py_bind, bind.
  destruct (load_memory_spec user_id w) as (m & w1 & E & S & Hc & _).
  apply core_fields in Hc as (Hh & Hp & _ & _ & Hsm).
  fold s in Hh, Hp, Hsm.
  destruct (session_fields (memory_file w) user_id) as (Sh & Sp & _ & _ & Ssm).
  fold s in Sh, Sp, Ssm.
  rewrite E, utcnow_run.
  match goal with
  | |- context [BackendMemory.save_memory _ ?X (with_tick w1)] =>
      destruct (save_after_load user_id X w (with_tick w1)) as (w' & Es & Q & F);
        [eapply steady_trans; [exact S|apply quiet_tick]|];
        destruct (saved_fields (clock (with_tick w1) (ticks (with_tick w1))) X)
          as (Fd & Fh & Fp & Frt & Fru & Fsm)
  end.
  rewrite Es. do 2 eexists. split; [reflexivity|]. split; [exact Q|].
  split; [exact F|]. split; [exact Fd|].
  rewrite Fh, Fp, Frt, Fru, Fsm.
  cbn [history conversation_pairs resume_text resume_uploaded star_mode
       set_updated_at set_resume_file set_resume_uploaded set_resume_text
       default from_option id].
  rewrite Hh, Hp, Hsm, Sh, Sp, Ssm. cbn [default from_option id].
  repeat split; reflexivity.
Qed.

Lemma create_empty_run (w : World) :
  exists m : Memory,
    BackendMemory.create_empty_memory w = (Return m, with_tick (with_tick w))
    /\ core m = core sample_record.
Proof. eexists. split; reflexivity. Qed.

Lemma clear_memory_spec (user_id : string) (w : World) :
  exists (m' : Memory) (w' : World),
    BackendMemory.clear_memory user_id w = (Return tt, w')
    /\ quiet w w'
    /\ memory_file w' = FileValid (<[user_id := m']> (stored_all (memory_file w)))
    /\ BackendMemory.with_defaults m' = m'
    /\ core m' = core sample_record.
Proof.
  unfold BackendMemory.clear_memory, mbind, py_bind, bind.
  destruct (create_empty_run w) as (m & E & Hc). rewrite E.
  destruct (save_after_load user_id m w (with_tick (with_tick w)))
    as (w' & Es & Q & F).
  { eapply steady_trans; apply quiet_tick. }
  rewrite Es. do 2 eexists. split; [reflexivity|]. split; [exact Q|].
  split; [exact F|].
  split; [now rewrite with_defaults_updated, with_defaults_idem|].
  rewrite core_updated.
  injection E as E. rewrite <- E. reflexivity.
Qed.

Lemma update_interview_spec (user_id : string) (answer : option string)
    (w : World) :
  let s := session (memory_file w) user_id in
  exists (m' : Memory) (w' : World) (t : string),
    BackendMemory.update_interview_progress user_id answer w = (Return tt, w')
    /\ quiet w w'
    /\ memory_file w' = FileValid (<[user_id := m']> (stored_all (memory_file w)))
    /\ BackendMemory.with_defaults m' = m'
    /\ answers_of m' = answers_of s ++ option_list answer
    /\ index_of m' = Some (Z.of_nat (length (answers_of m')))
    /\ started_of m' = Some (default t (started_of s))
    /\ history m' = history s
    /\ conversation_pairs m' = conversation_pairs s
    /\ resume_text m' = resume_text s
    /\ resume_uploaded m' = resume_uploaded s
    /\ star_mode m' = star_mode s.
Proof.
  intros s. unfold BackendMemory.update_interview_progress.
  destruct (load_memory_spec user_id w) as (m & w1 & E & S & Hc & Hm).
  destruct (fixed_interview m Hm) as (i & a & st & Hi).
  pose proof (core_interview _ _ Hc) as Hi'. fold s in Hi'.
  apply core_fields in Hc as (Hh & Hp & Hrt & Hru & Hsm).
  fold s in Hh, Hp, Hrt, Hru, Hsm.
  destruct (session_fields (memory_file w) user_id) as (Sh & Sp & Srt & Sru & Ssm).
  fold s in Sh, Sp, Srt, Sru, Ssm.
  assert (Ha : answers_of s = a).
  { unfold answers_of. now rewrite <- Hi', Hi. }
  assert (Hst : started_of s = st).
  { unfold started_of. now rewrite <- Hi', Hi. }
  unfold mbind, py_bind, bind. rewrite E, Hi.
  cbn [default from_option id].
  assert (steady w (with_tick w1)) as S1
    by (eapply steady_trans; [exact S|apply quiet_tick]).
  assert (steady w (with_tick (with_tick w1))) as S2
    by (eapply steady_trans; [exact S1|apply quiet_tick]).
  destruct answer as [ans|], st as [t0|];
    cbn [getitem ret py_ret mret iv_answers iv_index iv_started_at];
    unfold ret; rewrite ?utcnow_run;
    match goal with
    | |- context [BackendMemory.save_memory _ ?X ?w2] =>
        destruct (save_after_load user_id X w w2) as (w' & Es & Q & F);
          [assumption|];
          destruct (saved_fields (clock w2 (ticks w2)) X)
            as (Fd & Fh & Fp & Frt & Fru & Fsm);
          rewrite Es;
          exists (set_updated_at (clock w2 (ticks w2))
                    (BackendMemory.with_defaults X)), w'
    end.
  all: match goal with
       | |- context [Interview _ _ (Some (Some (clock ?v (ticks ?v))))] =>
           exists (clock v (ticks v))
       | |- _ => exists ""
       end.
  all: split; [reflexivity|]; split; [exact Q|]; split; [exact F|];
    split; [exact Fd|].
  all: rewrite Fh, Fp, Frt, Fru, Fsm, Ha, Hst.
  all: cbn [history conversation_pairs resume_text resume_uploaded star_mode
            set_updated_at set_interview default from_option id].
  all: rewrite Hh, Hp, Hrt, Hru, Hsm, Sh, Sp, Srt, Sru, Ssm;
    cbn [default from_option id].
  all: repeat split; try reflexivity.
  all: unfold answers_of, index_of, started_of; cbn; rewrite ?app_nil_r;
    reflexivity.
Qed.

Lemma run_write_spec (user_id : string) (op : store_write) (w : World) :
  exists (m' : Memory) (w' : World),
    run_write user_id op w = (Return tt, w')
    /\ quiet w w'
    /\ memory_file w' = FileValid (<[user_id := m']> (stored_all (memory_file w)))
    /\ BackendMemory.with_defaults m' = m'.
Proof.
  destruct op as [user_input response|text file_path| |enabled|answer|];
    cbn [run_write].
  - destruct (add_to_history_spec user_id user_input response w)
      as (m' & w' & _ & _ & _ & E & Q & F & D & _). now exists m', w'.
  - destruct (set_resume_spec user_id text file_path w)
      as (m' & w' & E & Q & F & D & _). now exists m', w'.
  - destruct (clear_resume_spec user_id w)
      as (m' & w' & E & Q & F & D & _). now exists m', w'.
  - destruct (set_star_mode_spec user_id enabled w)
      as (m' & w' & E & Q & F & D & _). now exists m', w'.
  - destruct (update_interview_spec user_id answer w)
      as (m' & w' & _ & E & Q & F & D & _). now exists m', w'.
  - destruct (clear_memory_spec user_id w)
      as (m' & w' & E & Q & F & D & _). now exists m', w'.
Qed.

(** X5: whenever an operation of the enhanced store that writes a session
    returns, it has made no outgoing call, the file holds a record with all
    required keys for this user, and it holds for every other user exactly
    what it held before. *)
Theorem store_writes_are_local (user_id : string) (op : store_write)
    (w w' : World) :
  run_write user_id op w = (Return tt, w') ->
  exists m' : Memory,
    quiet w w'
    /\ stored_all (memory_file w') !! user_id = Some m'
    /\ complete m' = true
    /\ (forall other : string,
          other <> user_id ->
          stored_all (memory_file w') !! other
          = stored_all (memory_file w) !! other).
Proof.
  intros H.
  destruct (run_write_spec user_id op w) as (m' & w1 & E & Q & F & D).
  rewrite E in H. injection H as <-.
  exists m'. split; [exact Q|]. rewrite F.
  cbn [stored_all]. split; [apply lookup_insert_eq|].
  split; [now apply complete_fixed|].
  intros other H. now apply lookup_insert_ne.
Qed.

Lemma session_after_write (user_id : string) (m' : Memory) (w w' : World) :
  memory_file w' = FileValid (<[user_id := m']> (stored_all (memory_file w))) ->
  BackendMemory.with_defaults m' = m' ->
  session (memory_file w') user_id = m'.
Proof. intros -> D. now apply session_written. Qed.

Lemma get_resume_context_run (user_id : string) (w : World) :
  let s := session (memory_file w) user_id in
  exists w' : World,
    BackendMemory.get_resume_context user_id w
    = (Return (if default false (resume_uploaded s)
               then PyStr.take 1500 (default "" (resume_text s))
               else ""), w')
    /\ steady w w'.
Proof.
  intros s. unfold BackendMemory.get_resume_context, mbind, py_bind, bind.
  destruct (load_memory_spec user_id w) as (m & w1 & E & S & Hc & _).
  apply core_fields in Hc as (_ & _ & Hrt & Hru & _). fold s in Hrt, Hru.
  destruct (session_fields (memory_file w) user_id) as (_ & _ & Srt & _ & _).
  fold s in Srt.
  rewrite E, Hru, Hrt. exists w1. split; [|exact S].
  destruct (default false (resume_uploaded s)); [|reflexivity].
  rewrite Srt. cbn [andb truthy_str default from_option id getitem].
  destruct (default "" (resume_text s)); reflexivity.
Qed.

(** X6: after [set_resume] the resume reads back as it was stored: the
    text in full, the uploaded flag set, and the first 1500 characters as the
    resume context; the STAR flag reads as before. *)
Theorem set_resume_then_read (user_id text file_path : string) (w : World) :
  exists w1 : World,
    BackendMemory.set_resume user_id text file_path w = (Return tt, w1)
    /\ fst (BackendMemory.get_resume_text user_id w1) = Return text
    /\ fst (BackendMemory.is_resume_uploaded user_id w1) = Return true
    /\ fst (BackendMemory.get_resume_context user_id w1)
       = Return (PyStr.take 1500 text)
    /\ fst (BackendMemory.is_star_mode user_id w1)
       = fst (BackendMemory.is_star_mode user_id w).
Proof.
  destruct (set_resume_spec user_id text file_path w)
    as (m' & w1 & E & Q & F & D & Hrt & Hru & Hsm & _).
  pose proof (session_after_write _ _ _ _ F D) as Hs.
  exists w1. split; [exact E|].
  destruct (get_resume_text_run user_id w1) as (? & -> & _).
  destruct (is_resume_uploaded_run user_id w1) as (? & -> & _).
  destruct (get_resume_context_run user_id w1) as (? & -> & _).
  destruct (is_star_mode_run user_id w1) as (? & -> & _).
  destruct (is_star_mode_run user_id w) as (? & -> & _).
  cbn [fst]. rewrite Hs, Hrt, Hru, Hsm. now cbn [default from_option id].
Qed.

(** X7: after [clear_resume] no resume is left, whatever was stored: the
    text and the context read as the empty string and the flag as [False];
    the conversation and the STAR flag are kept. *)
Theorem clear_resume_then_read (user_id : string) (w : World) :
  exists w1 : World,
    BackendMemory.clear_resume user_id w = (Return tt, w1)
    /\ fst (BackendMemory.get_resume_text user_id w1) = Return ""
    /\ fst (BackendMemory.is_resume_uploaded user_id w1) = Return false
    /\ fst (BackendMemory.get_resume_context user_id w1) = Return ""
    /\ fst (BackendMemory.is_star_mode user_id w1)
       = fst (BackendMemory.is_star_mode user_id w)
    /\ history (session (memory_file w1) user_id)
       = history (session (memory_file w) user_id)
    /\ conversation_pairs (session (memory_file w1) user_id)
       = conversation_pairs (session (memory_file w) user_id).
Proof.
  destruct (clear_resume_spec user_id w)
    as (m' & w1 & E & Q & F & D & Hrt & Hru & Hsm & Hh & Hp).
  pose proof (session_after_write _ _ _ _ F D) as Hs.
  exists w1. split; [exact E|].
  destruct (get_resume_text_run user_id w1) as (? & -> & _).
  destruct (is_resume_uploaded_run user_id w1) as (? & -> & _).
  destruct (get_resume_context_run user_id w1) as (? & -> & _).
  destruct (is_star_mode_run user_id w1) as (? & -> & _).
  destruct (is_star_mode_run user_id w) as (? & -> & _).
  cbn [fst]. rewrite Hs, Hrt, Hru, Hsm, Hh, Hp.
  now cbn [default from_option id].
Qed.

(** X8: [is_star_mode] returns what [set_star_mode] stored last, and
    setting the flag changes neither the resume nor the conversation. *)
Theorem set_star_mode_then_read (user_id : string) (enabled : bool) (w : World) :
  exists w1 : World,
    BackendMemory.set_star_mode user_id enabled w = (Return tt, w1)
    /\ fst (BackendMemory.is_star_mode user_id w1) = Return enabled
    /\ fst (BackendMemory.get_resume_text user_id w1)
       = fst (BackendMemory.get_resume_text user_id w)
    /\ fst (BackendMemory.is_resume_uploaded user_id w1)
       = fst (BackendMemory.is_resume_uploaded user_id w)
    /\ history (session (memory_file w1) user_id)
       = history (session (memory_file w) user_id)
    /\ conversation_pairs (session (memory_file w1) user_id)
       = conversation_pairs (session (memory_file w) user_id).
Proof.
  destruct (set_star_mode_spec user_id enabled w)
    as (m' & w1 & E & Q & F & D & Hsm & Hh & Hp & Hrt & Hru).
  pose proof (session_after_write _ _ _ _ F D) as Hs.
  exists w1. split; [exact E|].
  destruct (is_star_mode_run user_id w1) as (? & -> & _).
  destruct (get_resume_text_run user_id w1) as (? & -> & _).
  destruct (get_resume_text_run user_id w) as (? & -> & _).
  destruct (is_resume_uploaded_run user_id w1) as (? & -> & _).
  destruct (is_resume_uploaded_run user_id w) as (? & -> & _).
  cbn [fst]. rewrite Hs, Hsm, Hh, Hp, Hrt, Hru. now cbn [default from_option id].
Qed.

(** X9: whenever [update_interview_progress] returns, no call went out,
    the stored answers are the earlier ones followed by the new answer (if
    one was given), the index is the number of stored answers whatever it was
    before, and the start time is set: the earlier one if there was one. *)
Theorem interview_progress_counts_answers (user_id : string)
    (answer : option string) (w w' : World) :
  BackendMemory.update_interview_progress user_id answer w = (Return tt, w') ->
  let s := session (memory_file w) user_id in
  let s' := session (memory_file w') user_id in
  quiet w w'
  /\ answers_of s' = answers_of s ++ option_list answer
  /\ index_of s' = Some (Z.of_nat (length (answers_of s')))
  /\ exists t : string, started_of s' = Some (default t (started_of s)).
Proof.
  intros H s s'.
  destruct (update_interview_spec user_id answer w)
    as (m' & w1 & t & E & Q & F & D & Ha & Hi & Hst & _).
  rewrite E in H. injection H as <-.
  fold s in Ha, Hst. subst s'.
  rewrite (session_after_write _ _ _ _ F D).
  split; [exact Q|]. split; [exact Ha|]. split; [exact Hi|now exists t].
Qed.

Lemma interview_progress_counts_answers_witness :
  let w' :=
    snd (BackendMemory.update_interview_progress "default" (Some "I led it")
           (offline_world star_file)) in
  answers_of (session (memory_file w') "default") = [] ++ ["I led it"]
  /\ index_of (session (memory_file w') "default") = Some 1.
Proof.
  intros w'.
  destruct (interview_progress_counts_answers "default" (Some "I led it")
              (offline_world star_file) w') as (_ & Ha & Hi & _);
    [vm_compute; reflexivity|].
  split; [exact Ha|]. rewrite Hi, Ha. reflexivity.
Defined.

(** X10: [clear_memory] resets the session of the user: afterwards every
    key but the time stamps holds the value of the empty memory, so no STAR
    mode, no resume and no conversation are left. *)
Theorem clear_memory_resets_session (user_id : string) (w : World) :
  exists w1 : World,
    BackendMemory.clear_memory user_id w = (Return tt, w1)
    /\ quiet w w1
    /\ core (session (memory_file w1) user_id) = core sample_record
    /\ fst (BackendMemory.is_star_mode user_id w1) = Return false
    /\ fst (BackendMemory.is_resume_uploaded user_id w1) = Return false
    /\ fst (BackendMemory.get_resume_text user_id w1) = Return "".
Proof.
  destruct (clear_memory_spec user_id w) as (m' & w1 & E & Q & F & D & Hc).
  pose proof (session_after_write _ _ _ _ F D) as Hs.
  exists w1. split; [exact E|]. split; [exact Q|].
  destruct (is_star_mode_run user_id w1) as (? & -> & _).
  destruct (is_resume_uploaded_run user_id w1) as (? & -> & _).
  destruct (get_resume_text_run user_id w1) as (? & -> & _).
  cbn [fst]. rewrite Hs. split; [exact Hc|].
  apply core_fields in Hc as (_ & _ & -> & -> & ->). now repeat split.
Qed.

Lemma store_writes_are_local_witness :
  let w' := snd (run_write "ann" (SetStarMode true) (offline_world star_file)) in
  exists m' : Memory,
    stored_all (memory_file w') !! "ann" = Some m'
    /\ complete m' = true
    /\ stored_all (memory_file w') !! "default" = Some star_session.
Proof.
  intros w'.
  destruct (store_writes_are_local "ann" (SetStarMode true)
              (offline_world star_file) w') as (m' & _ & L & C & H);
    [vm_compute; reflexivity|].
  exists m'. split; [exact L|]. split; [exact C|].
  rewrite (H "default"); [reflexivity|discriminate].
Defined.

Lemma context_lines_length (pairs : list conv_pair) :
  length (BackendMemory.context_lines pairs) = (2 * length pairs)%nat.
Proof.
  induction pairs as [|p l IH]; [reflexivity|].
  cbn [BackendMemory.context_lines length]. rewrite IH. lia.
Qed.

Lemma get_conversation_context_run (user_id : string) (n : Z) (w : World) :
  let pairs :=
    default [] (conversation_pairs (session (memory_file w) user_id)) in
  let recent_pairs :=
    if 0 <? n then last_n (Z.to_nat n) pairs else drop (Z.to_nat (- n)) pairs in
  exists w' : World,
    BackendMemory.get_conversation_context user_id n w
    = (Return (PyStr.join nl (BackendMemory.context_lines recent_pairs)), w')
    /\ steady w w'.
Proof.
  intros pairs recent_pairs.
  unfold BackendMemory.get_conversation_context, mbind, py_bind, bind.
  destruct (load_memory_spec user_id w) as (m & w1 & E & S & Hc & _).
  apply core_fields in Hc as (_ & Hp & _ & _ & _).
  rewrite E, Hp. fold pairs. exists w1. split; [|exact S].
  unfold ret. do 2 f_equal.
  destruct (Nat.eqb_spec (length pairs) 0) as [H0|H0].
  - apply length_zero_iff_nil in H0. subst recent_pairs. rewrite H0.
    unfold last_n. rewrite !drop_nil. now destruct (0 <? n).
  - do 2 f_equal. subst recent_pairs. unfold slice_from, last_n.
    destruct (Z.ltb_spec n (Z.of_nat (length pairs))) as [Hn|Hn],
      (Z.ltb_spec 0 n) as [Hp0|Hp0].
    + destruct (Z.leb_spec 0 (- n)); [lia|]. now rewrite Z.opp_involutive.
    + destruct (Z.leb_spec 0 (- n)); [reflexivity|lia].
    + replace (length pairs - Z.to_nat n)%nat with 0%nat by lia. reflexivity.
    + lia.
Qed.

Lemma join_concat (sep : string) (l : list string) :
  PyStr.join sep l = String.concat sep l.
Proof.
  induction l as [|x [|y l] IH]; [reflexivity|reflexivity|].
  change (PyStr.join sep (x :: y :: l))
    with (x +:+ sep +:+ PyStr.join sep (y :: l)).
  rewrite IH. reflexivity.
Qed.

Lemma context_of_lines (pairs : list conv_pair) :
  context_of pairs (BackendMemory.context_lines pairs).
Proof.
  induction pairs as [|p rest IH]; [constructor|].
  cbn [BackendMemory.context_lines]. constructor; [apply cut_at_take|exact IH].
Qed.

(** X11: whenever [get_conversation_context] returns, the store is as it
    was and the text is the lines of the pairs its window holds, joined by
    newlines, two lines for each pair: the user's message, and the reply cut
    by the slice [[:200]].  For a positive [last_n] the window holds the last
    [last_n] stored pairs (all of them when there are fewer); for [last_n =
    0] it holds all stored pairs, not none; for a negative [last_n] it holds
    the pairs after the first [-last_n]. *)
Theorem conversation_context_window (user_id : string) (n : Z) (w : World)
    (text : string) (w' : World) :
  BackendMemory.get_conversation_context user_id n w = (Return text, w') ->
  let pairs :=
    default [] (conversation_pairs (session (memory_file w) user_id)) in
  let recent_pairs :=
    if 0 <? n then last_n (Z.to_nat n) pairs else drop (Z.to_nat (- n)) pairs in
  steady w w'
  /\ exists lines : list string,
       context_of recent_pairs lines
       /\ text = String.concat nl lines
       /\ length lines
          = (2 * (if (0 <? n)%Z then Nat.min (Z.to_nat n) (length pairs)
                  else length pairs - Z.to_nat (- n)))%nat.
Proof.
  intros H pairs recent_pairs.
  destruct (get_conversation_context_run user_id n w) as (w1 & E & S).
  rewrite E in H. injection H as <- <-. fold pairs recent_pairs.
  split; [exact S|].
  exists (BackendMemory.context_lines recent_pairs).
  split; [apply context_of_lines|]. split; [apply join_concat|].
  rewrite context_lines_length. subst recent_pairs.
  destruct (0 <? n).
  - pose proof (last_n_length (Z.to_nat n) pairs). unfold last_n in *.
    rewrite length_drop in *. lia.
  - rewrite length_drop. reflexivity.
Qed.

Lemma conversation_context_window_witness :
  let w :=
    offline_world
      (FileValid
         {[ "default" :=
              set_conversation_pairs
                [ConvPair "first" "one" "t0"; ConvPair "second" "two" "t1"]
                sample_record ]}) in
  fst (BackendMemory.get_conversation_context "default" 0 w)
  = Return "User: first
Assistant: one
User: second
Assistant: two"
  /\ fst (BackendMemory.get_conversation_context "default" 1 w)
     = Return "User: second
Assistant: two"
  /\ exists lines : list string,
       fst (BackendMemory.get_conversation_context "default" 0 w)
       = Return (String.concat nl lines)
       /\ length lines = 4%nat.
Proof.
  intros w. split; [vm_compute; reflexivity|]. split; [vm_compute; reflexivity|].
  edestruct (conversation_context_window "default" 0 w)
    as (_ & lines & _ & Ht & Hl); [vm_compute; reflexivity|].
  exists lines. split; [now rewrite <- Ht|exact Hl].
Defined.

(** X12: whenever [get_resume_context] returns, the store is as it was and
    the text is the first 1500 characters of the stored resume when the
    uploaded flag is set and the empty string otherwise, so never more than
    1500 characters. *)
Theorem resume_context_is_bounded (user_id : string) (w : World)
    (text : string) (w' : World) :
  BackendMemory.get_resume_context user_id w = (Return text, w') ->
  let s := session (memory_file w) user_id in
  steady w w'
  /\ text = (if default false (resume_uploaded s)
             then PyStr.take 1500 (default "" (resume_text s)) else "")
  /\ (String.length text <= 1500)%nat.
Proof.
  intros H s. destruct (get_resume_context_run user_id w) as (w1 & E & S).
  fold s in E. rewrite E in H. injection H as <- <-.
  split; [exact S|]. split; [reflexivity|].
  assert (HL : (String.length (PyStr.take 1500 (default "" (resume_text s)))
                <= 1500)%nat) by (rewrite length_take; lia).
  destruct (default false (resume_uploaded s)); [exact HL|cbn; lia].
Qed.

Lemma resume_context_is_bounded_witness :
  let w :=
    offline_world
      (FileValid
         {[ "default" :=
              set_resume_uploaded true
                (set_resume_text "Python developer" sample_record) ]}) in
  fst (BackendMemory.get_resume_context "default" w) = Return "Python developer"
  /\ fst (BackendMemory.get_resume_context "default" (offline_world FileMissing))
     = Return "".
Proof.
  intros w. split.
  - edestruct (resume_context_is_bounded "default" w) as (_ & Ht & _);
      [vm_compute; reflexivity|].
    rewrite Ht. vm_compute. reflexivity.
  - edestruct (resume_context_is_bounded "default" (offline_world FileMissing))
      as (_ & Ht & _); [vm_compute; reflexivity|].
    rewrite Ht. vm_compute. reflexivity.
Defined.

(** X13: when [data/memory.json] exists and holds text that [json.load]
    rejects with [JSONDecodeError], the simple store raises on [load_memory]
    and on [save_memory] and leaves the file as it is, while the enhanced
    store catches the error: it loads the empty memory and, on [save_memory],
    replaces the file by one that holds this user's session only. *)
Theorem invalid_json_file_behaviour (user_id : string) (m : Memory) (w : World) :
  memory_file w = FileCorrupt ->
  (exists detail : string,
     RootMemory.load_memory user_id w
     = (Raise (Exception "JSONDecodeError" detail), w))
  /\ (exists detail : string,
        RootMemory.save_memory user_id m w
        = (Raise (Exception "JSONDecodeError" detail), w))
  /\ (exists (m0 : Memory) (w' : World),
        BackendMemory.load_memory user_id w = (Return m0, w')
        /\ core m0 = core sample_record
        /\ memory_file w' = FileCorrupt)
  /\ (exists (m' : Memory) (w' : World),
        BackendMemory.save_memory user_id m w = (Return tt, w')
        /\ memory_file w' = FileValid {[user_id := m']}
        /\ core m' = core (BackendMemory.with_defaults m)).
Proof.
  intros E. split; [|split; [|split]].
  - eexists. unfold RootMemory.load_memory, RootMemory.path_exists,
      RootMemory.json_load, mbind, py_bind, bind, read_file, ret.
    rewrite E. cbn [negb]. rewrite E. reflexivity.
  - eexists. unfold RootMemory.save_memory, RootMemory.path_exists,
      RootMemory.json_load, mbind, py_bind, bind, read_file, ret.
    rewrite E. rewrite E. reflexivity.
  - unfold BackendMemory.load_memory, mbind, py_bind, bind, read_file.
    rewrite E. do 2 eexists. split; [reflexivity|].
    split; [reflexivity|exact E].
  - rewrite save_memory_run. do 2 eexists. split; [reflexivity|].
    cbn [memory_file with_file with_tick]. rewrite E. cbn [stored_all].
    split; [reflexivity|]. apply core_updated.
Qed.

Lemma invalid_json_file_behaviour_witness :
  (exists detail : string,
     RootMemory.load_memory "default" (offline_world FileCorrupt)
     = (Raise (Exception "JSONDecodeError" detail), offline_world FileCorrupt))
  /\ (exists (m' : Memory) (w' : World),
        BackendMemory.save_memory "default" empty_dict (offline_world FileCorrupt)
        = (Return tt, w')
        /\ memory_file w' = FileValid {[ "default" := m' ]}).
Proof.
  destruct (invalid_json_file_behaviour "default" empty_dict
              (offline_world FileCorrupt) eq_refl)
    as (H1 & _ & _ & m' & w' & E & F & _).
  split; [exact H1|]. now exists m', w'.
Defined.

(** ** The LinkedIn adapter, continued *)

Lemma skills_javascript (resume_text role : string) (w : World) :
  PyStr.contains "python" (PyStr.lower resume_text) = false ->
  PyStr.contains "javascript" (PyStr.lower resume_text) = true ->
  BackendJobs.search_jobs_by_skills resume_text role w
  = BackendJobs.search_jobs "java developer" w.
Proof.
  intros Hp Hj. unfold BackendJobs.search_jobs_by_skills. rewrite Hp.
  now rewrite (contains_shorter "java" "script" _ Hj).
Qed.

(** X14: a resume that mentions JavaScript (and not Python) is searched as
    a Java resume: ["java"] is tested before ["javascript"] and is a substring
    of it, so the ["javascript developer"] search is never made. *)
Theorem javascript_resume_searches_java (resume_text role : string) (w : World) :
  PyStr.contains "python" (PyStr.lower resume_text) = false ->
  PyStr.contains "javascript" (PyStr.lower resume_text) = true ->
  BackendJobs.search_jobs_by_skills resume_text role w
  = BackendJobs.search_jobs "java developer" w.
Proof. apply skills_javascript. Qed.

Lemma javascript_resume_searches_java_witness :
  BackendJobs.search_jobs_by_skills "React and JavaScript" "Software Engineer"
    (offline_world FileMissing)
  = BackendJobs.search_jobs "java developer" (offline_world FileMissing).
Proof.
  apply javascript_resume_searches_java; vm_compute; reflexivity.
Defined.

Lemma linkedin_url_is_usable (u : string) :
  PyStr.contains "linkedin.com" u = true ->
  negb (PyStr.is_empty u) && negb (PyStr.eqb u "#") = true.
Proof.
  intros H. destruct u as [|c u]; [discriminate|].
  cbn [PyStr.is_empty negb andb]. unfold PyStr.eqb.
  destruct (bool_decide_reflect (String c u = "#")) as [E|E]; [|reflexivity].
  rewrite E in H. discriminate.
Qed.

Lemma format_job_link (j : BackendJobs.job) :
  let display_url :=
    if PyStr.contains "linkedin.com" (BackendJobs.url j)
    then BackendJobs.url j
    else "https://www.linkedin.com/jobs/search/?keywords="
         +:+ PyStr.replace " " "+"
               (BackendJobs.title j +:+ " " +:+ BackendJobs.company j) in
  BackendJobs.format_job j
  = "**" +:+ BackendJobs.title j +:+ "**" +:+ nl
    +:+ "**Company:** " +:+ BackendJobs.company j +:+ nl
    +:+ "**Location:** " +:+ BackendJobs.location j +:+ nl
    +:+ "**Description:** " +:+ BackendJobs.description j +:+ nl
    +:+ "**Apply:** " +:+ display_url +:+ nl
    +:+ "---"
  /\ PyStr.contains "linkedin.com" display_url = true.
Proof.
  intros display_url. subst display_url. unfold BackendJobs.format_job.
  destruct (PyStr.contains "linkedin.com" (BackendJobs.url j)) eqn:E.
  - rewrite (linkedin_url_is_usable _ E). cbn [andb]. split; [reflexivity|exact E].
  - rewrite andb_false_r. split; [reflexivity|].
    apply contains_longer. reflexivity.
Qed.

(** X15: the [**Apply:**] line of a formatted job carries the url of the
    job exactly when that url contains ["linkedin.com"], and otherwise the
    LinkedIn search link made of the title and the company, their spaces
    replaced by [+]; so the link shown always contains ["linkedin.com"]. *)
Theorem format_job_links_to_linkedin (j : BackendJobs.job) :
  let display_url :=
    if PyStr.contains "linkedin.com" (BackendJobs.url j)
    then BackendJobs.url j
    else "https://www.linkedin.com/jobs/search/?keywords="
         +:+ PyStr.replace " " "+"
               (BackendJobs.title j +:+ " " +:+ BackendJobs.company j) in
  BackendJobs.format_job j
  = "**" +:+ BackendJobs.title j +:+ "**" +:+ nl
    +:+ "**Company:** " +:+ BackendJobs.company j +:+ nl
    +:+ "**Location:** " +:+ BackendJobs.location j +:+ nl
    +:+ "**Description:** " +:+ BackendJobs.description j +:+ nl
    +:+ "**Apply:** " +:+ display_url +:+ nl
    +:+ "---"
  /\ PyStr.contains "linkedin.com" display_url = true
  /\ BackendJobs.format_job
       (BackendJobs.Job "Data Engineer" "Acme Corp" "Berlin" "SQL" "#" "LinkedIn")
     = "**Data Engineer**
**Company:** Acme Corp
**Location:** Berlin
**Description:** SQL
**Apply:** https://www.linkedin.com/jobs/search/?keywords=Data+Engineer+Acme+Corp
---"
  /\ BackendJobs.format_job
       (BackendJobs.Job "Data Engineer" "Acme Corp" "Berlin" "SQL"
          "https://de.linkedin.com/jobs/view/42" "LinkedIn")
     = "**Data Engineer**
**Company:** Acme Corp
**Location:** Berlin
**Description:** SQL
**Apply:** https://de.linkedin.com/jobs/view/42
---".
Proof.
  intros display_url. destruct (format_job_link j) as [H1 H2].
  split; [exact H1|]. split; [exact H2|]. split; reflexivity.
Qed.

(** ** The upload and analysis endpoints *)

Lemma upload_resume_rejected (file : BackendApp.disk_file) (filename : string)
    (w : World) :
  let text := BackendApp.extract_text_from_file file filename in
  PyStr.contains "Error" text = true ->
  BackendApp.upload_resume file filename w
  = (Return (BackendApp.Upload false ("Failed to upload resume: " +:+ text)
               None None None (Some text) 500), w).
Proof.
  intros text H. unfold BackendApp.upload_resume, BackendApp.upload_try, try_except.
  fold text. rewrite H. reflexivity.
Qed.

Lemma upload_resume_stored (file : BackendApp.disk_file) (filename : string)
    (w : World) :
  let text := BackendApp.extract_text_from_file file filename in
  PyStr.contains "Error" text = false ->
  exists w' : World,
    BackendApp.upload_resume file filename w
    = (Return (BackendApp.Upload true
                 ("✅ Resume '" +:+ filename +:+ "' uploaded successfully!")
                 (Some ("Extracted " +:+ str_of_int (PyStr.len text)
                        +:+ " characters"))
                 (Some filename) (Some true) None 200), w')
    /\ quiet w w'
    /\ fst (BackendMemory.get_resume_text "default" w') = Return text
    /\ fst (BackendMemory.is_resume_uploaded "default" w') = Return true.
Proof.
  intros text H. unfold BackendApp.upload_resume, BackendApp.upload_try, try_except,
    mbind, py_bind, bind.
  fold text. rewrite H.
  destruct (set_resume_spec "default" text filename w)
    as (m' & w' & E & Q & F & D & Hrt & Hru & _).
  rewrite E. exists w'. split; [reflexivity|]. split; [exact Q|].
  pose proof (session_after_write _ _ _ _ F D) as Hs.
  destruct (get_resume_text_run "default" w') as (? & -> & _).
  destruct (is_resume_uploaded_run "default" w') as (? & -> & _).
  cbn [fst]. rewrite Hs, Hrt, Hru. now split.
Qed.

(** X16: [upload_resume] never raises.  When the extracted text contains
    ["Error"] anywhere (an extraction failure, or a resume that uses the word)
    it answers with status 500 and changes nothing; otherwise it answers with
    status 200 after storing the text as the resume of the default user. *)
Theorem upload_resume_outcomes (file : BackendApp.disk_file) (filename : string)
    (w : World) :
  let text := BackendApp.extract_text_from_file file filename in
  (PyStr.contains "Error" text = true ->
   BackendApp.upload_resume file filename w
   = (Return (BackendApp.Upload false ("Failed to upload resume: " +:+ text)
                None None None (Some text) 500), w))
  /\ (PyStr.contains "Error" text = false ->
      exists w' : World,
        BackendApp.upload_resume file filename w
        = (Return (BackendApp.Upload true
                     ("✅ Resume '" +:+ filename +:+ "' uploaded successfully!")
                     (Some ("Extracted " +:+ str_of_int (PyStr.len text)
                            +:+ " characters"))
                     (Some filename) (Some true) None 200), w')
        /\ quiet w w'
        /\ fst (BackendMemory.get_resume_text "default" w') = Return text
        /\ fst (BackendMemory.is_resume_uploaded "default" w') = Return true).
Proof.
  intros text. split.
  - apply upload_resume_rejected.
  - apply upload_resume_stored.
Qed.

Lemma upload_resume_outcomes_witness :
  BackendApp.upload_resume
    (BackendApp.DiskFile (Raise (Exception "PDFSyntaxError" "No /Root object"))
       (Return "Backend engineer. Error handling and logging in Go."))
    "cv.txt" (offline_world FileMissing)
  = (Return (BackendApp.Upload false
               "Failed to upload resume: Backend engineer. Error handling and logging in Go."
               None None None
               (Some "Backend engineer. Error handling and logging in Go.") 500),
     offline_world FileMissing)
  /\ exists w' : World,
       fst (BackendApp.upload_resume
              (BackendApp.DiskFile (Return [Some "Python developer"; None])
                 (Return ""))
              "cv.PDF" (offline_world FileMissing))
       = Return (BackendApp.Upload true "✅ Resume 'cv.PDF' uploaded successfully!"
                   (Some "Extracted 17 characters") (Some "cv.PDF") (Some true)
                   None 200)
       /\ fst (BackendMemory.get_resume_text "default" w')
          = Return ("Python developer" +:+ nl).
Proof.
  split.
  - apply (proj1 (upload_resume_outcomes
                    (BackendApp.DiskFile
                       (Raise (Exception "PDFSyntaxError" "No /Root object"))
                       (Return "Backend engineer. Error handling and logging in Go."))
                    "cv.txt" (offline_world FileMissing))).
    vm_compute. reflexivity.
  - destruct (proj2 (upload_resume_outcomes
                       (BackendApp.DiskFile (Return [Some "Python developer"; None])
                          (Return ""))
                       "cv.PDF" (offline_world FileMissing)))
      as (w' & E & _ & T & _); [vm_compute; reflexivity|].
    exists w'. rewrite E. split; [reflexivity|exact T].
Defined.

Lemma unsupported_text (filename : string) :
  PyStr.contains "Error" ("Unsupported file: " +:+ filename)
  = PyStr.contains "Error" filename.
Proof. reflexivity. Qed.

(** X17: a file whose name ends neither in [.pdf] nor in [.txt] (case
    ignored) is not refused: unless its name contains ["Error"], the upload
    answers with status 200 and the text ["Unsupported file: <name>"] becomes
    the stored resume. *)
Theorem unsupported_file_is_stored (file : BackendApp.disk_file)
    (filename : string) (w : World) :
  PyStr.endswith ".pdf" (PyStr.lower filename) = false ->
  PyStr.endswith ".txt" (PyStr.lower filename) = false ->
  PyStr.contains "Error" filename = false ->
  exists (r : BackendApp.UploadResponse) (w' : World),
    BackendApp.upload_resume file filename w = (Return r, w')
    /\ BackendApp.up_success r = true
    /\ BackendApp.up_status r = 200
    /\ fst (BackendMemory.get_resume_text "default" w')
       = Return ("Unsupported file: " +:+ filename)
    /\ fst (BackendMemory.is_resume_uploaded "default" w') = Return true.
Proof.
  intros Hp Ht He.
  assert (Hx : BackendApp.extract_text_from_file file filename
               = "Unsupported file: " +:+ filename).
  { unfold BackendApp.extract_text_from_file. now rewrite Hp, Ht. }
  destruct (upload_resume_stored file filename w) as (w' & E & _ & T & U).
  { cbn zeta. rewrite Hx, unsupported_text. exact He. }
  rewrite Hx in *. do 2 eexists. split; [exact E|]. now repeat split.
Qed.

Lemma unsupported_file_is_stored_witness :
  exists (r : BackendApp.UploadResponse) (w' : World),
    BackendApp.upload_resume
      (BackendApp.DiskFile (Raise (Exception "PDFSyntaxError" "No /Root object"))
         (Return "binary"))
      "photo.png" (offline_world FileMissing)
    = (Return r, w')
    /\ BackendApp.up_status r = 200
    /\ fst (BackendMemory.get_resume_text "default" w')
       = Return "Unsupported file: photo.png".
Proof.
  destruct (unsupported_file_is_stored
              (BackendApp.DiskFile
                 (Raise (Exception "PDFSyntaxError" "No /Root object"))
                 (Return "binary"))
              "photo.png" (offline_world FileMissing))
    as (r & w' & E & _ & S & T & _); try (vm_compute; reflexivity).
  now exists r, w'.
Defined.

Lemma analysis_route_refused (detail : string) (compute : Py string)
    (type_name error_prefix : string) (w : World) :
  exists r : BackendApp.AnalysisResponse,
    BackendApp.analysis_route (ret true) detail compute type_name error_prefix w
    = (Return r, w)
    /\ BackendApp.an_success r = false
    /\ BackendApp.an_status r = 500.
Proof. eexists. split; [reflexivity|]. now split. Qed.

(** X18: a job description that is empty or all whitespace makes
    [analyze_match], [skill_gaps] and [heatmap] answer with status 500 (the
    [HTTPException] with status 400 is raised inside the [try] and caught by
    its handler); nothing is read, stored or sent. *)
Theorem blank_job_description_gives_500 (job_description : string) (w : World) :
  PyStr.is_empty (PyStr.strip job_description) = true ->
  (exists r : BackendApp.AnalysisResponse,
     BackendApp.analyze_match job_description w = (Return r, w)
     /\ BackendApp.an_success r = false /\ BackendApp.an_status r = 500)
  /\ (exists r : BackendApp.AnalysisResponse,
        BackendApp.skill_gaps job_description w = (Return r, w)
        /\ BackendApp.an_success r = false /\ BackendApp.an_status r = 500)
  /\ (exists r : BackendApp.AnalysisResponse,
        BackendApp.heatmap job_description w = (Return r, w)
        /\ BackendApp.an_success r = false /\ BackendApp.an_status r = 500).
Proof.
  intros H.
  unfold BackendApp.analyze_match, BackendApp.skill_gaps, BackendApp.heatmap,
    BackendApp.blank.
  rewrite H. repeat split; apply analysis_route_refused.
Qed.

Lemma blank_job_description_gives_500_witness :
  exists r : BackendApp.AnalysisResponse,
    BackendApp.heatmap (" " +:+ nl) (canned_world star_file "ok")
    = (Return r, canned_world star_file "ok")
    /\ BackendApp.an_success r = false /\ BackendApp.an_status r = 500.
Proof.
  apply (blank_job_description_gives_500 (" " +:+ nl)
           (canned_world star_file "ok")).
  vm_compute. reflexivity.
Defined.

Lemma alternative_roles_cases (w : World) :
  let s := session (memory_file w) "default" in
  (default false (resume_uploaded s) = false ->
   exists (r : BackendApp.AnalysisResponse) (w' : World),
     BackendApp.alternative_roles w = (Return r, w')
     /\ BackendApp.an_success r = false /\ BackendApp.an_status r = 500
     /\ steady w w')
  /\ (default false (resume_uploaded s) = true ->
      default "" (resume_text s) = "" ->
      exists (ts : string) (w' : World),
        BackendApp.alternative_roles w
        = (Return (BackendApp.Analysis true UPLOAD_FIRST
                     (Some "alternative_roles") None (Some ts) 200), w')
        /\ steady w w').
Proof.
  intros s. unfold BackendApp.alternative_roles, BackendApp.analysis_route,
    try_except, mbind, py_bind, bind.
  destruct (is_resume_uploaded_run "default" w) as (w1 & E1 & S1).
  fold s in E1. rewrite E1. split.
  - intros H. rewrite H. cbn [negb]. do 2 eexists.
    split; [reflexivity|]. split; [reflexivity|]. split; [reflexivity|exact S1].
  - intros H Ht. rewrite H. cbn [negb].
    unfold reverse_job_matcher, mbind, py_bind, bind, ret.
    cbn [load_memory BackendMemory.layer].
    destruct (load_memory_spec "default" w1) as (m & w2 & E2 & S2 & Hc & _).
    apply core_fields in Hc as (_ & _ & Hrt & _ & _).
    destruct S1 as [Q1 F1]. rewrite F1 in Hrt. fold s in Hrt.
    destruct (session_fields (memory_file w) "default") as (_ & _ & Srt & _ & _).
    fold s in Srt. rewrite Ht in Srt.
    rewrite E2, Hrt, Srt. cbn [truthy_str PyStr.is_empty negb].
    rewrite utcnow_run. do 2 eexists. split; [reflexivity|].
    eapply steady_trans; [exact (conj Q1 F1)|].
    eapply steady_trans; [exact S2|apply quiet_tick].
Qed.

(** X19: [alternative_roles] answers with status 500 when the uploaded flag
    is not set, without sending anything.  The flag alone does not open the
    analysis: with the flag set and an empty stored text the answer has status
    200 and carries the upload notice, and again nothing is sent. *)
Theorem alternative_roles_guards (w : World) :
  let s := session (memory_file w) "default" in
  (default false (resume_uploaded s) = false ->
   exists (r : BackendApp.AnalysisResponse) (w' : World),
     BackendApp.alternative_roles w = (Return r, w')
     /\ BackendApp.an_success r = false /\ BackendApp.an_status r = 500
     /\ steady w w')
  /\ (default false (resume_uploaded s) = true ->
      default "" (resume_text s) = "" ->
      exists (ts : string) (w' : World),
        BackendApp.alternative_roles w
        = (Return (BackendApp.Analysis true
                     "📄 Please upload your resume first."
                     (Some "alternative_roles") None (Some ts) 200), w')
        /\ steady w w').
Proof. apply alternative_roles_cases. Qed.

Lemma alternative_roles_guards_witness :
  (exists (r : BackendApp.AnalysisResponse) (w' : World),
     BackendApp.alternative_roles (canned_world FileMissing "ok") = (Return r, w')
     /\ BackendApp.an_status r = 500)
  /\ (exists (ts : string) (w' : World),
        BackendApp.alternative_roles
          (canned_world
             (FileValid {[ "default" := set_resume_uploaded true sample_record ]})
             "ok")
        = (Return (BackendApp.Analysis true
                     "📄 Please upload your resume first."
                     (Some "alternative_roles") None (Some ts) 200), w')).
Proof.
  split.
  - destruct (proj1 (alternative_roles_guards (canned_world FileMissing "ok")))
      as (r & w' & E & _ & S & _); [vm_compute; reflexivity|].
    now exists r, w'.
  - destruct (proj2 (alternative_roles_guards
                       (canned_world
                          (FileValid
                             {[ "default" := set_resume_uploaded true sample_record ]})
                          "ok")))
      as (ts & w' & E & _); try (vm_compute; reflexivity).
    now exists ts, w'.
Defined.





(** ** The chat endpoint, turn by turn *)


















(** X22: a message that is one of the four greetings once lowered and
    trimmed gets the fixed greeting; nothing is sent to any service and STAR
    mode stays as it was, so a greeting does not use up a pending STAR
    request. *)
Theorem greeting_is_answered_locally (user_input : string) (w : World) :
  PyStr.member (PyStr.strip (PyStr.lower user_input))
    ["hi"; "hello"; "hey"; "greetings"] = true ->
  exists (ts : string) (w' : World),
    BackendApp.chat_endpoint user_input w
    = (Return (BackendApp.Json true
                 "👋 Hello! I'm your Career AI Assistant. How can I help with your career today?"
                 None (Some ts) 200), w')
    /\ trace w' = trace w
    /\ star_mode (session (memory_file w') "default")
       = star_mode (session (memory_file w) "default").
Proof. apply chat_endpoint_greeting. Qed.

Lemma greeting_is_answered_locally_witness :
  exists (ts : string) (w' : World),
    BackendApp.chat_endpoint "  Hello " (offline_world star_file)
    = (Return (BackendApp.Json true
                 "👋 Hello! I'm your Career AI Assistant. How can I help with your career today?"
                 None (Some ts) 200), w')
    /\ trace w' = []
    /\ star_mode (session (memory_file w') "default") = Some true.
Proof.
  apply (greeting_is_answered_locally "  Hello " (offline_world star_file)).
  vm_compute. reflexivity.
Defined.

Lemma chat_endpoint_star_request (user_input : string) (w : World) :
  let text := PyStr.strip (PyStr.lower user_input) in
  PyStr.member text BackendApp.GREETINGS = false ->
  star_mode (session (memory_file w) "default") = Some false ->
  PyStr.contains "star" text || PyStr.contains "behavioral" text
  || PyStr.contains "interview story" text = true ->
  exists (ts : string) (w' : World),
    BackendApp.chat_endpoint user_input w
    = (Return (BackendApp.Json true BackendApp.STAR_ASK None (Some ts) 200), w')
    /\ quiet w w'
    /\ star_mode (session (memory_file w') "default") = Some true.
Proof.
  intros text Hg Hs Ht.
  destruct (chat_try_frame user_input w) as (w4 & Q4 & _ & _ & _ & Hk).
  destruct (set_star_mode_spec "default" true w4)
    as (m6 & w6 & E6 & Q6 & F6 & D6 & S6 & _).
  destruct (Hk BackendApp.STAR_ASK w6) as (w8 & ts & E8 & Q8 & S8 & _).
  { fold text. unfold BackendApp.routing_logic. rewrite Hg, Hs, Ht.
    cbn [default from_option id]. unfold mbind, py_bind, bind.
    rewrite E6. reflexivity. }
  exists ts, w8. split; [exact E8|]. split.
  - eapply quiet_trans; [exact Q4|]. eapply quiet_trans; [exact Q6|exact Q8].
  - rewrite S8. now rewrite (session_after_write _ _ _ _ F6 D6).
Qed.

(** X23: outside STAR mode, a message that contains ["star"],
    ["behavioral"] or ["interview story"] anywhere (also inside a word) is
    answered with the request for a story and nothing is sent; the next
    message that is not a greeting is then sent to the language model as a
    STAR story, once, and STAR mode is off again. *)
Theorem star_request_then_story (request story : string) (w : World) :
  let text := PyStr.strip (PyStr.lower request) in
  let prompt :=
    "
You are an interview coach.

User's raw story:
" +:+ story +:+ "

Task:
- Extract Situation
- Extract Task
- Extract Action
- Extract Result

Then generate:
- A polished 30-second interview answer
- Clear, confident, professional tone
" in
  PyStr.member text ["hi"; "hello"; "hey"; "greetings"] = false ->
  star_mode (session (memory_file w) "default") = Some false ->
  PyStr.contains "star" text || PyStr.contains "behavioral" text
  || PyStr.contains "interview story" text = true ->
  PyStr.member (PyStr.strip (PyStr.lower story))
    ["hi"; "hello"; "hey"; "greetings"] = false ->
  exists (ts1 ts2 : string) (w1 w2 : World),
    BackendApp.chat_endpoint request w
    = (Return (BackendApp.Json true
                 "📝 I'll help you create a STAR interview answer. Please describe your experience or situation."
                 None (Some ts1) 200), w1)
    /\ trace w1 = trace w
    /\ BackendApp.chat_endpoint story w1
       = (Return (BackendApp.Json true (gateway_answer w1 prompt)
                    None (Some ts2) 200), w2)
    /\ trace w2
       = trace w
         ++ [Gateway (SYSTEM_PROMPT +:+ nl +:+ nl +:+ "User question:"
                      +:+ nl +:+ prompt)]
    /\ star_mode (session (memory_file w2) "default") = Some false.
Proof.
  intros text prompt Hg Hs Ht Hg2.
  change prompt with (star_prompt story).
  destruct (chat_endpoint_star_request request w Hg Hs Ht)
    as (ts1 & w1 & E1 & [_ T1] & S1).
  destruct (chat_endpoint_star story w1 S1 Hg2) as (ts2 & w2 & E2 & T2 & S2).
  exists ts1, ts2, w1, w2. rewrite T1 in T2. now repeat split.
Qed.

Lemma star_request_then_story_witness :
  exists (ts1 ts2 : string) (w1 w2 : World),
    BackendApp.chat_endpoint "How do I start?" (canned_world FileMissing "ok")
    = (Return (BackendApp.Json true
                 "📝 I'll help you create a STAR interview answer. Please describe your experience or situation."
                 None (Some ts1) 200), w1)
    /\ trace w1 = []
    /\ BackendApp.chat_endpoint "I led a migration" w1
       = (Return (BackendApp.Json true "ok" None (Some ts2) 200), w2)
    /\ (exists sent : string,
          trace w2 = [Gateway sent]
          /\ PyStr.contains "User's raw story:
I led a migration

Task:" sent = true)
    /\ star_mode (session (memory_file w2) "default") = Some false.
Proof.
  destruct (star_request_then_story "How do I start?" "I led a migration"
              (canned_world FileMissing "ok"))
    as (ts1 & ts2 & w1 & w2 & E1 & T1 & E2 & T2 & S2);
    try (vm_compute; reflexivity).
  exists ts1, ts2, w1, w2. split; [exact E1|]. split; [exact T1|].
  assert (Hw : snd (BackendApp.chat_endpoint "How do I start?"
                      (canned_world FileMissing "ok")) = w1)
    by (rewrite E1; reflexivity).
  split.
  - rewrite E2. do 3 f_equal. rewrite <- Hw. vm_compute. reflexivity.
  - split; [|exact S2]. eexists. split; [exact T2|]. vm_compute. reflexivity.
Defined.

Lemma chat_endpoint_job_search (user_input : string) (w : World) :
  let text := PyStr.strip (PyStr.lower user_input) in
  let cleaned :=
    PyStr.strip (PyStr.replace "for" "" (PyStr.replace "jobs" "" user_input)) in
  let sent := if PyStr.is_empty cleaned then "developer" else cleaned in
  PyStr.member text BackendApp.GREETINGS = false ->
  star_mode (session (memory_file w) "default") = Some false ->
  PyStr.contains "star" text || PyStr.contains "behavioral" text
  || PyStr.contains "interview story" text = false ->
  PyStr.contains_any BackendApp.RESUME_MARKERS text = false ->
  PyStr.contains_any BackendApp.JOB_KEYWORDS text = true ->
  resume_uploaded (session (memory_file w) "default") = Some false ->
  exists (lines : list string) (ts : string) (w' : World),
    BackendApp.chat_endpoint user_input w
    = (Return (BackendApp.Json true (BackendApp.general_jobs_reply lines)
                 None (Some ts) 200), w')
    /\ trace w' = trace w ++ [LinkedInGet sent]
    /\ (1 <= length lines <= 5)%nat.
Proof.
  intros text cleaned sent Hg Hs Ht Hm Hj Hu.
  destruct (chat_try_frame user_input w) as (w4 & Q4 & _ & _ & _ & Hk).
  destruct (search_jobs_cases user_input w4) as (lines & E & _ & _ & Hl).
  fold cleaned sent in E.
  destruct (Hk (BackendApp.general_jobs_reply lines)
              (with_event (LinkedInGet sent) w4)) as (w8 & ts & E8 & Q8 & _).
  { fold text. unfold BackendApp.routing_logic, BackendApp.job_branch.
    rewrite Hg, Hs, Ht, Hm, Hj, Hu. cbn [default from_option id andb].
    unfold mbind, py_bind, bind. rewrite E. reflexivity. }
  exists lines, ts, w8. split; [exact E8|]. split; [|exact Hl].
  destruct Q8 as [_ ->]. cbn [trace with_event]. now destruct Q4 as [_ ->].
Qed.

Lemma general_jobs_reply_lines (lines : list string) :
  (1 <= length lines)%nat ->
  BackendApp.general_jobs_reply lines
  = "💼 **Job Opportunities:**" +:+ nl +:+ nl
    +:+ String.concat (nl +:+ nl) lines.
Proof.
  intros H. destruct lines as [|l lines]; [cbn in H; lia|].
  unfold BackendApp.general_jobs_reply. now rewrite join_concat.
Qed.

(** X24: outside STAR mode and with no resume uploaded, a message with a
    job keyword (and no greeting, STAR or resume wording) is answered from
    LinkedIn alone: one request is made, for the message as typed without
    the occurrences of ["jobs"] and ["for"], and the reply lists between one
    and five entries under the job header; the language model is not
    called. *)
Theorem job_question_searches_linkedin (user_input : string) (w : World) :
  let text := PyStr.strip (PyStr.lower user_input) in
  let cleaned :=
    PyStr.strip (PyStr.replace "for" "" (PyStr.replace "jobs" "" user_input)) in
  let sent := if PyStr.is_empty cleaned then "developer" else cleaned in
  PyStr.member text ["hi"; "hello"; "hey"; "greetings"] = false ->
  star_mode (session (memory_file w) "default") = Some false ->
  PyStr.contains "star" text || PyStr.contains "behavioral" text
  || PyStr.contains "interview story" text = false ->
  PyStr.contains_any
    ["based on my resume"; "from my resume"; "my resume";
     "according to my resume"] text = false ->
  PyStr.contains_any
    ["job"; "jobs"; "internship"; "intern"; "position"; "opening"; "vacancy"]
    text = true ->
  resume_uploaded (session (memory_file w) "default") = Some false ->
  exists (lines : list string) (ts : string) (w' : World),
    BackendApp.chat_endpoint user_input w
    = (Return (BackendApp.Json true
                 ("💼 **Job Opportunities:**" +:+ nl +:+ nl
                  +:+ String.concat (nl +:+ nl) lines)
                 None (Some ts) 200), w')
    /\ BackendApp.general_jobs_reply lines
       = "💼 **Job Opportunities:**" +:+ nl +:+ nl
         +:+ String.concat (nl +:+ nl) lines
    /\ trace w' = trace w ++ [LinkedInGet sent]
    /\ (1 <= length lines <= 5)%nat.
Proof.
  intros text cleaned sent Hg Hs Ht Hm Hj Hu.
  destruct (chat_endpoint_job_search user_input w Hg Hs Ht Hm Hj Hu)
    as (lines & ts & w' & E & T & Hl).
  exists lines, ts, w'.
  rewrite <- (general_jobs_reply_lines lines) by lia.
  split; [exact E|]. split; [reflexivity|]. split; [exact T|exact Hl].
Qed.

Lemma job_question_searches_linkedin_witness :
  exists (lines : list string) (ts : string) (w' : World),
    BackendApp.chat_endpoint "jobs for Rust" (offline_world FileMissing)
    = (Return (BackendApp.Json true
                 ("💼 **Job Opportunities:**" +:+ nl +:+ nl
                  +:+ String.concat (nl +:+ nl) lines)
                 None (Some ts) 200), w')
    /\ trace w' = [LinkedInGet "Rust"]
    /\ (1 <= length lines <= 5)%nat.
Proof.
  destruct (job_question_searches_linkedin "jobs for Rust"
              (offline_world FileMissing))
    as (lines & ts & w' & E & _ & T & Hl); try (vm_compute; reflexivity).
  exists lines, ts, w'. split; [exact E|]. split; [exact T|exact Hl].
Defined.

(** ** The Gradio application *)

(** X25: without an API key the JSearch [search_jobs] returns its one-line
    warning and makes no request.  With a key it makes exactly one request
    for the query as given; an exception of the request is not caught; and
    when it returns there are between one and three lines. *)
Theorem jsearch_search_outcomes (query : string) (w : World) :
  (jsearch_key w = false ->
   RootJobs.search_jobs query w
   = (Return ["⚠️ Job search API key not configured"], w))
  /\ (jsearch_key w = true ->
      exists o : outcome (list string),
        RootJobs.search_jobs query w = (o, with_event (JSearchGet query) w)
        /\ (forall e : exn,
              jsearch w (length (trace w)) query = JRaises e -> o = Raise e)
        /\ (forall lines : list string,
              o = Return lines -> (1 <= length lines <= 3)%nat)).
Proof. apply root_search_jobs_cases. Qed.

Lemma jsearch_search_outcomes_witness :
  RootJobs.search_jobs "python" (offline_world FileMissing)
  = (Return ["⚠️ Job search API key not configured"], offline_world FileMissing)
  /\ exists o : outcome (list string),
       RootJobs.search_jobs "python"
         (MkWorld FileMissing 0 counting_clock []
            (fun _ _ => GenText "")
            (fun _ _ => FetchResponse 200 [])
            true
            (fun _ _ => JResponse 200
                          [JJob (Some "Dev") (Some "Acme");
                           JJob (Some "SRE") (Some "Initech");
                           JJob (Some "QA") (Some "Hooli");
                           JJob None None]))
       = (o, with_event (JSearchGet "python")
               (MkWorld FileMissing 0 counting_clock []
                  (fun _ _ => GenText "")
                  (fun _ _ => FetchResponse 200 [])
                  true
                  (fun _ _ => JResponse 200
                                [JJob (Some "Dev") (Some "Acme");
                                 JJob (Some "SRE") (Some "Initech");
                                 JJob (Some "QA") (Some "Hooli");
                                 JJob None None]))).
Proof.
  split.
  - apply (proj1 (jsearch_search_outcomes "python" (offline_world FileMissing))).
    reflexivity.
  - destruct (proj2 (jsearch_search_outcomes "python"
                       (MkWorld FileMissing 0 counting_clock []
                          (fun _ _ => GenText "")
                          (fun _ _ => FetchResponse 200 [])
                          true
                          (fun _ _ => JResponse 200
                                        [JJob (Some "Dev") (Some "Acme");
                                         JJob (Some "SRE") (Some "Initech");
                                         JJob (Some "QA") (Some "Hooli");
                                         JJob None None]))) eq_refl)
      as (o & E & _).
    now exists o.
Defined.

Lemma agent_controller_job_error (user_input : string)
    (chat_history : list RootApp.chat_msg) (w : World) (e : exn) :
  let text := PyStr.strip (PyStr.lower user_input) in
  let m := default empty_dict (stored_all (memory_file w) !! "default") in
  memory_file w <> FileCorrupt ->
  PyStr.member text ["hi"; "hello"; "hey"] = false ->
  default false (star_mode m) = false ->
  PyStr.contains "star" text || PyStr.contains "behavioral" text = false ->
  PyStr.contains "improve" text && PyStr.contains "resume" text = false ->
  PyStr.contains "interview" text && PyStr.contains "question" text = false ->
  PyStr.contains_any ["job"; "jobs"; "internship"; "intern"] text = true ->
  jsearch_key w = true ->
  jsearch w (length (trace w)) user_input = JRaises e ->
  exists w' : World,
    RootApp.agent_controller user_input chat_history w = (Raise e, w')
    /\ memory_file w' = memory_file w
    /\ trace w' = trace w ++ [JSearchGet user_input].
Proof.
  intros text m Hf Hg Hs Ht Hi Hq Hj Hk He.
  unfold RootApp.agent_controller, mbind, py_bind, bind.
  rewrite (root_load_readable _ _ Hf). fold m. rewrite utcnow_run. fold text.
  rewrite Hg, Hs, Ht, Hi, Hq, Hj.
  unfold RootJobs.search_jobs. cbn [jsearch_key with_tick trace jsearch].
  rewrite Hk, He. cbn [negb]. eexists. split; [reflexivity|]. now split.
Qed.

(** X26: the Gradio controller does not catch a failure of the job search:
    when a message reaches the job branch, the API key is set and the JSearch
    request raises, [agent_controller] raises the same exception after that
    one request, and the message is not stored (the memory file is as it
    was). *)
Theorem controller_job_error_propagates (user_input : string)
    (chat_history : list RootApp.chat_msg) (w : World) (e : exn) :
  let text := PyStr.strip (PyStr.lower user_input) in
  let m := default empty_dict (stored_all (memory_file w) !! "default") in
  memory_file w <> FileCorrupt ->
  PyStr.member text ["hi"; "hello"; "hey"] = false ->
  default false (star_mode m) = false ->
  PyStr.contains "star" text || PyStr.contains "behavioral" text = false ->
  PyStr.contains "improve" text && PyStr.contains "resume" text = false ->
  PyStr.contains "interview" text && PyStr.contains "question" text = false ->
  PyStr.contains_any ["job"; "jobs"; "internship"; "intern"] text = true ->
  jsearch_key w = true ->
  jsearch w (length (trace w)) user_input = JRaises e ->
  exists w' : World,
    RootApp.agent_controller user_input chat_history w = (Raise e, w')
    /\ memory_file w' = memory_file w
    /\ trace w' = trace w ++ [JSearchGet user_input].
Proof. apply agent_controller_job_error. Qed.

Lemma controller_job_error_propagates_witness :
  exists w' : World,
    RootApp.agent_controller "python jobs" []
      (MkWorld FileMissing 0 counting_clock []
         (fun _ _ => GenText "")
         (fun _ _ => FetchResponse 200 [])
         true
         (fun _ _ => JRaises (Exception "ConnectionError" "network unreachable")))
    = (Raise (Exception "ConnectionError" "network unreachable"), w')
    /\ memory_file w' = FileMissing
    /\ trace w' = [JSearchGet "python jobs"].
Proof.
  apply (controller_job_error_propagates "python jobs" []
           (MkWorld FileMissing 0 counting_clock []
              (fun _ _ => GenText "")
              (fun _ _ => FetchResponse 200 [])
              true
              (fun _ _ => JRaises (Exception "ConnectionError" "network unreachable")))
           (Exception "ConnectionError" "network unreachable"));
    solve [discriminate | vm_compute; reflexivity].
Defined.

(** X27: whenever the Gradio controller returns, the chat shown is the
    earlier one followed by the message and the reply, the text box is
    cleared, and the memory it returns is the stored one: it holds the reply
    as [last_response] and the earlier history followed by this message (with
    no cap), and the resume as it was. *)
Theorem controller_return_shape (user_input : string)
    (chat_history : list RootApp.chat_msg) (w : World)
    (r : list RootApp.chat_msg * Memory * string) (w' : World) :
  let m := default empty_dict (stored_all (memory_file w) !! "default") in
  RootApp.agent_controller user_input chat_history w = (Return r, w') ->
  exists (response t : string) (final : Memory),
    r = (chat_history
         ++ [RootApp.ChatMsg "user" user_input;
             RootApp.ChatMsg "assistant" response], final, "")
    /\ stored_all (memory_file w') !! "default" = Some final
    /\ last_response final = Some response
    /\ history final = Some (default [] (history m) ++ [HUser t user_input])
    /\ resume_text final = resume_text m
    /\ resume_uploaded final = resume_uploaded m.
Proof.
  intros m H.
  destruct (agent_controller_shape _ _ _ _ _ H)
    as (response & t & final & Hr & Hs & Hl & Hh & Hrt & Hru & _).
  exists response, t, final. now repeat split.
Qed.

Lemma controller_return_shape_witness :
  exists (response t : string) (final : Memory),
    fst (RootApp.agent_controller "hi" [] (offline_world FileMissing))
    = Return ([] ++ [RootApp.ChatMsg "user" "hi";
                     RootApp.ChatMsg "assistant" response], final, "")
    /\ last_response final = Some response
    /\ history final = Some ([] ++ [HUser t "hi"]).
Proof.
  edestruct (controller_return_shape "hi" [] (offline_world FileMissing))
    as (response & t & final & Hr & _ & Hl & Hh & _);
    [vm_compute; reflexivity|].
  exists response, t, final. split; [|split; [exact Hl|exact Hh]].
  rewrite <- Hr. vm_compute. reflexivity.
Defined.

(** ** backend/resume.py *)

Lemma analyze_resume_run (pages : list (option string)) (user_id : string)
    (w : World) :
  let text :=
    PyStr.take 3000
      (PyStr.join nl
         (map (fun page => if truthy_str page then default "" page else "")
              pages)) in
  exists w' : World,
    BackendResume.analyze_resume (Return pages) user_id w
    = (Return (gateway_answer w (BackendResume.resume_prompt text)), w')
    /\ trace w'
       = trace w ++ [Gateway (full_prompt_of (BackendResume.resume_prompt text))]
    /\ fst (BackendMemory.get_resume_text user_id w') = Return text
    /\ fst (BackendMemory.is_resume_uploaded user_id w') = Return true.
Proof.
  intros text. unfold BackendResume.analyze_resume, lift, mbind, py_bind, bind.
  fold text. rewrite query_llm_run.
  match goal with
  | |- context [BackendMemory.load_memory user_id ?v] =>
      destruct (load_memory_spec user_id v) as (m & w1 & E & S & _ & _);
        set (w0 := v) in *
  end.
  rewrite E.
  match goal with
  | |- context [BackendMemory.save_memory user_id ?X w1] =>
      destruct (save_after_load user_id X w0 w1 S) as (w' & Es & [_ T] & F);
        destruct (saved_fields (clock w1 (ticks w1)) X)
          as (Fd & _ & _ & Frt & Fru & _)
  end.
  rewrite Es. exists w'. split; [reflexivity|]. split; [rewrite T; reflexivity|].
  pose proof (session_after_write _ _ _ _ F Fd) as Hs.
  destruct (get_resume_text_run user_id w') as (? & -> & _).
  destruct (is_resume_uploaded_run user_id w') as (? & -> & _).
  cbn [fst]. rewrite Hs, Frt, Fru. now split.
Qed.

(** X28: [analyze_resume] of [backend/resume.py], over the store of
    [backend/memory.py]: when the PDF cannot be opened the exception leaves
    the function before anything is sent or stored; otherwise one prompt with
    the first 3000 characters of the text of the pages is sent, the answer is
    returned, and those characters are stored as the resume with the uploaded
    flag set. *)
Theorem analyze_resume_outcomes (pdf : outcome (list (option string)))
    (user_id : string) (w : World) :
  match pdf with
  | Raise e => BackendResume.analyze_resume pdf user_id w = (Raise e, w)
  | Return pages =>
      let text :=
        PyStr.take 3000
          (String.concat nl
             (map (fun page => if truthy_str page then default "" page else "")
                  pages)) in
      let prompt :=
        "
Analyze this resume and give improvement suggestions:

" +:+ text +:+ "
" in
      exists w' : World,
        BackendResume.analyze_resume pdf user_id w
        = (Return (gateway_answer w prompt), w')
        /\ trace w'
           = trace w
             ++ [Gateway (SYSTEM_PROMPT +:+ nl +:+ nl +:+ "User question:"
                          +:+ nl +:+ prompt)]
        /\ fst (BackendMemory.get_resume_text user_id w') = Return text
        /\ fst (BackendMemory.is_resume_uploaded user_id w') = Return true
  end.
Proof.
  destruct pdf as [pages|e]; [|reflexivity].
  rewrite <- join_concat. apply analyze_resume_run.
Qed.
